(** * Authoritative Pong server: a shallow embedding and its properties

    The server (a Node.js program) keeps three process-wide registries
    (rooms, waiting queue, clients), reacts to WebSocket events and runs two
    interval timers per room.  The embedding below follows the source
    function by function.

    Conventions of the embedding.
    - A JavaScript number is a [JS.number]: NaN, the two infinities, or a
      finite value.  Finite values are idealised as real numbers: rounding
      of IEEE doubles, overflow of finite arithmetic and the sign of zero
      are not modelled.
    - Integer-valued quantities that the source only ever adds small
      integers to (hearts, millisecond timestamps) are [Z].
    - [Math.random()], [Date.now()] and [uuidv4()] are read from the
      environment part of the state ([w_entropy], [w_clock], [w_uuid]).
    - A [ws] object is a cell of the socket store; rooms, the queue and the
      client registry hold references ([wsref]) into it, so that the
      aliasing of the source is kept. *)

From Stdlib Require Import Reals Lra Lia ZArith Ascii String.
From stdpp Require Import gmap strings list.

Local Open Scope Z_scope.

(** ** JavaScript numbers *)

Module JS.

Inductive number : Type :=
| NaN
| PInf
| NInf
| Finite (r : R).

Definition is_finite (a : number) : Prop :=
  match a with Finite _ => True | _ => False end.

(** Sign of a number that is not NaN: [Lt] negative, [Eq] zero, [Gt]
    positive. *)
Definition sign (a : number) : comparison :=
  match a with
  | NaN => Eq
  | PInf => Gt
  | NInf => Lt
  | Finite r =>
      if Rlt_dec r 0 then Lt else if Rlt_dec 0 r then Gt else Eq
  end.

Definition neg (a : number) : number :=
  match a with
  | NaN => NaN
  | PInf => NInf
  | NInf => PInf
  | Finite r => Finite (- r)
  end.

Definition add (a b : number) : number :=
  match a, b with
  | NaN, _ | _, NaN => NaN
  | PInf, NInf | NInf, PInf => NaN
  | PInf, _ | _, PInf => PInf
  | NInf, _ | _, NInf => NInf
  | Finite x, Finite y => Finite (x + y)
  end.

Definition sub (a b : number) : number := add a (neg b).

(** An infinity of the sign [s]; NaN for the sign of zero. *)
Definition inf_of_sign (s : comparison) : number :=
  match s with Gt => PInf | Lt => NInf | Eq => NaN end.

Definition sign_mul (s t : comparison) : comparison :=
  match s, t with
  | Eq, _ | _, Eq => Eq
  | Gt, Gt | Lt, Lt => Gt
  | _, _ => Lt
  end.

Definition mul (a b : number) : number :=
  match a, b with
  | NaN, _ | _, NaN => NaN
  | Finite x, Finite y => Finite (x * y)
  | _, _ => inf_of_sign (sign_mul (sign a) (sign b))
  end.

(** Division; a finite non-zero value over zero is the infinity of the
    sign of the dividend (the zero is taken as positive). *)
Definition div (a b : number) : number :=
  match a, b with
  | NaN, _ | _, NaN => NaN
  | Finite x, Finite y =>
      if Req_dec_T y 0 then inf_of_sign (sign a) else Finite (x / y)
  | Finite _, _ => Finite 0
  | _, Finite _ =>
      inf_of_sign (sign_mul (sign a) (match sign b with Lt => Lt | _ => Gt end))
  | _, _ => NaN
  end.

(** [a < b], [a <= b], [a > b], [a >= b]: false as soon as one side is
    NaN. *)
Definition lt (a b : number) : bool :=
  match a, b with
  | NaN, _ | _, NaN => false
  | _, NInf => false
  | NInf, _ => true
  | PInf, _ => false
  | Finite _, PInf => true
  | Finite x, Finite y => if Rlt_dec x y then true else false
  end.

Definition le (a b : number) : bool :=
  match a, b with
  | NaN, _ | _, NaN => false
  | NInf, _ => true
  | _, PInf => true
  | _, NInf => false
  | PInf, _ => false
  | Finite x, Finite y => if Rle_dec x y then true else false
  end.

Definition gt (a b : number) : bool := lt b a.
Definition ge (a b : number) : bool := le b a.

(** [Math.max], [Math.min]: NaN if either argument is. *)
Definition Math_max (a b : number) : number :=
  match a, b with
  | NaN, _ | _, NaN => NaN
  | PInf, _ | _, PInf => PInf
  | NInf, x | x, NInf => x
  | Finite x, Finite y => Finite (Rmax x y)
  end.

Definition Math_min (a b : number) : number :=
  match a, b with
  | NaN, _ | _, NaN => NaN
  | NInf, _ | _, NInf => NInf
  | PInf, x | x, PInf => x
  | Finite x, Finite y => Finite (Rmin x y)
  end.

Definition Math_abs (a : number) : number :=
  match a with
  | NaN => NaN
  | PInf | NInf => PInf
  | Finite r => Finite (Rabs r)
  end.

Definition Math_sin (a : number) : number :=
  match a with Finite r => Finite (sin r) | _ => NaN end.

Definition Math_cos (a : number) : number :=
  match a with Finite r => Finite (cos r) | _ => NaN end.

(** An integer as a number. *)
Definition of_Z (z : Z) : number := Finite (IZR z).

End JS.

Import JS.

Declare Scope js_scope.
Delimit Scope js_scope with js.
Bind Scope js_scope with number.
Infix "+" := JS.add : js_scope.
Infix "-" := JS.sub : js_scope.
Infix "*" := JS.mul : js_scope.
Infix "/" := JS.div : js_scope.
Notation "- a" := (JS.neg a) : js_scope.
Infix "<?" := JS.lt : js_scope.
Infix "<=?" := JS.le : js_scope.
Infix ">?" := JS.gt : js_scope.
Infix ">=?" := JS.ge : js_scope.

Arguments JS.add : simpl never.
Arguments JS.sub : simpl never.
Arguments JS.mul : simpl never.
Arguments JS.div : simpl never.
Arguments JS.neg : simpl never.
Arguments JS.lt : simpl never.
Arguments JS.le : simpl never.
Arguments JS.gt : simpl never.
Arguments JS.ge : simpl never.
Arguments JS.Math_max : simpl never.
Arguments JS.Math_min : simpl never.
Arguments JS.Math_abs : simpl never.
Arguments JS.Math_sin : simpl never.
Arguments JS.Math_cos : simpl never.

(** ** World constants (source lines 15-28) *)

Definition WORLD_W : number := Finite 900.
Definition WORLD_H : number := Finite 1600.
Definition TICK_RATE : number := Finite 60.
Definition SEND_RATE : number := Finite 30.
Definition MAX_DT : number := Finite 0.05.
Definition PADDING : number := Finite 70.
Definition PADDLE_WIDTH_FRAC : number := Finite 0.28.
Definition PADDLE_HEIGHT_FRAC : number := Finite 0.02.
Definition BALL_RADIUS_FRAC : number := Finite 0.018.
Definition INIT_BALL_SPEED : number := Finite 780.
Definition MAX_BALL_SPEED : number := Finite 1200.
Definition SPEED_UP : number := Finite 1.03.
Definition MAX_BOUNCE_ANGLE : number := Finite 1.05.
Definition HEARTS_START : Z := 3.

(** [clamp(v, min, max)] (source lines 44-46). *)
Definition clamp (v min max : number) : number :=
  Math_max min (Math_min max v).

(** ** Data model *)

Inductive side : Type := TopSide | BottomSide.
Inductive phase : Type := Countdown | Playing | Between | Gameover.
Inductive ready_state : Type := CONNECTING | OPEN | CLOSING | CLOSED.
Inductive loop_kind : Type := TickLoop | SendLoop.

#[global] Instance side_eq_dec : EqDecision side.
Proof. solve_decision. Defined.
#[global] Instance phase_eq_dec : EqDecision phase.
Proof. solve_decision. Defined.
#[global] Instance ready_state_eq_dec : EqDecision ready_state.
Proof. solve_decision. Defined.

(** Identifiers produced by [uuidv4()], references to [ws] objects and
    interval handles. *)
Abbreviation uuid := nat (only parsing).
Abbreviation wsref := nat (only parsing).
Abbreviation timer := nat (only parsing).

(** The fields the server keeps on a [ws] object (source lines 464-468),
    and the [readyState] of the underlying socket. *)
Record Socket : Type := mkSocket {
  ws_id : uuid;
  ws_name : string;
  ws_roomId : option uuid;
  ws_side : option side;
  ws_isAlive : bool;
  ws_readyState : ready_state
}.

Definition set_ws_name (v : string) (s : Socket) : Socket :=
  mkSocket (ws_id s) v (ws_roomId s) (ws_side s) (ws_isAlive s) (ws_readyState s).
Definition set_ws_roomId (v : option uuid) (s : Socket) : Socket :=
  mkSocket (ws_id s) (ws_name s) v (ws_side s) (ws_isAlive s) (ws_readyState s).
Definition set_ws_side (v : option side) (s : Socket) : Socket :=
  mkSocket (ws_id s) (ws_name s) (ws_roomId s) v (ws_isAlive s) (ws_readyState s).
Definition set_ws_readyState (v : ready_state) (s : Socket) : Socket :=
  mkSocket (ws_id s) (ws_name s) (ws_roomId s) (ws_side s) (ws_isAlive s) v.

Record Player : Type := mkPlayer {
  p_ws : option wsref;
  p_id : uuid;
  p_name : string;
  p_hearts : Z
}.

Definition set_p_ws (v : option wsref) (p : Player) : Player :=
  mkPlayer v (p_id p) (p_name p) (p_hearts p).
Definition set_p_hearts (v : Z) (p : Player) : Player :=
  mkPlayer (p_ws p) (p_id p) (p_name p) v.

Record Players : Type := mkPlayers { pl_top : Player; pl_bottom : Player }.

Record Params : Type := mkParams {
  par_W : number; par_H : number; par_pw : number; par_ph : number;
  par_r : number; par_topY : number; par_bottomY : number
}.

Record Paddles : Type := mkPaddles { topX : number; bottomX : number }.

Record Ball : Type := mkBall {
  b_x : number; b_y : number; b_vx : number; b_vy : number; b_speed : number
}.

Definition set_b_x (v : number) (b : Ball) : Ball :=
  mkBall v (b_y b) (b_vx b) (b_vy b) (b_speed b).
Definition set_b_y (v : number) (b : Ball) : Ball :=
  mkBall (b_x b) v (b_vx b) (b_vy b) (b_speed b).
Definition set_b_vx (v : number) (b : Ball) : Ball :=
  mkBall (b_x b) (b_y b) v (b_vy b) (b_speed b).
Definition set_b_vy (v : number) (b : Ball) : Ball :=
  mkBall (b_x b) (b_y b) (b_vx b) v (b_speed b).
Definition set_b_speed (v : number) (b : Ball) : Ball :=
  mkBall (b_x b) (b_y b) (b_vx b) (b_vy b) v.

Record Votes : Type := mkVotes { vote_top : bool; vote_bottom : bool }.
Record Loops : Type := mkLoops { loop_tick : option timer; loop_send : option timer }.

Record Room : Type := mkRoom {
  r_id : uuid;
  r_players : Players;
  r_params : Params;
  r_paddles : Paddles;
  r_ball : Ball;
  r_phase : phase;
  r_serveToward : side;
  r_nextPhaseAt : Z;
  r_lastTickAt : Z;
  r_lastBroadcastAt : Z;
  r_rematchVotes : Votes;
  r_loops : Loops
}.

Definition set_r_players (v : Players) (r : Room) : Room :=
  mkRoom (r_id r) v (r_params r) (r_paddles r) (r_ball r) (r_phase r)
    (r_serveToward r) (r_nextPhaseAt r) (r_lastTickAt r) (r_lastBroadcastAt r)
    (r_rematchVotes r) (r_loops r).
Definition set_r_paddles (v : Paddles) (r : Room) : Room :=
  mkRoom (r_id r) (r_players r) (r_params r) v (r_ball r) (r_phase r)
    (r_serveToward r) (r_nextPhaseAt r) (r_lastTickAt r) (r_lastBroadcastAt r)
    (r_rematchVotes r) (r_loops r).
Definition set_r_ball (v : Ball) (r : Room) : Room :=
  mkRoom (r_id r) (r_players r) (r_params r) (r_paddles r) v (r_phase r)
    (r_serveToward r) (r_nextPhaseAt r) (r_lastTickAt r) (r_lastBroadcastAt r)
    (r_rematchVotes r) (r_loops r).
Definition set_r_phase (v : phase) (r : Room) : Room :=
  mkRoom (r_id r) (r_players r) (r_params r) (r_paddles r) (r_ball r) v
    (r_serveToward r) (r_nextPhaseAt r) (r_lastTickAt r) (r_lastBroadcastAt r)
    (r_rematchVotes r) (r_loops r).
Definition set_r_serveToward (v : side) (r : Room) : Room :=
  mkRoom (r_id r) (r_players r) (r_params r) (r_paddles r) (r_ball r) (r_phase r)
    v (r_nextPhaseAt r) (r_lastTickAt r) (r_lastBroadcastAt r)
    (r_rematchVotes r) (r_loops r).
Definition set_r_nextPhaseAt (v : Z) (r : Room) : Room :=
  mkRoom (r_id r) (r_players r) (r_params r) (r_paddles r) (r_ball r) (r_phase r)
    (r_serveToward r) v (r_lastTickAt r) (r_lastBroadcastAt r)
    (r_rematchVotes r) (r_loops r).
Definition set_r_lastTickAt (v : Z) (r : Room) : Room :=
  mkRoom (r_id r) (r_players r) (r_params r) (r_paddles r) (r_ball r) (r_phase r)
    (r_serveToward r) (r_nextPhaseAt r) v (r_lastBroadcastAt r)
    (r_rematchVotes r) (r_loops r).
Definition set_r_rematchVotes (v : Votes) (r : Room) : Room :=
  mkRoom (r_id r) (r_players r) (r_params r) (r_paddles r) (r_ball r) (r_phase r)
    (r_serveToward r) (r_nextPhaseAt r) (r_lastTickAt r) (r_lastBroadcastAt r)
    v (r_loops r).
Definition set_r_loops (v : Loops) (r : Room) : Room :=
  mkRoom (r_id r) (r_players r) (r_params r) (r_paddles r) (r_ball r) (r_phase r)
    (r_serveToward r) (r_nextPhaseAt r) (r_lastTickAt r) (r_lastBroadcastAt r)
    (r_rematchVotes r) v.

(** [room.players[side]] and assignment to it. *)
Definition player (s : side) (r : Room) : Player :=
  match s with
  | TopSide => pl_top (r_players r)
  | BottomSide => pl_bottom (r_players r)
  end.

Definition set_player (s : side) (p : Player) (r : Room) : Room :=
  match s with
  | TopSide => set_r_players (mkPlayers p (pl_bottom (r_players r))) r
  | BottomSide => set_r_players (mkPlayers (pl_top (r_players r)) p) r
  end.

(** [room.paddles.topX = x] or [room.paddles.bottomX = x]. *)
Definition set_paddle (s : side) (x : number) (room : Room) : Room :=
  match s with
  | TopSide => set_r_paddles (mkPaddles x (bottomX (r_paddles room))) room
  | BottomSide => set_r_paddles (mkPaddles (topX (r_paddles room)) x) room
  end.

(** [room.rematchVotes[side]] and assignment to it. *)
Definition vote (s : side) (r : Room) : bool :=
  match s with
  | TopSide => vote_top (r_rematchVotes r)
  | BottomSide => vote_bottom (r_rematchVotes r)
  end.

Definition set_vote (s : side) (v : bool) (r : Room) : Room :=
  match s with
  | TopSide => set_r_rematchVotes (mkVotes v (vote_bottom (r_rematchVotes r))) r
  | BottomSide => set_r_rematchVotes (mkVotes (vote_top (r_rematchVotes r)) v) r
  end.

(** ** Outbound messages (the objects handed to [safeSend]) *)

Inductive reason : Type := ReasonHearts | ReasonDisconnect | ReasonTie.

Record Hearts : Type := mkHearts { hearts_top : Z; hearts_bottom : Z }.

Definition hearts_of (r : Room) : Hearts :=
  mkHearts (p_hearts (pl_top (r_players r))) (p_hearts (pl_bottom (r_players r))).

Inductive message : Type :=
| Hello (id : uuid)
| Finding (queueSize : nat)
| QueueCancelled
| MatchFound (roomId : uuid) (topName bottomName : string) (you : side)
    (countdown : Z)
| State (t : Z) (ph : phase) (ball_x ball_y : number) (pads : Paddles)
    (hearts : Hearts) (W H r pw ph_ : number) (you : side)
| Score (hearts : Hearts) (lastMiss : side)
| GameOver (winner : option side) (why : reason) (hearts : Hearts)
| RematchOffered
| RematchStart (countdown : Z)
| ErrorMsg (text : string).

(** ** The state of the process and of its environment *)

Record World : Type := mkWorld {
  (** [rooms]: roomId -> room *)
  w_rooms : gmap uuid Room;
  (** [waitingQueue]: array of ws, oldest first *)
  w_waitingQueue : list wsref;
  (** [clients]: clientId -> ws *)
  w_clients : gmap uuid wsref;
  (** the [ws] objects, by reference *)
  w_sockets : gmap wsref Socket;
  (** running intervals: handle -> the loop it runs and the room object
      its callback closes over (named by the room's registry key) *)
  w_timers : gmap timer (loop_kind * uuid);
  (** frames handed to [ws.send], oldest first *)
  w_outbox : list (wsref * message);
  (** [Date.now()] *)
  w_clock : Z;
  (** the results of [Math.random()], and how many were drawn *)
  w_entropy : nat -> R;
  w_draws : nat;
  (** next [uuidv4()], next [ws] object, next interval handle *)
  w_uuid : uuid;
  w_next_ws : wsref;
  w_next_timer : timer
}.

Definition set_w_rooms (v : gmap uuid Room) (w : World) : World :=
  mkWorld v (w_waitingQueue w) (w_clients w) (w_sockets w) (w_timers w)
    (w_outbox w) (w_clock w) (w_entropy w) (w_draws w) (w_uuid w)
    (w_next_ws w) (w_next_timer w).
Definition set_w_waitingQueue (v : list wsref) (w : World) : World :=
  mkWorld (w_rooms w) v (w_clients w) (w_sockets w) (w_timers w)
    (w_outbox w) (w_clock w) (w_entropy w) (w_draws w) (w_uuid w)
    (w_next_ws w) (w_next_timer w).
Definition set_w_clients (v : gmap uuid wsref) (w : World) : World :=
  mkWorld (w_rooms w) (w_waitingQueue w) v (w_sockets w) (w_timers w)
    (w_outbox w) (w_clock w) (w_entropy w) (w_draws w) (w_uuid w)
    (w_next_ws w) (w_next_timer w).
Definition set_w_sockets (v : gmap wsref Socket) (w : World) : World :=
  mkWorld (w_rooms w) (w_waitingQueue w) (w_clients w) v (w_timers w)
    (w_outbox w) (w_clock w) (w_entropy w) (w_draws w) (w_uuid w)
    (w_next_ws w) (w_next_timer w).
Definition set_w_timers (v : gmap timer (loop_kind * uuid)) (w : World) : World :=
  mkWorld (w_rooms w) (w_waitingQueue w) (w_clients w) (w_sockets w) v
    (w_outbox w) (w_clock w) (w_entropy w) (w_draws w) (w_uuid w)
    (w_next_ws w) (w_next_timer w).
Definition set_w_outbox (v : list (wsref * message)) (w : World) : World :=
  mkWorld (w_rooms w) (w_waitingQueue w) (w_clients w) (w_sockets w) (w_timers w)
    v (w_clock w) (w_entropy w) (w_draws w) (w_uuid w)
    (w_next_ws w) (w_next_timer w).
Definition set_w_clock (v : Z) (w : World) : World :=
  mkWorld (w_rooms w) (w_waitingQueue w) (w_clients w) (w_sockets w) (w_timers w)
    (w_outbox w) v (w_entropy w) (w_draws w) (w_uuid w)
    (w_next_ws w) (w_next_timer w).
Definition set_w_draws (v : nat) (w : World) : World :=
  mkWorld (w_rooms w) (w_waitingQueue w) (w_clients w) (w_sockets w) (w_timers w)
    (w_outbox w) (w_clock w) (w_entropy w) v (w_uuid w)
    (w_next_ws w) (w_next_timer w).
Definition set_w_uuid (v : uuid) (w : World) : World :=
  mkWorld (w_rooms w) (w_waitingQueue w) (w_clients w) (w_sockets w) (w_timers w)
    (w_outbox w) (w_clock w) (w_entropy w) (w_draws w) v
    (w_next_ws w) (w_next_timer w).
Definition set_w_next_ws (v : wsref) (w : World) : World :=
  mkWorld (w_rooms w) (w_waitingQueue w) (w_clients w) (w_sockets w) (w_timers w)
    (w_outbox w) (w_clock w) (w_entropy w) (w_draws w) (w_uuid w)
    v (w_next_timer w).
Definition set_w_next_timer (v : timer) (w : World) : World :=
  mkWorld (w_rooms w) (w_waitingQueue w) (w_clients w) (w_sockets w) (w_timers w)
    (w_outbox w) (w_clock w) (w_entropy w) (w_draws w) (w_uuid w)
    (w_next_ws w) v.

Arguments set_w_rooms : simpl never.
Arguments set_w_waitingQueue : simpl never.
Arguments set_w_clients : simpl never.
Arguments set_w_sockets : simpl never.
Arguments set_w_timers : simpl never.
Arguments set_w_outbox : simpl never.
Arguments set_w_clock : simpl never.
Arguments set_w_draws : simpl never.
Arguments set_w_uuid : simpl never.
Arguments set_w_next_ws : simpl never.
Arguments set_w_next_timer : simpl never.

(** The object behind a [ws] reference.  Every reference the program holds
    was made by the connection handler; a reference that was not reads as a
    closed socket without room. *)
Definition socket_of (w : World) (ws : wsref) : Socket :=
  default (mkSocket 0 "" None None false CLOSED) (w_sockets w !! ws).

(** Assignment to the fields of the object behind a [ws] reference. *)
Definition upd_socket (ws : wsref) (f : Socket -> Socket) (w : World) : World :=
  set_w_sockets (<[ws := f (socket_of w ws)]> (w_sockets w)) w.

(** The outcome of running a handler: it returns, or a [TypeError] (a
    property access on [null] or [undefined]) escapes it.  Both carry the
    state reached. *)
Inductive outcome (A : Type) : Type :=
| Return (a : A) (w : World)
| Throw (w : World).
Arguments Return {A} a w.
Arguments Throw {A} w.

(** ** Environment and small helpers *)

(** [nowMs()] (source lines 40-42). *)
Definition nowMs (w : World) : Z := w_clock w.

(** [Math.random()]. *)
Definition Math_random (w : World) : number * World :=
  (Finite (w_entropy w (w_draws w)), set_w_draws (S (w_draws w)) w).

(** [uuidv4()]. *)
Definition uuidv4 (w : World) : uuid * World :=
  (w_uuid w, set_w_uuid (S (w_uuid w)) w).

Definition is_open (w : World) (ws : wsref) : bool :=
  bool_decide (ws_readyState (socket_of w ws) = OPEN).

(** [safeSend(ws, msg)] (source lines 34-38); [ws] may be [null]. *)
Definition safeSend (ws : option wsref) (msg : message) (w : World) : World :=
  match ws with
  | Some s =>
      if is_open w s then set_w_outbox (w_outbox w ++ [(s, msg)]) w else w
  | None => w
  end.

Arguments safeSend : simpl never.

(** [opponentSide(side)] (source lines 57-59). *)
Definition opponentSide (s : side) : side :=
  match s with TopSide => BottomSide | BottomSide => TopSide end.

Definition store_room (k : uuid) (room : Room) (w : World) : World :=
  set_w_rooms (<[k := room]> (w_rooms w)) w.

Arguments upd_socket : simpl never.
Arguments store_room : simpl never.

(** ** Room loops and registry (source lines 136-153) *)

(** [startLoops(room)]: two [setInterval] calls; the handles are kept on
    the room. *)
Definition startLoops (room : Room) (w : World) : Room * World :=
  let h1 := w_next_timer w in
  let w := set_w_next_timer (S h1) w in
  let w := set_w_timers (<[h1 := (TickLoop, r_id room)]> (w_timers w)) w in
  let h2 := w_next_timer w in
  let w := set_w_next_timer (S h2) w in
  let w := set_w_timers (<[h2 := (SendLoop, r_id room)]> (w_timers w)) w in
  (set_r_loops (mkLoops (Some h1) (Some h2)) room, w).

Arguments startLoops : simpl never.

(** [clearInterval(h)]. *)
Definition clearInterval (h : timer) (w : World) : World :=
  set_w_timers (delete h (w_timers w)) w.

(** [stopLoops(room)]. *)
Definition stopLoops (room : Room) (w : World) : Room * World :=
  let w := match loop_tick (r_loops room) with
           | Some h => clearInterval h w
           | None => w
           end in
  let w := match loop_send (r_loops room) with
           | Some h => clearInterval h w
           | None => w
           end in
  (set_r_loops (mkLoops None None) room, w).

(** [destroyRoom(roomId)]. *)
Definition destroyRoom (roomId : uuid) (w : World) : World :=
  match w_rooms w !! roomId with
  | None => w
  | Some room =>
      let '(_, w) := stopLoops room w in
      set_w_rooms (delete roomId (w_rooms w)) w
  end.

Arguments stopLoops : simpl never.
Arguments destroyRoom : simpl never.

(** ** Events to the players of a room (source lines 319-360) *)

(** [broadcastEvent(room, event)]. *)
Definition broadcastEvent (room : Room) (event : message) (w : World) : World :=
  foldl
    (fun w s =>
       match p_ws (player s room) with
       | Some ws => if is_open w ws then safeSend (Some ws) event w else w
       | None => w
       end)
    w [TopSide; BottomSide].

(** [broadcastState(room)]; [payload.you] is set before each send. *)
Definition broadcastState (room : Room) (w : World) : World :=
  let t := nowMs w in
  let payload := State t (r_phase room) (b_x (r_ball room)) (b_y (r_ball room))
                   (mkPaddles (topX (r_paddles room)) (bottomX (r_paddles room)))
                   (hearts_of room)
                   (par_W (r_params room)) (par_H (r_params room))
                   (par_r (r_params room)) (par_pw (r_params room))
                   (par_ph (r_params room)) in
  foldl
    (fun w s =>
       match p_ws (player s room) with
       | Some ws => if is_open w ws then safeSend (Some ws) (payload s) w else w
       | None => w
       end)
    w [TopSide; BottomSide].

Arguments broadcastEvent : simpl never.
Arguments broadcastState : simpl never.

(** ** Physics and phases (source lines 155-317) *)

(** [endGame(room, winnerSide, reason)]. *)
Definition endGame (room : Room) (winnerSide : option side) (why : reason)
    (w : World) : Room * World :=
  let room := set_r_phase Gameover room in
  let room := set_r_ball (set_b_vx (Finite 0) (r_ball room)) room in
  let room := set_r_ball (set_b_vy (Finite 0) (r_ball room)) room in
  let w := broadcastEvent room (GameOver winnerSide why (hearts_of room)) w in
  (room, w).

(** [onScore(room, loserSide)]. *)
Definition onScore (room : Room) (loserSide : side) (w : World) : Room * World :=
  if bool_decide (r_phase room ≠ Playing) then (room, w) else
  let room := set_r_phase Between room in
  let loser := player loserSide room in
  let winnerSide := opponentSide loserSide in
  let room :=
    set_player loserSide (set_p_hearts (Z.max 0 (p_hearts loser - 1)) loser) room in
  let w := broadcastEvent room (Score (hearts_of room) loserSide) w in
  let topHearts := p_hearts (pl_top (r_players room)) in
  let bottomHearts := p_hearts (pl_bottom (r_players room)) in
  if (topHearts <=? 0) && (bottomHearts <=? 0) then
    endGame room None ReasonTie w
  else if p_hearts (player loserSide room) <=? 0 then
    endGame room (Some winnerSide) ReasonHearts w
  else
    let room := set_r_serveToward loserSide room in
    let room := set_r_nextPhaseAt (nowMs w + 1500) room in
    let room := set_r_ball (set_b_vx (Finite 0) (r_ball room)) room in
    let room := set_r_ball (set_b_vy (Finite 0) (r_ball room)) room in
    let room :=
      set_r_ball (set_b_x (par_W (r_params room) / Finite 2)%js (r_ball room)) room in
    let room :=
      set_r_ball (set_b_y (par_H (r_params room) / Finite 2)%js (r_ball room)) room in
    let room := set_r_ball (set_b_speed INIT_BALL_SPEED (r_ball room)) room in
    (room, w).

(** [paddleBounce(room, side, paddleCenterX)]. *)
Definition paddleBounce (room : Room) (s : side) (paddleCenterX : number) : Room :=
  let pw := par_pw (r_params room) in
  let b := r_ball room in
  let rel := clamp ((b_x b - paddleCenterX) / (pw / Finite 2))%js
               (Finite (-1)) (Finite 1) in
  let newSpeed := clamp (b_speed b * SPEED_UP)%js (Finite 100) MAX_BALL_SPEED in
  let angle := (rel * MAX_BOUNCE_ANGLE)%js in
  let b := set_b_vx (newSpeed * Math_sin angle)%js b in
  let b :=
    match s with
    | TopSide => set_b_vy (Math_abs (newSpeed * Math_cos angle)%js) b
    | BottomSide => set_b_vy (- Math_abs (newSpeed * Math_cos angle))%js b
    end in
  let b := set_b_speed newSpeed b in
  set_r_ball b room.

(** [integrate(room, dt)]. *)
Definition integrate (room : Room) (dt : number) (w : World) : Room * World :=
  let W := par_W (r_params room) in
  let H := par_H (r_params room) in
  let pw := par_pw (r_params room) in
  let ph := par_ph (r_params room) in
  let r := par_r (r_params room) in
  let topY := par_topY (r_params room) in
  let bottomY := par_bottomY (r_params room) in
  let b := r_ball room in
  (* Move *)
  let b := set_b_x (b_x b + b_vx b * dt)%js b in
  let b := set_b_y (b_y b + b_vy b * dt)%js b in
  (* Walls (left/right) *)
  let b :=
    if (b_x b - r <=? Finite 0)%js then
      set_b_vx (Math_abs (b_vx b)) (set_b_x r b)
    else if (b_x b + r >=? W)%js then
      set_b_vx (- Math_abs (b_vx b))%js (set_b_x (W - r)%js b)
    else b in
  let room := set_r_ball b room in
  (* Top paddle *)
  let topX := (topX (r_paddles room) * W)%js in
  if (b_vy b <? Finite 0)%js
     && (b_y b - r <=? topY + ph / Finite 2)%js
     && (b_y b + r >=? topY - ph / Finite 2)%js
     && ((b_x b + r >=? topX - pw / Finite 2)%js
         && (b_x b - r <=? topX + pw / Finite 2)%js)
  then (paddleBounce room TopSide topX, w)
  else
  (* Bottom paddle *)
  let bottomX := (bottomX (r_paddles room) * W)%js in
  if (b_vy b >? Finite 0)%js
     && (b_y b + r >=? bottomY - ph / Finite 2)%js
     && (b_y b - r <=? bottomY + ph / Finite 2)%js
     && ((b_x b + r >=? bottomX - pw / Finite 2)%js
         && (b_x b - r <=? bottomX + pw / Finite 2)%js)
  then (paddleBounce room BottomSide bottomX, w)
  else
  (* Miss check (top/bottom out) *)
  if (b_y b + r <? Finite 0)%js then onScore room TopSide w
  else if (b_y b - r >? H)%js then onScore room BottomSide w
  else (room, w).

(** [serveBall(room)]. *)
Definition serveBall (room : Room) (w : World) : Room * World :=
  let W := par_W (r_params room) in
  let H := par_H (r_params room) in
  let room := set_r_ball (set_b_x (W / Finite 2)%js (r_ball room)) room in
  let room := set_r_ball (set_b_y (H / Finite 2)%js (r_ball room)) room in
  let '(u, w) := Math_random w in
  let angle := (u * Finite 0.8 - Finite 0.4)%js in
  let dir := match r_serveToward room with
             | TopSide => Finite (-1)
             | BottomSide => Finite 1
             end in
  let s := INIT_BALL_SPEED in
  let room := set_r_ball (set_b_speed s (r_ball room)) room in
  let room := set_r_ball (set_b_vx (s * Math_sin angle)%js (r_ball room)) room in
  let room := set_r_ball (set_b_vy (dir * Math_cos angle)%js (r_ball room)) room in
  (room, w).

(** [tick(room)]. *)
Definition tick (room : Room) (w : World) : Room * World :=
  let t := nowMs w in
  let dt := (of_Z (t - r_lastTickAt room) / Finite 1000)%js in
  let room := set_r_lastTickAt t room in
  if (dt <=? Finite 0)%js then (room, w) else
  let dt := if (dt >? MAX_DT)%js then MAX_DT else dt in
  if bool_decide (r_phase room ≠ Playing) then
    if bool_decide (r_nextPhaseAt room ≤ t)
       && bool_decide (r_phase room ≠ Gameover) then
      if bool_decide (r_phase room = Countdown)
         || bool_decide (r_phase room = Between) then
        let '(room, w) := serveBall room w in
        (set_r_phase Playing room, w)
      else (room, w)
    else (room, w)
  else integrate room dt w.

(** ** Room construction (source lines 61-134) *)

(** The room object that [makeRoom] builds (source lines 63-69 and 87-103)
    for the sockets [top] and [bottom], once their [side] and [roomId] are
    set and the serve direction is drawn. *)
Definition newRoom (id : uuid) (top bottom : wsref) (serveToward : side)
    (w : World) : Room :=
  let W := WORLD_W in
  let H := WORLD_H in
  let pw := (PADDLE_WIDTH_FRAC * W)%js in
  let ph := (PADDLE_HEIGHT_FRAC * H)%js in
  let r := (BALL_RADIUS_FRAC * W)%js in
  let topY := (PADDING + ph * Finite 0.5)%js in
  let bottomY := (H - (PADDING + ph * Finite 0.5))%js in
  mkRoom id
    (mkPlayers
       (mkPlayer (Some top) (ws_id (socket_of w top)) (ws_name (socket_of w top))
          HEARTS_START)
       (mkPlayer (Some bottom) (ws_id (socket_of w bottom))
          (ws_name (socket_of w bottom)) HEARTS_START))
    (mkParams W H pw ph r topY bottomY)
    (mkPaddles (Finite 0.5) (Finite 0.5))
    (mkBall (W / Finite 2)%js (H / Finite 2)%js (Finite 0) (Finite 0)
       INIT_BALL_SPEED)
    Countdown
    serveToward
    (nowMs w + 3000)
    (nowMs w)
    0
    (mkVotes false false)
    (mkLoops None None).

Arguments newRoom : simpl never.

(** [makeRoom(a, b, swapSides)].  [a] and [b] may be [null] (when called by
    [startRematch] after a player has left): the assignment to [top.side]
    or [bottom.side] then throws. *)
Definition makeRoom (a b : option wsref) (swapSides : bool) (w : World)
    : outcome Room :=
  let '(id, w) := uuidv4 w in
  (* let bottom = a, top = b; *)
  let '(bottom, top, w) :=
    if swapSides then (b, a, w)
    else
      let '(u, w) := Math_random w in
      if (u <? Finite 0.5)%js then (b, a, w) else (a, b, w) in
  match top with
  | None => Throw w
  | Some top =>
  let w := upd_socket top (set_ws_side (Some TopSide)) w in
  match bottom with
  | None => Throw w
  | Some bottom =>
  let w := upd_socket bottom (set_ws_side (Some BottomSide)) w in
  let w := upd_socket top (set_ws_roomId (Some id)) w in
  let w := upd_socket bottom (set_ws_roomId (Some id)) w in
  let '(u, w) := Math_random w in
  let room :=
    newRoom id top bottom
      (if (u <? Finite 0.5)%js then TopSide else BottomSide) w in
  let w := store_room id room w in
  (* Send match found to both *)
  let w := safeSend (Some top)
             (MatchFound id (p_name (pl_top (r_players room)))
                (p_name (pl_bottom (r_players room))) TopSide 3) w in
  let w := safeSend (Some bottom)
             (MatchFound id (p_name (pl_top (r_players room)))
                (p_name (pl_bottom (r_players room))) BottomSide 3) w in
  let '(room, w) := startLoops room w in
  Return room (store_room id room w)
  end
  end.

(** ** Rematch (source lines 362-404) *)

(** [startRematch(oldRoom)]; [k] is the registry key under which the
    object [oldRoom] is stored. *)
Definition startRematch (k : uuid) (oldRoom : Room) (w : World) : outcome unit :=
  let a := p_ws (pl_top (r_players oldRoom)) in
  let b := p_ws (pl_bottom (r_players oldRoom)) in
  (* Reset client flags *)
  let oldRoom := set_r_rematchVotes (mkVotes false false) oldRoom in
  let w := store_room k oldRoom w in
  (* Create a new room with swapped sides *)
  match makeRoom a b true w with
  | Throw w => Throw w
  | Return newRoom w =>
      (* Reset hearts *)
      let newRoom :=
        set_player TopSide (set_p_hearts HEARTS_START (player TopSide newRoom))
          newRoom in
      let newRoom :=
        set_player BottomSide
          (set_p_hearts HEARTS_START (player BottomSide newRoom)) newRoom in
      let newRoom := set_r_phase Countdown newRoom in
      let newRoom := set_r_nextPhaseAt (nowMs w + 3000) newRoom in
      let w := store_room (r_id newRoom) newRoom w in
      (* Tell clients rematch started *)
      let w := broadcastEvent newRoom (RematchStart 3) w in
      (* Destroy the old room *)
      Return tt (destroyRoom (r_id oldRoom) w)
  end.

(** [requestRematch(room, side)]; the caller has checked that [room] is
    not [undefined], and [k] is its registry key. *)
Definition requestRematch (k : uuid) (room : Room) (s : side) (w : World)
    : outcome unit :=
  if bool_decide (r_phase room ≠ Gameover) then Return tt w else
  let room := set_vote s true room in
  let w := store_room k room w in
  (* Notify the other *)
  let other := opponentSide s in
  let opp := player other room in
  let w := match p_ws opp with
           | Some ws =>
               if is_open w ws then safeSend (Some ws) RematchOffered w else w
           | None => w
           end in
  if vote_top (r_rematchVotes room) && vote_bottom (r_rematchVotes room) then
    startRematch k room w
  else Return tt w.

(** ** Leaving a room (source lines 406-442) *)

(** [leaveRoom(ws, reason)]; the [reason] argument is not used by the
    source.  With [ws.side] null, [opponentSide] answers ['top'] and
    [room.players[side]] is [undefined], so that the assignment to its
    [ws] throws. *)
Definition leaveRoom (ws : wsref) (w : World) : outcome unit :=
  match ws_roomId (socket_of w ws) with
  | None => Return tt w
  | Some k =>
  match w_rooms w !! k with
  | None => Return tt (upd_socket ws (set_ws_roomId None) w)
  | Some room =>
      (* Announce opponent left if applicable *)
      let s := ws_side (socket_of w ws) in
      let otherSide := match s with
                       | Some s => opponentSide s
                       | None => TopSide
                       end in
      let opp := player otherSide room in
      let w :=
        if bool_decide (r_phase room ≠ Gameover)
           && match p_ws opp with
              | Some ows => is_open w ows
              | None => false
              end
        then
          (* Forfeit win for opponent *)
          broadcastEvent room
            (GameOver (Some otherSide) ReasonDisconnect (hearts_of room)) w
        else w in
      match s with
      | None => Throw w
      | Some s =>
          (* Remove this player *)
          let room := set_player s (set_p_ws None (player s room)) room in
          let w := store_room k room w in
          (* If both gone, clean room *)
          let w :=
            match p_ws (pl_top (r_players room)),
                  p_ws (pl_bottom (r_players room)) with
            | None, None => destroyRoom (r_id room) w
            | _, _ => w
            end in
          let w := upd_socket ws (set_ws_roomId None) w in
          let w := upd_socket ws (set_ws_side None) w in
          Return tt w
      end
  end
  end.

(** ** Matchmaking (source lines 444-460) *)

(** The first loop of [tryMatch]: entries that are not open or already
    have a room are spliced out. *)
Definition tryMatch_filter (w : World) : World :=
  set_w_waitingQueue
    (filter (fun c => is_open w c = true ∧ ws_roomId (socket_of w c) = None)
       (w_waitingQueue w))
    w.

(** The second loop of [tryMatch], by recursion on the queue [q] that is
    left; each round shifts two entries. *)
Fixpoint tryMatch_pairs (q : list wsref) (w : World) : outcome unit :=
  match q with
  | a :: b :: q' =>
      let w := set_w_waitingQueue q' w in
      if negb (is_open w a) || negb (is_open w b) then tryMatch_pairs q' w
      else
        match makeRoom (Some a) (Some b) false w with
        | Throw w => Throw w
        | Return _ w => tryMatch_pairs q' w
        end
  | _ => Return tt w
  end.

(** [tryMatch()]. *)
Definition tryMatch (w : World) : outcome unit :=
  let w := tryMatch_filter w in
  tryMatch_pairs (w_waitingQueue w) w.

(** ** Inbound frames *)

(** The value [JSON.parse] returns.  A number is finite or, when the
    literal overflows, an infinity; an object is its list of properties. *)
#[local] Unset Elimination Schemes.
Inductive json : Type :=
| JNull
| JBool (b : bool)
| JNumber (n : number)
| JString (s : string)
| JArray (items : list json)
| JObject (props : list (string * json)).
#[local] Set Elimination Schemes.

(** A frame: [JSON.parse(data.toString())] throws, or returns a value. *)
Inductive frame : Type :=
| Unparseable
| Parsed (msg : json).

Fixpoint assoc (key : string) (props : list (string * json)) : option json :=
  match props with
  | [] => None
  | (k, v) :: props' => if bool_decide (k = key) then Some v else assoc key props'
  end.

(** [msg.key] for one of the keys the server reads ([type], [name], [x]);
    [None] is [undefined].  An array has none of them. *)
Definition get_prop (key : string) (msg : json) : option json :=
  match msg with
  | JObject props => assoc key props
  | _ => None
  end.

(** [msg.type === t] for a string literal [t]. *)
Definition type_is (msg : json) (t : string) : bool :=
  match get_prop "type" msg with
  | Some (JString s) => bool_decide (s = t)
  | _ => false
  end.

(** [Number(v)] throws a TypeError for some values that [JSON.parse]
    returns.  An object converts through [valueOf] and [toString]; a
    property of a parsed object is never a function, so an own property
    [toString] hides [Object.prototype.toString] and leaves no method that
    returns a primitive, while an object without it converts to
    ["[object Object]"].  An array converts through [join], which converts
    every element other than [null] to a string, an object among them by
    [toString] as above and an array by [join] again.  The limits of the
    engine (the depth of the call stack) are not part of the model. *)
Fixpoint unconvertible (v : json) : bool :=
  match v with
  | JNull | JBool _ | JNumber _ | JString _ => false
  | JArray items => existsb unconvertible items
  | JObject props =>
      match assoc "toString" props with
      | Some _ => true
      | None => false
      end
  end.

(** ** Name sanitisation (source lines 48-55)

    A string is its sequence of code units; the code units of the model
    are those below 256. *)

(** The code units below 256 that [trim] strips: TAB, LF, VT, FF, CR,
    SP, NBSP. *)
Definition is_js_space (c : ascii) : bool :=
  let n := nat_of_ascii c in
  bool_decide (n = 9 ∨ n = 10 ∨ n = 11 ∨ n = 12 ∨ n = 13 ∨ n = 32 ∨ n = 160)%nat.

(** The class [[\x00-\x1F\x7F]]. *)
Definition is_control (c : ascii) : bool :=
  let n := nat_of_ascii c in
  bool_decide (n ≤ 31 ∨ n = 127)%nat.

Fixpoint trimStart (l : list ascii) : list ascii :=
  match l with
  | c :: l' => if is_js_space c then trimStart l' else l
  | [] => []
  end.

Definition trim (l : list ascii) : list ascii :=
  rev (trimStart (rev (trimStart l))).

(** [sanitizeName(raw)], for [raw] the property [msg.name]. *)
Definition sanitizeName (raw : option json) : string :=
  match raw with
  | Some (JString s) =>
      if bool_decide (s = "") then "Player"
      else
        let name := take 16 (trim (list_ascii_of_string s)) in
        (* Basic sanitization: remove control chars *)
        let name := filter (fun c => is_control c = false) name in
        match name with
        | [] => "Player"
        | _ => string_of_list_ascii name
        end
  | _ => "Player"
  end.

(** [indexOf] followed by [splice(idx, 1)]: the first occurrence goes. *)
Fixpoint remove_first (ws : wsref) (q : list wsref) : list wsref :=
  match q with
  | [] => []
  | c :: q' => if bool_decide (c = ws) then q' else c :: remove_first ws q'
  end.

(** ** Connection handlers (source lines 462-545) *)

Section Handlers.

(** [Number(v)] for a string, an array or an object [v] that converts:
    the conversion of the language (StringToNumber, and for an array or
    an object ToPrimitive first), which is not part of the program. *)
Variable ToNumber_builtin : json -> number.

(** [Number(msg.x)]; [None] is the TypeError of [unconvertible]. *)
Definition Number (v : option json) : option number :=
  match v with
  | None => Some NaN
  | Some JNull => Some (Finite 0)
  | Some (JBool true) => Some (Finite 1)
  | Some (JBool false) => Some (Finite 0)
  | Some (JNumber n) => Some n
  | Some v => if unconvertible v then None else Some (ToNumber_builtin v)
  end.

(** [wss.on('connection', ...)]: a new [ws] object, open. *)
Definition on_connection (w : World) : World :=
  let ws := w_next_ws w in
  let w := set_w_next_ws (S ws) w in
  let '(id, w) := uuidv4 w in
  let w := upd_socket ws (fun _ => mkSocket id "Player" None None true OPEN) w in
  let w := set_w_clients (<[id := ws]> (w_clients w)) w in
  safeSend (Some ws) (Hello id) w.

(** [ws.on('message', ...)]. *)
Definition on_message (ws : wsref) (data : frame) (w : World) : outcome unit :=
  match data with
  | Unparseable => Return tt w
  | Parsed msg =>
  match msg with
  | JNull | JBool _ | JNumber _ | JString _ => Return tt w
  | JArray _ | JObject _ =>
  if type_is msg "joinQueue" then
    let name := sanitizeName (get_prop "name" msg) in
    let w := upd_socket ws (set_ws_name name) w in
    (* Avoid duplicates in queue *)
    if bool_decide (ws_roomId (socket_of w ws) = None)
       && bool_decide (ws ∉ w_waitingQueue w) then
      let w := set_w_waitingQueue (w_waitingQueue w ++ [ws]) w in
      let w := safeSend (Some ws) (Finding (length (w_waitingQueue w))) w in
      tryMatch w
    else Return tt w
  else if type_is msg "cancelQueue" then
    let w := set_w_waitingQueue (remove_first ws (w_waitingQueue w)) w in
    Return tt (safeSend (Some ws) QueueCancelled w)
  else if type_is msg "paddle" then
    match ws_roomId (socket_of w ws), ws_side (socket_of w ws) with
    | Some k, Some s =>
        match w_rooms w !! k with
        | None => Return tt w
        | Some room =>
            match Number (get_prop "x" msg) with
            | None => Throw w
            | Some v =>
                let x := clamp v (Finite 0) (Finite 1) in
                Return tt (store_room k (set_paddle s x room) w)
            end
        end
    | _, _ => Return tt w
    end
  else if type_is msg "rematchRequest" then
    match ws_roomId (socket_of w ws), ws_side (socket_of w ws) with
    | Some k, Some s =>
        match w_rooms w !! k with
        | None => Return tt w
        | Some room => requestRematch k room s w
        end
    | _, _ => Return tt w
    end
  else if type_is msg "leaveRoom" then
    leaveRoom ws w
  else
    Return tt (safeSend (Some ws) (ErrorMsg "Unknown message type") w)
  end
  end.

(** [ws.on('close', ...)] and [ws.on('error', ...)]: the same code. *)
Definition on_close (ws : wsref) (w : World) : outcome unit :=
  (* Remove from queue *)
  let w := set_w_waitingQueue (remove_first ws (w_waitingQueue w)) w in
  (* Leave room if in one *)
  match leaveRoom ws w with
  | Throw w => Throw w
  | Return _ w =>
      Return tt (set_w_clients (delete (ws_id (socket_of w ws)) (w_clients w)) w)
  end.

Definition on_error (ws : wsref) (w : World) : outcome unit :=
  on_close ws w.

(** ** Runs of the server *)

(** What can happen to the process: a peer connects, a frame arrives, a
    socket closes or fails, an interval fires; the clock advances and the
    [readyState] of a socket changes outside the program. *)
Inductive event : Type :=
| EvConnection
| EvMessage (ws : wsref) (data : frame)
| EvClose (ws : wsref)
| EvError (ws : wsref)
| EvInterval (h : timer)
| EvClock (t : Z)
| EvReadyState (ws : wsref) (st : ready_state).

(** The callback of the interval [h]: [tick(room)] or
    [broadcastState(room)] on the room object it closes over. *)
Definition on_interval (h : timer) (w : World) : World :=
  match w_timers w !! h with
  | Some (kind, k) =>
      match w_rooms w !! k with
      | Some room =>
          match kind with
          | TickLoop => let '(room, w) := tick room w in store_room k room w
          | SendLoop => broadcastState room w
          end
      | None => w
      end
  | None => w
  end.

Definition handle (e : event) (w : World) : outcome unit :=
  match e with
  | EvConnection => Return tt (on_connection w)
  | EvMessage ws data => on_message ws data w
  | EvClose ws => on_close ws (upd_socket ws (set_ws_readyState CLOSED) w)
  | EvError ws => on_error ws w
  | EvInterval h => Return tt (on_interval h w)
  | EvClock t => Return tt (set_w_clock t w)
  | EvReadyState ws st => Return tt (upd_socket ws (set_ws_readyState st) w)
  end.

(** The events of a list in turn, until one throws. *)
Fixpoint run (es : list event) (w : World) : outcome unit :=
  match es with
  | [] => Return tt w
  | e :: es' =>
      match handle e w with
      | Return _ w' => run es' w'
      | Throw w' => Throw w'
      end
  end.

(** The process at start: empty registries, no [ws] object yet. *)
Definition initial (entropy : nat -> R) (clock : Z) : World :=
  mkWorld ∅ [] ∅ ∅ ∅ []
    clock entropy 0 0 0 0.

(** An event on a socket concerns a [ws] object that exists. *)
Definition event_ok (e : event) (w : World) : Prop :=
  match e with
  | EvMessage ws _ | EvClose ws | EvError ws | EvReadyState ws _ =>
      (ws < w_next_ws w)%nat
  | _ => True
  end.

(** The states the process goes through; an exception that escapes a
    handler ends the run. *)
Inductive reachable : World -> Prop :=
| reachable_initial entropy clock : reachable (initial entropy clock)
| reachable_step w e w' :
    reachable w -> event_ok e w -> handle e w = Return tt w' -> reachable w'.

End Handlers.

(** ** A run of the server, used in the examples

    Two peers connect and join the queue as "Ann" and "Bob"; every random
    draw is 0.5, so that Ann (socket 0) gets the bottom, Bob (socket 1) the
    top, and the first serve goes to the bottom; at 3016 ms the first tick
    serves the ball. *)

Definition demo_entropy : nat -> R := fun _ => (1 / 2)%R.

(** The conversion of strings, arrays and objects to numbers is not used by
    the examples. *)
Definition no_builtin : json -> number := fun _ => NaN.

Definition join (name : string) : frame :=
  Parsed (JObject [("type", JString "joinQueue"); ("name", JString name)]).

Definition demo_events : list event :=
  [EvConnection; EvConnection; EvMessage 0 (join "Ann"); EvMessage 1 (join "Bob");
   EvClock 3016; EvInterval 0].

Definition demo_params : Params :=
  mkParams WORLD_W WORLD_H (PADDLE_WIDTH_FRAC * WORLD_W)%js
    (PADDLE_HEIGHT_FRAC * WORLD_H)%js (BALL_RADIUS_FRAC * WORLD_W)%js
    (PADDING + PADDLE_HEIGHT_FRAC * WORLD_H * Finite 0.5)%js
    (WORLD_H - (PADDING + PADDLE_HEIGHT_FRAC * WORLD_H * Finite 0.5))%js.

Definition demo_players : Players :=
  mkPlayers (mkPlayer (Some 1%nat) 1 "Bob" 3) (mkPlayer (Some 0%nat) 0 "Ann" 3).

(** The room as [makeRoom] leaves it. *)
Definition demo_room0 : Room :=
  mkRoom 2 demo_players demo_params
    (mkPaddles (Finite 0.5) (Finite 0.5))
    (mkBall (WORLD_W / Finite 2)%js (WORLD_H / Finite 2)%js (Finite 0) (Finite 0)
       INIT_BALL_SPEED)
    Countdown BottomSide 3000 0 0 (mkVotes false false)
    (mkLoops (Some 0%nat) (Some 1%nat)).

(** The room after the first serve. *)
Definition demo_room : Room :=
  mkRoom 2 demo_players demo_params
    (mkPaddles (Finite 0.5) (Finite 0.5))
    (mkBall (WORLD_W / Finite 2)%js (WORLD_H / Finite 2)%js
       (INIT_BALL_SPEED * Math_sin (Finite (1 / 2) * Finite 0.8 - Finite 0.4))%js
       (Finite 1 * Math_cos (Finite (1 / 2) * Finite 0.8 - Finite 0.4))%js
       INIT_BALL_SPEED)
    Playing BottomSide 3000 3016 0 (mkVotes false false)
    (mkLoops (Some 0%nat) (Some 1%nat)).

Definition demo_clients : gmap uuid wsref := {[0%nat := 0%nat; 1%nat := 1%nat]}.

Definition demo_timers : gmap timer (loop_kind * uuid) :=
  {[0%nat := (TickLoop, 2%nat); 1%nat := (SendLoop, 2%nat)]}.

Definition demo_sockets : gmap wsref Socket :=
  {[0%nat := mkSocket 0 "Ann" (Some 2%nat) (Some BottomSide) true OPEN;
    1%nat := mkSocket 1 "Bob" (Some 2%nat) (Some TopSide) true OPEN]}.

Definition demo_outbox : list (wsref * message) :=
  [(0%nat, Hello 0); (1%nat, Hello 1); (0%nat, Finding 1); (1%nat, Finding 2);
   (1%nat, MatchFound 2 "Bob" "Ann" TopSide 3);
   (0%nat, MatchFound 2 "Bob" "Ann" BottomSide 3)].

(** After the two connections. *)
Definition demo_connected : World :=
  mkWorld ∅ [] demo_clients
    {[0%nat := mkSocket 0 "Player" None None true OPEN;
      1%nat := mkSocket 1 "Player" None None true OPEN]}
    ∅ [(0%nat, Hello 0); (1%nat, Hello 1)] 0 demo_entropy 0 2 2 0.

(** After Ann has joined the queue. *)
Definition demo_waiting : World :=
  mkWorld ∅ [0%nat] demo_clients
    {[0%nat := mkSocket 0 "Ann" None None true OPEN;
      1%nat := mkSocket 1 "Player" None None true OPEN]}
    ∅ [(0%nat, Hello 0); (1%nat, Hello 1); (0%nat, Finding 1)]
    0 demo_entropy 0 2 2 0.

(** After Bob has joined and the two are matched. *)
Definition demo_matched : World :=
  mkWorld {[2%nat := demo_room0]} [] demo_clients demo_sockets demo_timers
    demo_outbox 0 demo_entropy 2 3 2 2.

(** After the first serve. *)
Definition demo_world : World :=
  mkWorld {[2%nat := demo_room]} [] demo_clients demo_sockets demo_timers
    demo_outbox 3016 demo_entropy 3 3 2 2.

(** After Ann has then left the room. *)
Definition demo_left : World :=
  mkWorld
    {[2%nat := set_player BottomSide (mkPlayer None 0 "Ann" 3) demo_room]} []
    demo_clients
    {[0%nat := mkSocket 0 "Ann" None None true OPEN;
      1%nat := mkSocket 1 "Bob" (Some 2%nat) (Some TopSide) true OPEN]}
    demo_timers
    (demo_outbox
     ++ [(1%nat, GameOver (Some TopSide) ReasonDisconnect (mkHearts 3 3));
         (0%nat, GameOver (Some TopSide) ReasonDisconnect (mkHearts 3 3))])
    3016 demo_entropy 3 3 2 2.

(** The room of the run with the ball at the bottom paddle. *)
Definition demo_bounce_room : Room :=
  set_r_ball
    (mkBall (Finite 500) (Finite 1500) (Finite 0) (Finite 780) (Finite 780))
    demo_room.

(** ** Predicates used by the statements *)

(** A number in the unit interval. *)
Definition in_unit (a : number) : Prop :=
  match a with
  | Finite v => (0 <= v <= 1)%R
  | _ => False
  end.

(** Both paddles of a room are in the unit interval. *)
Definition paddles_ok (room : Room) : Prop :=
  in_unit (topX (r_paddles room)) ∧ in_unit (bottomX (r_paddles room)).

(** The players of a room a broadcast reaches: those with an open socket,
    top first. *)
Definition recipients (room : Room) (w : World) : list wsref :=
  filter (fun ws => is_open w ws = true)
    (omap (fun s => p_ws (player s room)) [TopSide; BottomSide]).

(** The hearts of a room are within bounds, neither player is at 0 unless
    the game is over, and the two are never both at 0. *)
Definition room_inv (r : Room) : Prop :=
  let t := p_hearts (pl_top (r_players r)) in
  let b := p_hearts (pl_bottom (r_players r)) in
  0 ≤ t ≤ HEARTS_START ∧ 0 ≤ b ≤ HEARTS_START
  ∧ (r_phase r ≠ Gameover -> 1 ≤ t ∧ 1 ≤ b)
  ∧ (1 ≤ t ∨ 1 ≤ b).

(** Every registered room satisfies [room_inv]. *)
Definition world_inv (w : World) : Prop :=
  map_Forall (fun _ r => room_inv r) (w_rooms w).

(** 1 when a step takes a room out of the phase [playing] (which only
    [onScore] does), 0 otherwise. *)
Definition left_playing (r r' : Room) : nat :=
  if bool_decide (r_phase r = Playing ∧ r_phase r' ≠ Playing) then 1 else 0.

(** The life of one room, with the number of miss events so far.  A miss
    event is a call of [onScore] in the phase [playing], made directly or
    by a tick whose integration step ends in a miss; every other tick
    (timers, serve, ball movement, bounces) counts for nothing. *)
Inductive misses : Room -> nat -> Room -> Prop :=
| misses_start r : misses r 0 r
| misses_onScore r n r1 s w :
    misses r n r1 -> r_phase r1 = Playing ->
    misses r (S n) (onScore r1 s w).1
| misses_tick r n r1 w :
    misses r n r1 ->
    misses r (n + left_playing r1 (tick r1 w).1) (tick r1 w).1.

(** [w'] is [w] but for the outbox and the count of random draws. *)
Definition quiet (w w' : World) : Prop :=
  ∃ o d, w' = set_w_outbox o (set_w_draws d w).

(** Two rooms with the same players and phase. *)
Definition same_game (r r' : Room) : Prop :=
  r_players r' = r_players r ∧ r_phase r' = r_phase r.

(** The message types the handler knows. *)
Definition known_types : list string :=
  ["joinQueue"; "cancelQueue"; "paddle"; "rematchRequest"; "leaveRoom"].

(** [msg.type] is none of the known types. *)
Definition unknown_type (msg : json) : Prop :=
  ∀ t, t ∈ known_types -> type_is msg t = false.

(** A frame that parses to a JSON object. *)
Definition is_json_object (data : frame) : Prop :=
  match data with
  | Parsed (JObject _) => True
  | _ => False
  end.

(** A frame that parses to a value that is not null and whose [typeof] is
    ['object']: a JSON object or a JSON array. *)
Definition passes_guard (data : frame) : Prop :=
  match data with
  | Parsed (JObject _) | Parsed (JArray _) => True
  | _ => False
  end.

(** A session that has no room to act on: no [roomId], no [side], or a
    [roomId] that is not in the registry. *)
Definition out_of_room (ws : wsref) (w : World) : Prop :=
  ws_roomId (socket_of w ws) = None
  ∨ ws_side (socket_of w ws) = None
  ∨ ∃ k, ws_roomId (socket_of w ws) = Some k ∧ w_rooms w !! k = None.

(** A session whose room exists but is not in [gameover]. *)
Definition room_not_over (ws : wsref) (w : World) : Prop :=
  ∃ k room, ws_roomId (socket_of w ws) = Some k
            ∧ w_rooms w !! k = Some room
            ∧ r_phase room ≠ Gameover.

(** A name that [sanitizeName] has nothing to do on: not empty, at most 16
    code units, no control character, no white space at either end. *)
Definition clean_name (s : string) : Prop :=
  let l := list_ascii_of_string s in
  l ≠ []
  ∧ (length l ≤ 16)%nat
  ∧ Forall (fun c => is_control c = false) l
  ∧ (∀ c, head l = Some c -> is_js_space c = false)
  ∧ (∀ c, last l = Some c -> is_js_space c = false).

(** The ball of [integrate] after the move and the wall test (source lines
    193-204), before the paddle and miss tests. *)
Definition after_walls (room : Room) (dt : number) : Ball :=
  let W := par_W (r_params room) in
  let r := par_r (r_params room) in
  let b := r_ball room in
  let b := set_b_x (b_x b + b_vx b * dt)%js b in
  let b := set_b_y (b_y b + b_vy b * dt)%js b in
  if (b_x b - r <=? Finite 0)%js then
    set_b_vx (Math_abs (b_vx b)) (set_b_x r b)
  else if (b_x b + r >=? W)%js then
    set_b_vx (- Math_abs (b_vx b))%js (set_b_x (W - r)%js b)
  else b.

(** The room of the run once Bob, at the top, has lost his last heart,
    has asked for a rematch and has left. *)
Definition demo_over_room : Room :=
  set_r_rematchVotes (mkVotes true false)
    (set_player TopSide (mkPlayer None 1 "Bob" 0)
       (set_r_phase Gameover demo_room)).

Definition demo_over : World :=
  mkWorld {[2%nat := demo_over_room]} [] demo_clients
    {[0%nat := mkSocket 0 "Ann" (Some 2%nat) (Some BottomSide) true OPEN;
      1%nat := mkSocket 1 "Bob" None None true OPEN]}
    demo_timers demo_outbox 9000 demo_entropy 3 3 2 2.

(** The same game over with both players there and no vote yet. *)
Definition demo_over_both : World :=
  mkWorld
    {[2%nat := set_player TopSide (mkPlayer (Some 1%nat) 1 "Bob" 0)
                 (set_r_phase Gameover demo_room)]}
    [] demo_clients demo_sockets demo_timers demo_outbox 9000 demo_entropy
    3 3 2 2.

(** ** Well-formed states

    What the registries say about each other: the queue, the rooms, the
    [roomId] and [side] of the sessions, and the running intervals. *)

(** [room.loops.tick] or [room.loops.send]. *)
Definition loop_of (kind : loop_kind) (l : Loops) : option timer :=
  match kind with
  | TickLoop => loop_tick l
  | SendLoop => loop_send l
  end.

(** No session waits twice, and a waiting session exists and has no room. *)
Definition queue_wf (w : World) : Prop :=
  NoDup (w_waitingQueue w)
  ∧ ∀ ws, ws ∈ w_waitingQueue w ->
      (ws < w_next_ws w)%nat ∧ ws_roomId (socket_of w ws) = None.

(** A room is registered under its own id, which [uuidv4] has already
    given out; a player is still there; its two intervals run; and the
    session in a slot names that room and that side. *)
Definition room_wf (w : World) (k : uuid) (room : Room) : Prop :=
  r_id room = k
  ∧ (k < w_uuid w)%nat
  ∧ (is_Some (p_ws (pl_top (r_players room)))
     ∨ is_Some (p_ws (pl_bottom (r_players room))))
  ∧ (∀ kind, ∃ h, loop_of kind (r_loops room) = Some h
                  ∧ w_timers w !! h = Some (kind, k))
  ∧ (∀ s ws, p_ws (player s room) = Some ws ->
       (ws < w_next_ws w)%nat
       ∧ ws_roomId (socket_of w ws) = Some k
       ∧ ws_side (socket_of w ws) = Some s).

Definition rooms_wf (w : World) : Prop :=
  ∀ k room, w_rooms w !! k = Some room -> room_wf w k room.

(** A session with a [roomId] holds the slot of its side in that room,
    which is registered. *)
Definition sessions_wf (w : World) : Prop :=
  ∀ ws k, ws_roomId (socket_of w ws) = Some k ->
    ∃ room s, w_rooms w !! k = Some room
              ∧ ws_side (socket_of w ws) = Some s
              ∧ p_ws (player s room) = Some ws.

(** A running interval is a loop of a registered room. *)
Definition timers_wf (w : World) : Prop :=
  ∀ h kind k, w_timers w !! h = Some (kind, k) ->
    (h < w_next_timer w)%nat
    ∧ ∃ room, w_rooms w !! k = Some room
              ∧ loop_of kind (r_loops room) = Some h.

Definition wf (w : World) : Prop :=
  queue_wf w ∧ rooms_wf w ∧ sessions_wf w ∧ timers_wf w.

(** Two rooms with the same id, loops and sessions. *)
Definition room_shape (r r' : Room) : Prop :=
  r_id r' = r_id r
  ∧ r_loops r' = r_loops r
  ∧ ∀ s, p_ws (player s r') = p_ws (player s r).

(** A step that makes, destroys and empties no room and starts no
    interval: the queue may lose sessions and gain roomless ones, sessions
    may be made. *)
Definition same_shape (w w' : World) : Prop :=
  (NoDup (w_waitingQueue w) -> NoDup (w_waitingQueue w'))
  ∧ (∀ ws, ws ∈ w_waitingQueue w' ->
       ws ∈ w_waitingQueue w
       ∨ ((ws < w_next_ws w)%nat ∧ ws_roomId (socket_of w ws) = None))
  ∧ w_timers w' = w_timers w
  ∧ (w_next_ws w ≤ w_next_ws w')%nat
  ∧ (w_uuid w ≤ w_uuid w')%nat
  ∧ (w_next_timer w ≤ w_next_timer w')%nat
  ∧ (∀ ws, (ws_roomId (socket_of w' ws) = ws_roomId (socket_of w ws)
            ∧ ws_side (socket_of w' ws) = ws_side (socket_of w ws))
           ∨ ((w_next_ws w ≤ ws)%nat ∧ ws_roomId (socket_of w' ws) = None))
  ∧ (∀ k, option_Forall2 room_shape (w_rooms w !! k) (w_rooms w' !! k)).

(** The event is a [rematchRequest] from a session on side [s] of a room
    that is over, in which the other side has already asked for a rematch
    and has left since. *)
Definition rematch_on_empty_slot (e : event) (w : World) : Prop :=
  ∃ ws msg k s room,
    e = EvMessage ws (Parsed msg)
    ∧ type_is msg "rematchRequest" = true
    ∧ ws_roomId (socket_of w ws) = Some k
    ∧ ws_side (socket_of w ws) = Some s
    ∧ w_rooms w !! k = Some room
    ∧ r_phase room = Gameover
    ∧ vote (opponentSide s) room = true
    ∧ p_ws (player (opponentSide s) room) = None.

(** The event is a [paddle] message from a session in a registered room,
    whose [x] is an array or an object that [Number] cannot convert. *)
Definition paddle_unconvertible (e : event) (w : World) : Prop :=
  ∃ ws msg k s room x,
    e = EvMessage ws (Parsed msg)
    ∧ type_is msg "paddle" = true
    ∧ ws_roomId (socket_of w ws) = Some k
    ∧ ws_side (socket_of w ws) = Some s
    ∧ w_rooms w !! k = Some room
    ∧ get_prop "x" msg = Some x
    ∧ unconvertible x = true.

(** [room'] is [room] with [x] as the paddle position of side [s]: the
    other position and every other field are those of [room]. *)
Definition paddle_written (s : side) (x : number) (room room' : Room) : Prop :=
  match s with
  | TopSide =>
      topX (r_paddles room') = x
      ∧ bottomX (r_paddles room') = bottomX (r_paddles room)
  | BottomSide =>
      bottomX (r_paddles room') = x
      ∧ topX (r_paddles room') = topX (r_paddles room)
  end
  ∧ r_id room' = r_id room
  ∧ r_players room' = r_players room
  ∧ r_params room' = r_params room
  ∧ r_ball room' = r_ball room
  ∧ r_phase room' = r_phase room
  ∧ r_serveToward room' = r_serveToward room
  ∧ r_nextPhaseAt room' = r_nextPhaseAt room
  ∧ r_lastTickAt room' = r_lastTickAt room
  ∧ r_lastBroadcastAt room' = r_lastBroadcastAt room
  ∧ r_rematchVotes room' = r_rematchVotes room
  ∧ r_loops room' = r_loops room.

(** [w'] is [w] but for the room registered under [k]. *)
Definition only_room (k : uuid) (w w' : World) : Prop :=
  (∀ k', k' ≠ k -> w_rooms w' !! k' = w_rooms w !! k')
  ∧ w_waitingQueue w' = w_waitingQueue w
  ∧ w_clients w' = w_clients w
  ∧ w_sockets w' = w_sockets w
  ∧ w_timers w' = w_timers w
  ∧ w_outbox w' = w_outbox w
  ∧ w_clock w' = w_clock w
  ∧ w_entropy w' = w_entropy w
  ∧ w_draws w' = w_draws w
  ∧ w_uuid w' = w_uuid w
  ∧ w_next_ws w' = w_next_ws w
  ∧ w_next_timer w' = w_next_timer w.

(** [P] holds of every registered room. *)
Definition rooms_all (P : Room -> Prop) (w : World) : Prop :=
  map_Forall (fun _ r => P r) (w_rooms w).

(** A paddle position as [clamp(_, 0, 1)] leaves it. *)
Definition nan_or_unit (a : number) : Prop := a = NaN ∨ in_unit a.

(** The court of a room: its dimensions are those of [WORLD]; the ball
    has finite coordinates, velocity and speed, is between the side
    walls, and its speed is between [INIT_BALL_SPEED] and
    [MAX_BALL_SPEED]; the paddle positions are NaN or in the unit
    interval. *)
Definition court_inv (room : Room) : Prop :=
  r_params room = demo_params
  ∧ (∃ x y vx vy sp,
       r_ball room
       = mkBall (Finite x) (Finite y) (Finite vx) (Finite vy) (Finite sp)
       ∧ (0.018 * 900 <= x <= 900 - 0.018 * 900)%R
       ∧ (780 <= sp <= 1200)%R)
  ∧ nan_or_unit (topX (r_paddles room))
  ∧ nan_or_unit (bottomX (r_paddles room)).

(** Out of play the ball is at rest, and while a serve is awaited it is
    at the centre of the court with the initial speed. *)
Definition rest_inv (room : Room) : Prop :=
  (r_phase room ≠ Playing ->
   b_vx (r_ball room) = Finite 0 ∧ b_vy (r_ball room) = Finite 0)
  ∧ (r_phase room = Countdown ∨ r_phase room = Between ->
     b_x (r_ball room) = (par_W (r_params room) / Finite 2)%js
     ∧ b_y (r_ball room) = (par_H (r_params room) / Finite 2)%js
     ∧ b_speed (r_ball room) = INIT_BALL_SPEED).

(** The game of the run over, both players there, Bob having asked for a
    rematch. *)
Definition demo_over_voted : World :=
  mkWorld
    {[2%nat := set_r_rematchVotes (mkVotes true false)
                 (set_player TopSide (mkPlayer (Some 1%nat) 1 "Bob" 0)
                    (set_r_phase Gameover demo_room))]}
    [] demo_clients demo_sockets demo_timers demo_outbox 9000 demo_entropy
    3 3 2 2.

(** * Properties *)

(** ** Fields of an updated state *)

Lemma w_rooms_set_w_rooms v w : w_rooms (set_w_rooms v w) = v.
Proof. reflexivity. Qed.
Lemma w_waitingQueue_set_w_rooms v w : w_waitingQueue (set_w_rooms v w) = w_waitingQueue w.
Proof. reflexivity. Qed.
Lemma w_clients_set_w_rooms v w : w_clients (set_w_rooms v w) = w_clients w.
Proof. reflexivity. Qed.
Lemma w_sockets_set_w_rooms v w : w_sockets (set_w_rooms v w) = w_sockets w.
Proof. reflexivity. Qed.
Lemma w_timers_set_w_rooms v w : w_timers (set_w_rooms v w) = w_timers w.
Proof. reflexivity. Qed.
Lemma w_outbox_set_w_rooms v w : w_outbox (set_w_rooms v w) = w_outbox w.
Proof. reflexivity. Qed.
Lemma w_clock_set_w_rooms v w : w_clock (set_w_rooms v w) = w_clock w.
Proof. reflexivity. Qed.
Lemma w_entropy_set_w_rooms v w : w_entropy (set_w_rooms v w) = w_entropy w.
Proof. reflexivity. Qed.
Lemma w_draws_set_w_rooms v w : w_draws (set_w_rooms v w) = w_draws w.
Proof. reflexivity. Qed.
Lemma w_uuid_set_w_rooms v w : w_uuid (set_w_rooms v w) = w_uuid w.
Proof. reflexivity. Qed.
Lemma w_next_ws_set_w_rooms v w : w_next_ws (set_w_rooms v w) = w_next_ws w.
Proof. reflexivity. Qed.
Lemma w_next_timer_set_w_rooms v w : w_next_timer (set_w_rooms v w) = w_next_timer w.
Proof. reflexivity. Qed.
Lemma w_rooms_set_w_waitingQueue v w : w_rooms (set_w_waitingQueue v w) = w_rooms w.
Proof. reflexivity. Qed.
Lemma w_waitingQueue_set_w_waitingQueue v w : w_waitingQueue (set_w_waitingQueue v w) = v.
Proof. reflexivity. Qed.
Lemma w_clients_set_w_waitingQueue v w : w_clients (set_w_waitingQueue v w) = w_clients w.
Proof. reflexivity. Qed.
Lemma w_sockets_set_w_waitingQueue v w : w_sockets (set_w_waitingQueue v w) = w_sockets w.
Proof. reflexivity. Qed.
Lemma w_timers_set_w_waitingQueue v w : w_timers (set_w_waitingQueue v w) = w_timers w.
Proof. reflexivity. Qed.
Lemma w_outbox_set_w_waitingQueue v w : w_outbox (set_w_waitingQueue v w) = w_outbox w.
Proof. reflexivity. Qed.
Lemma w_clock_set_w_waitingQueue v w : w_clock (set_w_waitingQueue v w) = w_clock w.
Proof. reflexivity. Qed.
Lemma w_entropy_set_w_waitingQueue v w : w_entropy (set_w_waitingQueue v w) = w_entropy w.
Proof. reflexivity. Qed.
Lemma w_draws_set_w_waitingQueue v w : w_draws (set_w_waitingQueue v w) = w_draws w.
Proof. reflexivity. Qed.
Lemma w_uuid_set_w_waitingQueue v w : w_uuid (set_w_waitingQueue v w) = w_uuid w.
Proof. reflexivity. Qed.
Lemma w_next_ws_set_w_waitingQueue v w : w_next_ws (set_w_waitingQueue v w) = w_next_ws w.
Proof. reflexivity. Qed.
Lemma w_next_timer_set_w_waitingQueue v w : w_next_timer (set_w_waitingQueue v w) = w_next_timer w.
Proof. reflexivity. Qed.
Lemma w_rooms_set_w_clients v w : w_rooms (set_w_clients v w) = w_rooms w.
Proof. reflexivity. Qed.
Lemma w_waitingQueue_set_w_clients v w : w_waitingQueue (set_w_clients v w) = w_waitingQueue w.
Proof. reflexivity. Qed.
Lemma w_clients_set_w_clients v w : w_clients (set_w_clients v w) = v.
Proof. reflexivity. Qed.
Lemma w_sockets_set_w_clients v w : w_sockets (set_w_clients v w) = w_sockets w.
Proof. reflexivity. Qed.
Lemma w_timers_set_w_clients v w : w_timers (set_w_clients v w) = w_timers w.
Proof. reflexivity. Qed.
Lemma w_outbox_set_w_clients v w : w_outbox (set_w_clients v w) = w_outbox w.
Proof. reflexivity. Qed.
Lemma w_clock_set_w_clients v w : w_clock (set_w_clients v w) = w_clock w.
Proof. reflexivity. Qed.
Lemma w_entropy_set_w_clients v w : w_entropy (set_w_clients v w) = w_entropy w.
Proof. reflexivity. Qed.
Lemma w_draws_set_w_clients v w : w_draws (set_w_clients v w) = w_draws w.
Proof. reflexivity. Qed.
Lemma w_uuid_set_w_clients v w : w_uuid (set_w_clients v w) = w_uuid w.
Proof. reflexivity. Qed.
Lemma w_next_ws_set_w_clients v w : w_next_ws (set_w_clients v w) = w_next_ws w.
Proof. reflexivity. Qed.
Lemma w_next_timer_set_w_clients v w : w_next_timer (set_w_clients v w) = w_next_timer w.
Proof. reflexivity. Qed.
Lemma w_rooms_set_w_sockets v w : w_rooms (set_w_sockets v w) = w_rooms w.
Proof. reflexivity. Qed.
Lemma w_waitingQueue_set_w_sockets v w : w_waitingQueue (set_w_sockets v w) = w_waitingQueue w.
Proof. reflexivity. Qed.
Lemma w_clients_set_w_sockets v w : w_clients (set_w_sockets v w) = w_clients w.
Proof. reflexivity. Qed.
Lemma w_sockets_set_w_sockets v w : w_sockets (set_w_sockets v w) = v.
Proof. reflexivity. Qed.
Lemma w_timers_set_w_sockets v w : w_timers (set_w_sockets v w) = w_timers w.
Proof. reflexivity. Qed.
Lemma w_outbox_set_w_sockets v w : w_outbox (set_w_sockets v w) = w_outbox w.
Proof. reflexivity. Qed.
Lemma w_clock_set_w_sockets v w : w_clock (set_w_sockets v w) = w_clock w.
Proof. reflexivity. Qed.
Lemma w_entropy_set_w_sockets v w : w_entropy (set_w_sockets v w) = w_entropy w.
Proof. reflexivity. Qed.
Lemma w_draws_set_w_sockets v w : w_draws (set_w_sockets v w) = w_draws w.
Proof. reflexivity. Qed.
Lemma w_uuid_set_w_sockets v w : w_uuid (set_w_sockets v w) = w_uuid w.
Proof. reflexivity. Qed.
Lemma w_next_ws_set_w_sockets v w : w_next_ws (set_w_sockets v w) = w_next_ws w.
Proof. reflexivity. Qed.
Lemma w_next_timer_set_w_sockets v w : w_next_timer (set_w_sockets v w) = w_next_timer w.
Proof. reflexivity. Qed.
Lemma w_rooms_set_w_timers v w : w_rooms (set_w_timers v w) = w_rooms w.
Proof. reflexivity. Qed.
Lemma w_waitingQueue_set_w_timers v w : w_waitingQueue (set_w_timers v w) = w_waitingQueue w.
Proof. reflexivity. Qed.
Lemma w_clients_set_w_timers v w : w_clients (set_w_timers v w) = w_clients w.
Proof. reflexivity. Qed.
Lemma w_sockets_set_w_timers v w : w_sockets (set_w_timers v w) = w_sockets w.
Proof. reflexivity. Qed.
Lemma w_timers_set_w_timers v w : w_timers (set_w_timers v w) = v.
Proof. reflexivity. Qed.
Lemma w_outbox_set_w_timers v w : w_outbox (set_w_timers v w) = w_outbox w.
Proof. reflexivity. Qed.
Lemma w_clock_set_w_timers v w : w_clock (set_w_timers v w) = w_clock w.
Proof. reflexivity. Qed.
Lemma w_entropy_set_w_timers v w : w_entropy (set_w_timers v w) = w_entropy w.
Proof. reflexivity. Qed.
Lemma w_draws_set_w_timers v w : w_draws (set_w_timers v w) = w_draws w.
Proof. reflexivity. Qed.
Lemma w_uuid_set_w_timers v w : w_uuid (set_w_timers v w) = w_uuid w.
Proof. reflexivity. Qed.
Lemma w_next_ws_set_w_timers v w : w_next_ws (set_w_timers v w) = w_next_ws w.
Proof. reflexivity. Qed.
Lemma w_next_timer_set_w_timers v w : w_next_timer (set_w_timers v w) = w_next_timer w.
Proof. reflexivity. Qed.
Lemma w_rooms_set_w_outbox v w : w_rooms (set_w_outbox v w) = w_rooms w.
Proof. reflexivity. Qed.
Lemma w_waitingQueue_set_w_outbox v w : w_waitingQueue (set_w_outbox v w) = w_waitingQueue w.
Proof. reflexivity. Qed.
Lemma w_clients_set_w_outbox v w : w_clients (set_w_outbox v w) = w_clients w.
Proof. reflexivity. Qed.
Lemma w_sockets_set_w_outbox v w : w_sockets (set_w_outbox v w) = w_sockets w.
Proof. reflexivity. Qed.
Lemma w_timers_set_w_outbox v w : w_timers (set_w_outbox v w) = w_timers w.
Proof. reflexivity. Qed.
Lemma w_outbox_set_w_outbox v w : w_outbox (set_w_outbox v w) = v.
Proof. reflexivity. Qed.
Lemma w_clock_set_w_outbox v w : w_clock (set_w_outbox v w) = w_clock w.
Proof. reflexivity. Qed.
Lemma w_entropy_set_w_outbox v w : w_entropy (set_w_outbox v w) = w_entropy w.
Proof. reflexivity. Qed.
Lemma w_draws_set_w_outbox v w : w_draws (set_w_outbox v w) = w_draws w.
Proof. reflexivity. Qed.
Lemma w_uuid_set_w_outbox v w : w_uuid (set_w_outbox v w) = w_uuid w.
Proof. reflexivity. Qed.
Lemma w_next_ws_set_w_outbox v w : w_next_ws (set_w_outbox v w) = w_next_ws w.
Proof. reflexivity. Qed.
Lemma w_next_timer_set_w_outbox v w : w_next_timer (set_w_outbox v w) = w_next_timer w.
Proof. reflexivity. Qed.
Lemma w_rooms_set_w_clock v w : w_rooms (set_w_clock v w) = w_rooms w.
Proof. reflexivity. Qed.
Lemma w_waitingQueue_set_w_clock v w : w_waitingQueue (set_w_clock v w) = w_waitingQueue w.
Proof. reflexivity. Qed.
Lemma w_clients_set_w_clock v w : w_clients (set_w_clock v w) = w_clients w.
Proof. reflexivity. Qed.
Lemma w_sockets_set_w_clock v w : w_sockets (set_w_clock v w) = w_sockets w.
Proof. reflexivity. Qed.
Lemma w_timers_set_w_clock v w : w_timers (set_w_clock v w) = w_timers w.
Proof. reflexivity. Qed.
Lemma w_outbox_set_w_clock v w : w_outbox (set_w_clock v w) = w_outbox w.
Proof. reflexivity. Qed.
Lemma w_clock_set_w_clock v w : w_clock (set_w_clock v w) = v.
Proof. reflexivity. Qed.
Lemma w_entropy_set_w_clock v w : w_entropy (set_w_clock v w) = w_entropy w.
Proof. reflexivity. Qed.
Lemma w_draws_set_w_clock v w : w_draws (set_w_clock v w) = w_draws w.
Proof. reflexivity. Qed.
Lemma w_uuid_set_w_clock v w : w_uuid (set_w_clock v w) = w_uuid w.
Proof. reflexivity. Qed.
Lemma w_next_ws_set_w_clock v w : w_next_ws (set_w_clock v w) = w_next_ws w.
Proof. reflexivity. Qed.
Lemma w_next_timer_set_w_clock v w : w_next_timer (set_w_clock v w) = w_next_timer w.
Proof. reflexivity. Qed.
Lemma w_rooms_set_w_draws v w : w_rooms (set_w_draws v w) = w_rooms w.
Proof. reflexivity. Qed.
Lemma w_waitingQueue_set_w_draws v w : w_waitingQueue (set_w_draws v w) = w_waitingQueue w.
Proof. reflexivity. Qed.
Lemma w_clients_set_w_draws v w : w_clients (set_w_draws v w) = w_clients w.
Proof. reflexivity. Qed.
Lemma w_sockets_set_w_draws v w : w_sockets (set_w_draws v w) = w_sockets w.
Proof. reflexivity. Qed.
Lemma w_timers_set_w_draws v w : w_timers (set_w_draws v w) = w_timers w.
Proof. reflexivity. Qed.
Lemma w_outbox_set_w_draws v w : w_outbox (set_w_draws v w) = w_outbox w.
Proof. reflexivity. Qed.
Lemma w_clock_set_w_draws v w : w_clock (set_w_draws v w) = w_clock w.
Proof. reflexivity. Qed.
Lemma w_entropy_set_w_draws v w : w_entropy (set_w_draws v w) = w_entropy w.
Proof. reflexivity. Qed.
Lemma w_draws_set_w_draws v w : w_draws (set_w_draws v w) = v.
Proof. reflexivity. Qed.
Lemma w_uuid_set_w_draws v w : w_uuid (set_w_draws v w) = w_uuid w.
Proof. reflexivity. Qed.
Lemma w_next_ws_set_w_draws v w : w_next_ws (set_w_draws v w) = w_next_ws w.
Proof. reflexivity. Qed.
Lemma w_next_timer_set_w_draws v w : w_next_timer (set_w_draws v w) = w_next_timer w.
Proof. reflexivity. Qed.
Lemma w_rooms_set_w_uuid v w : w_rooms (set_w_uuid v w) = w_rooms w.
Proof. reflexivity. Qed.
Lemma w_waitingQueue_set_w_uuid v w : w_waitingQueue (set_w_uuid v w) = w_waitingQueue w.
Proof. reflexivity. Qed.
Lemma w_clients_set_w_uuid v w : w_clients (set_w_uuid v w) = w_clients w.
Proof. reflexivity. Qed.
Lemma w_sockets_set_w_uuid v w : w_sockets (set_w_uuid v w) = w_sockets w.
Proof. reflexivity. Qed.
Lemma w_timers_set_w_uuid v w : w_timers (set_w_uuid v w) = w_timers w.
Proof. reflexivity. Qed.
Lemma w_outbox_set_w_uuid v w : w_outbox (set_w_uuid v w) = w_outbox w.
Proof. reflexivity. Qed.
Lemma w_clock_set_w_uuid v w : w_clock (set_w_uuid v w) = w_clock w.
Proof. reflexivity. Qed.
Lemma w_entropy_set_w_uuid v w : w_entropy (set_w_uuid v w) = w_entropy w.
Proof. reflexivity. Qed.
Lemma w_draws_set_w_uuid v w : w_draws (set_w_uuid v w) = w_draws w.
Proof. reflexivity. Qed.
Lemma w_uuid_set_w_uuid v w : w_uuid (set_w_uuid v w) = v.
Proof. reflexivity. Qed.
Lemma w_next_ws_set_w_uuid v w : w_next_ws (set_w_uuid v w) = w_next_ws w.
Proof. reflexivity. Qed.
Lemma w_next_timer_set_w_uuid v w : w_next_timer (set_w_uuid v w) = w_next_timer w.
Proof. reflexivity. Qed.
Lemma w_rooms_set_w_next_ws v w : w_rooms (set_w_next_ws v w) = w_rooms w.
Proof. reflexivity. Qed.
Lemma w_waitingQueue_set_w_next_ws v w : w_waitingQueue (set_w_next_ws v w) = w_waitingQueue w.
Proof. reflexivity. Qed.
Lemma w_clients_set_w_next_ws v w : w_clients (set_w_next_ws v w) = w_clients w.
Proof. reflexivity. Qed.
Lemma w_sockets_set_w_next_ws v w : w_sockets (set_w_next_ws v w) = w_sockets w.
Proof. reflexivity. Qed.
Lemma w_timers_set_w_next_ws v w : w_timers (set_w_next_ws v w) = w_timers w.
Proof. reflexivity. Qed.
Lemma w_outbox_set_w_next_ws v w : w_outbox (set_w_next_ws v w) = w_outbox w.
Proof. reflexivity. Qed.
Lemma w_clock_set_w_next_ws v w : w_clock (set_w_next_ws v w) = w_clock w.
Proof. reflexivity. Qed.
Lemma w_entropy_set_w_next_ws v w : w_entropy (set_w_next_ws v w) = w_entropy w.
Proof. reflexivity. Qed.
Lemma w_draws_set_w_next_ws v w : w_draws (set_w_next_ws v w) = w_draws w.
Proof. reflexivity. Qed.
Lemma w_uuid_set_w_next_ws v w : w_uuid (set_w_next_ws v w) = w_uuid w.
Proof. reflexivity. Qed.
Lemma w_next_ws_set_w_next_ws v w : w_next_ws (set_w_next_ws v w) = v.
Proof. reflexivity. Qed.
Lemma w_next_timer_set_w_next_ws v w : w_next_timer (set_w_next_ws v w) = w_next_timer w.
Proof. reflexivity. Qed.
Lemma w_rooms_set_w_next_timer v w : w_rooms (set_w_next_timer v w) = w_rooms w.
Proof. reflexivity. Qed.
Lemma w_waitingQueue_set_w_next_timer v w : w_waitingQueue (set_w_next_timer v w) = w_waitingQueue w.
Proof. reflexivity. Qed.
Lemma w_clients_set_w_next_timer v w : w_clients (set_w_next_timer v w) = w_clients w.
Proof. reflexivity. Qed.
Lemma w_sockets_set_w_next_timer v w : w_sockets (set_w_next_timer v w) = w_sockets w.
Proof. reflexivity. Qed.
Lemma w_timers_set_w_next_timer v w : w_timers (set_w_next_timer v w) = w_timers w.
Proof. reflexivity. Qed.
Lemma w_outbox_set_w_next_timer v w : w_outbox (set_w_next_timer v w) = w_outbox w.
Proof. reflexivity. Qed.
Lemma w_clock_set_w_next_timer v w : w_clock (set_w_next_timer v w) = w_clock w.
Proof. reflexivity. Qed.
Lemma w_entropy_set_w_next_timer v w : w_entropy (set_w_next_timer v w) = w_entropy w.
Proof. reflexivity. Qed.
Lemma w_draws_set_w_next_timer v w : w_draws (set_w_next_timer v w) = w_draws w.
Proof. reflexivity. Qed.
Lemma w_uuid_set_w_next_timer v w : w_uuid (set_w_next_timer v w) = w_uuid w.
Proof. reflexivity. Qed.
Lemma w_next_ws_set_w_next_timer v w : w_next_ws (set_w_next_timer v w) = w_next_ws w.
Proof. reflexivity. Qed.
Lemma w_next_timer_set_w_next_timer v w : w_next_timer (set_w_next_timer v w) = v.
Proof. reflexivity. Qed.

Lemma nowMs_set_w_clock v w : nowMs (set_w_clock v w) = v.
Proof. reflexivity. Qed.
Lemma nowMs_set_w_rooms v w : nowMs (set_w_rooms v w) = nowMs w.
Proof. reflexivity. Qed.
Lemma nowMs_set_w_waitingQueue v w : nowMs (set_w_waitingQueue v w) = nowMs w.
Proof. reflexivity. Qed.
Lemma nowMs_set_w_clients v w : nowMs (set_w_clients v w) = nowMs w.
Proof. reflexivity. Qed.
Lemma nowMs_set_w_sockets v w : nowMs (set_w_sockets v w) = nowMs w.
Proof. reflexivity. Qed.
Lemma nowMs_set_w_timers v w : nowMs (set_w_timers v w) = nowMs w.
Proof. reflexivity. Qed.
Lemma nowMs_set_w_outbox v w : nowMs (set_w_outbox v w) = nowMs w.
Proof. reflexivity. Qed.
Lemma nowMs_set_w_draws v w : nowMs (set_w_draws v w) = nowMs w.
Proof. reflexivity. Qed.
Lemma nowMs_set_w_uuid v w : nowMs (set_w_uuid v w) = nowMs w.
Proof. reflexivity. Qed.
Lemma nowMs_set_w_next_ws v w : nowMs (set_w_next_ws v w) = nowMs w.
Proof. reflexivity. Qed.
Lemma nowMs_set_w_next_timer v w : nowMs (set_w_next_timer v w) = nowMs w.
Proof. reflexivity. Qed.

Create Rewrite HintDb w_rooms.
#[local] Hint Rewrite
  w_rooms_set_w_rooms w_rooms_set_w_waitingQueue w_rooms_set_w_clients
  w_rooms_set_w_sockets w_rooms_set_w_timers w_rooms_set_w_outbox
  w_rooms_set_w_clock w_rooms_set_w_draws w_rooms_set_w_uuid
  w_rooms_set_w_next_ws w_rooms_set_w_next_timer
  : w_rooms.

Create Rewrite HintDb w_waitingQueue.
#[local] Hint Rewrite
  w_waitingQueue_set_w_rooms w_waitingQueue_set_w_waitingQueue
  w_waitingQueue_set_w_clients w_waitingQueue_set_w_sockets
  w_waitingQueue_set_w_timers w_waitingQueue_set_w_outbox
  w_waitingQueue_set_w_clock w_waitingQueue_set_w_draws
  w_waitingQueue_set_w_uuid w_waitingQueue_set_w_next_ws
  w_waitingQueue_set_w_next_timer
  : w_waitingQueue.

Create Rewrite HintDb w_clients.
#[local] Hint Rewrite
  w_clients_set_w_rooms w_clients_set_w_waitingQueue w_clients_set_w_clients
  w_clients_set_w_sockets w_clients_set_w_timers w_clients_set_w_outbox
  w_clients_set_w_clock w_clients_set_w_draws w_clients_set_w_uuid
  w_clients_set_w_next_ws w_clients_set_w_next_timer
  : w_clients.

Create Rewrite HintDb w_sockets.
#[local] Hint Rewrite
  w_sockets_set_w_rooms w_sockets_set_w_waitingQueue w_sockets_set_w_clients
  w_sockets_set_w_sockets w_sockets_set_w_timers w_sockets_set_w_outbox
  w_sockets_set_w_clock w_sockets_set_w_draws w_sockets_set_w_uuid
  w_sockets_set_w_next_ws w_sockets_set_w_next_timer
  : w_sockets.

Create Rewrite HintDb w_timers.
#[local] Hint Rewrite
  w_timers_set_w_rooms w_timers_set_w_waitingQueue w_timers_set_w_clients
  w_timers_set_w_sockets w_timers_set_w_timers w_timers_set_w_outbox
  w_timers_set_w_clock w_timers_set_w_draws w_timers_set_w_uuid
  w_timers_set_w_next_ws w_timers_set_w_next_timer
  : w_timers.

Create Rewrite HintDb w_outbox.
#[local] Hint Rewrite
  w_outbox_set_w_rooms w_outbox_set_w_waitingQueue w_outbox_set_w_clients
  w_outbox_set_w_sockets w_outbox_set_w_timers w_outbox_set_w_outbox
  w_outbox_set_w_clock w_outbox_set_w_draws w_outbox_set_w_uuid
  w_outbox_set_w_next_ws w_outbox_set_w_next_timer
  : w_outbox.

Create Rewrite HintDb w_clock.
#[local] Hint Rewrite
  w_clock_set_w_rooms w_clock_set_w_waitingQueue w_clock_set_w_clients
  w_clock_set_w_sockets w_clock_set_w_timers w_clock_set_w_outbox
  w_clock_set_w_clock w_clock_set_w_draws w_clock_set_w_uuid
  w_clock_set_w_next_ws w_clock_set_w_next_timer
  : w_clock.

Create Rewrite HintDb w_entropy.
#[local] Hint Rewrite
  w_entropy_set_w_rooms w_entropy_set_w_waitingQueue w_entropy_set_w_clients
  w_entropy_set_w_sockets w_entropy_set_w_timers w_entropy_set_w_outbox
  w_entropy_set_w_clock w_entropy_set_w_draws w_entropy_set_w_uuid
  w_entropy_set_w_next_ws w_entropy_set_w_next_timer
  : w_entropy.

Create Rewrite HintDb w_draws.
#[local] Hint Rewrite
  w_draws_set_w_rooms w_draws_set_w_waitingQueue w_draws_set_w_clients
  w_draws_set_w_sockets w_draws_set_w_timers w_draws_set_w_outbox
  w_draws_set_w_clock w_draws_set_w_draws w_draws_set_w_uuid
  w_draws_set_w_next_ws w_draws_set_w_next_timer
  : w_draws.

Create Rewrite HintDb w_uuid.
#[local] Hint Rewrite
  w_uuid_set_w_rooms w_uuid_set_w_waitingQueue w_uuid_set_w_clients
  w_uuid_set_w_sockets w_uuid_set_w_timers w_uuid_set_w_outbox
  w_uuid_set_w_clock w_uuid_set_w_draws w_uuid_set_w_uuid
  w_uuid_set_w_next_ws w_uuid_set_w_next_timer
  : w_uuid.

Create Rewrite HintDb w_next_ws.
#[local] Hint Rewrite
  w_next_ws_set_w_rooms w_next_ws_set_w_waitingQueue w_next_ws_set_w_clients
  w_next_ws_set_w_sockets w_next_ws_set_w_timers w_next_ws_set_w_outbox
  w_next_ws_set_w_clock w_next_ws_set_w_draws w_next_ws_set_w_uuid
  w_next_ws_set_w_next_ws w_next_ws_set_w_next_timer
  : w_next_ws.

Create Rewrite HintDb w_next_timer.
#[local] Hint Rewrite
  w_next_timer_set_w_rooms w_next_timer_set_w_waitingQueue
  w_next_timer_set_w_clients w_next_timer_set_w_sockets
  w_next_timer_set_w_timers w_next_timer_set_w_outbox
  w_next_timer_set_w_clock w_next_timer_set_w_draws w_next_timer_set_w_uuid
  w_next_timer_set_w_next_ws w_next_timer_set_w_next_timer
  : w_next_timer.

Create Rewrite HintDb nowMs.
#[local] Hint Rewrite
  nowMs_set_w_rooms nowMs_set_w_waitingQueue nowMs_set_w_clients
  nowMs_set_w_sockets nowMs_set_w_timers nowMs_set_w_outbox nowMs_set_w_clock
  nowMs_set_w_draws nowMs_set_w_uuid nowMs_set_w_next_ws
  nowMs_set_w_next_timer
  : nowMs.

(** ** Numbers *)

Lemma add_finite (x y : R) : (Finite x + Finite y)%js = Finite (x + y).
Proof. reflexivity. Qed.

Lemma sub_finite (x y : R) : (Finite x - Finite y)%js = Finite (x - y).
Proof. reflexivity. Qed.

Lemma mul_finite (x y : R) : (Finite x * Finite y)%js = Finite (x * y).
Proof. reflexivity. Qed.

Lemma neg_finite (x : R) : (- Finite x)%js = Finite (- x).
Proof. reflexivity. Qed.

Lemma abs_finite (x : R) : Math_abs (Finite x) = Finite (Rabs x).
Proof. reflexivity. Qed.

Lemma sin_finite (x : R) : Math_sin (Finite x) = Finite (sin x).
Proof. reflexivity. Qed.

Lemma cos_finite (x : R) : Math_cos (Finite x) = Finite (cos x).
Proof. reflexivity. Qed.

Lemma clamp_finite (v lo hi : R) :
  clamp (Finite v) (Finite lo) (Finite hi) = Finite (Rmax lo (Rmin hi v)).
Proof. reflexivity. Qed.

Create Rewrite HintDb js.
#[local] Hint Rewrite add_finite sub_finite mul_finite neg_finite abs_finite
  sin_finite cos_finite clamp_finite : js.

Lemma Rmax_Rmin_bounds (v lo hi : R) :
  (lo <= hi)%R -> (lo <= Rmax lo (Rmin hi v) <= hi)%R.
Proof.
  intros Hle. unfold Rmax, Rmin.
  repeat (destruct (Rle_dec _ _)); lra.
Qed.

Lemma clamp_unit_not_NaN (n : number) :
  n ≠ NaN -> in_unit (clamp n (Finite 0) (Finite 1)).
Proof.
  intros Hn. destruct n as [| | |v]; [congruence | | |].
  - unfold clamp, Math_max, Math_min, in_unit, Rmax.
    destruct (Rle_dec 0 1); lra.
  - unfold clamp, Math_max, Math_min, in_unit. lra.
  - rewrite clamp_finite. simpl. apply Rmax_Rmin_bounds. lra.
Qed.

Lemma div_finite (x y : R) :
  y ≠ 0%R -> (Finite x / Finite y)%js = Finite (x / y).
Proof.
  intros Hy. unfold JS.div. destruct (Req_dec_T y 0); [contradiction | reflexivity].
Qed.

Lemma lt_finite_true (x y : R) : (x < y)%R -> (Finite x <? Finite y)%js = true.
Proof. intros H. unfold JS.lt. destruct (Rlt_dec x y); [reflexivity | contradiction]. Qed.

Lemma lt_finite_false (x y : R) : (y <= x)%R -> (Finite x <? Finite y)%js = false.
Proof. intros H. unfold JS.lt. destruct (Rlt_dec x y); [lra | reflexivity]. Qed.

Lemma le_finite_true (x y : R) : (x <= y)%R -> (Finite x <=? Finite y)%js = true.
Proof. intros H. unfold JS.le. destruct (Rle_dec x y); [reflexivity | contradiction]. Qed.

Lemma le_finite_false (x y : R) : (y < x)%R -> (Finite x <=? Finite y)%js = false.
Proof. intros H. unfold JS.le. destruct (Rle_dec x y); [lra | reflexivity]. Qed.

(** The largest bounce angle stays short of a right angle. *)
Lemma cos_bounce_angle_pos (rel : R) :
  (-1 <= rel <= 1)%R -> (0 < cos (rel * 1.05))%R.
Proof.
  intros Hrel. pose proof PI2_3_2 as Hpi.
  apply cos_gt_0; nra.
Qed.

(** ** Paddle bounce *)

(** C6.  For every call [paddleBounce(room, side, cx)] on finite values
    (ball position, paddle centre, speed, and a paddle width other than
    zero): with [rel = clamp((x - cx)/(pw/2), -1, 1)],
    [newSpeed = clamp(speed * SPEED_UP, 100, MAX_BALL_SPEED)] and
    [theta = rel * MAX_BOUNCE_ANGLE], the ball has [vx = newSpeed * sin theta],
    [vy = |newSpeed * cos theta|] after a top bounce and its opposite after a
    bottom bounce, so that [vy > 0] strictly for top and [vy < 0] strictly
    for bottom, and [speed = newSpeed], which lies in [100, MAX_BALL_SPEED];
    the position of the ball and the rest of the room are untouched. *)
Theorem paddleBounce_spec (room : Room) (s : side) (x cx pw speed : R) :
  b_x (r_ball room) = Finite x ->
  par_pw (r_params room) = Finite pw ->
  pw ≠ 0%R ->
  b_speed (r_ball room) = Finite speed ->
  let rel := Rmax (-1) (Rmin 1 ((x - cx) / (pw / 2))) in
  let newSpeed := Rmax 100 (Rmin 1200 (speed * 1.03)) in
  let theta := (rel * 1.05)%R in
  let vy := match s with
            | TopSide => Rabs (newSpeed * cos theta)
            | BottomSide => (- Rabs (newSpeed * cos theta))%R
            end in
  paddleBounce room s (Finite cx)
  = set_r_ball
      (mkBall (Finite x) (b_y (r_ball room))
         (Finite (newSpeed * sin theta)) (Finite vy) (Finite newSpeed))
      room
  ∧ match s with TopSide => (0 < vy)%R | BottomSide => (vy < 0)%R end
  ∧ (100 <= newSpeed <= 1200)%R.
Proof.
  intros Hx Hpw Hpw0 Hsp rel newSpeed theta vy.
  assert (Hrel : (-1 <= rel <= 1)%R) by (apply Rmax_Rmin_bounds; lra).
  assert (Hns : (100 <= newSpeed <= 1200)%R) by (apply Rmax_Rmin_bounds; lra).
  pose proof (cos_bounce_angle_pos rel Hrel) as Hcos. fold theta in Hcos.
  assert (Hprod : (0 < newSpeed * cos theta)%R) by nra.
  assert (Habs : (0 < Rabs (newSpeed * cos theta))%R)
    by (apply Rabs_pos_lt; lra).
  split; [| split; [destruct s; subst vy; lra | exact Hns]].
  unfold paddleBounce. rewrite Hx, Hpw, Hsp.
  unfold SPEED_UP, MAX_BALL_SPEED, MAX_BOUNCE_ANGLE. cbv zeta.
  rewrite (div_finite pw 2) by lra.
  autorewrite with js.
  rewrite div_finite by lra.
  autorewrite with js.
  fold rel. fold newSpeed. fold theta.
  destruct s; autorewrite with js; subst vy;
    unfold set_b_speed, set_b_vy, set_b_vx; simpl; rewrite Hx; reflexivity.
Qed.

(** ** Inbound frames *)

Section HandlerFacts.

Variable ToNumber_builtin : json -> number.

Local Abbreviation on_message := (on_message ToNumber_builtin).

Lemma type_is_object (props : list (string * json)) (s t : string) :
  assoc "type" props = Some (JString s) ->
  type_is (JObject props) t = bool_decide (s = t).
Proof. intros H. unfold type_is, get_prop. rewrite H. reflexivity. Qed.

Lemma paddles_ok_set_paddle (s : side) (x : number) (room : Room) :
  in_unit x -> paddles_ok room -> paddles_ok (set_paddle s x room).
Proof. intros Hx [Ht Hb]. destruct s; split; assumption. Qed.

(** C4.  For every inbound message [{type: "paddle", x}] whose [x] is a
    JSON number (finite, or an infinity when the literal overflows), from
    a session that is in a registered room with an assigned side: the
    handler returns; the room registered under the session's [roomId]
    then has [clamp(x, 0, 1)] as the paddle position of the session's
    side ([topX] for [top], [bottomX] for [bottom]), the other position
    and every other field of the room as before, and nothing else of the
    state is changed; the value written is in [0, 1]; hence if the paddles
    of every room were in [0, 1] before the message, they are after it. *)
Theorem paddle_message_clamps (ws : wsref) (props : list (string * json))
    (n : number) (k : uuid) (s : side) (room : Room) (w : World) :
  assoc "type" props = Some (JString "paddle") ->
  assoc "x" props = Some (JNumber n) ->
  n ≠ NaN ->
  ws_roomId (socket_of w ws) = Some k ->
  ws_side (socket_of w ws) = Some s ->
  w_rooms w !! k = Some room ->
  let x := clamp n (Finite 0) (Finite 1) in
  let w' := store_room k (set_paddle s x room) w in
  on_message ws (Parsed (JObject props)) w = Return tt w'
  ∧ in_unit x
  ∧ ((∀ k' r, w_rooms w !! k' = Some r -> paddles_ok r) ->
     ∀ k' r, w_rooms w' !! k' = Some r -> paddles_ok r)
  ∧ (∃ room', w_rooms w' !! k = Some room' ∧ paddle_written s x room room')
  ∧ only_room k w w'.
Proof.
  intros Htype Hx Hn Hroom Hside Hk x w'.
  assert (Hunit : in_unit x) by (apply clamp_unit_not_NaN; exact Hn).
  split; [| split; [exact Hunit |]]; [| split; [| split]].
  - unfold on_message.
    rewrite !(type_is_object props "paddle") by exact Htype.
    rewrite !bool_decide_eq_false_2 by discriminate.
    rewrite bool_decide_eq_true_2 by reflexivity.
    rewrite Hroom, Hside, Hk. unfold get_prop. rewrite Hx.
    reflexivity.
  - intros Hall k' r Hlook. unfold w', store_room in Hlook. simpl in Hlook.
    destruct (decide (k = k')) as [<- | Hne].
    + rewrite lookup_insert_eq in Hlook. inversion Hlook; subst r.
      apply paddles_ok_set_paddle; [exact Hunit | exact (Hall k room Hk)].
    + rewrite lookup_insert_ne in Hlook by exact Hne. exact (Hall k' r Hlook).
  - exists (set_paddle s x room). split.
    + change (w_rooms w') with (<[k := set_paddle s x room]> (w_rooms w)).
      apply lookup_insert_eq.
    + destruct s; repeat split; reflexivity.
  - unfold only_room. split; [| repeat split; reflexivity].
    intros k' Hne.
    change (w_rooms w') with (<[k := set_paddle s x room]> (w_rooms w)).
    apply lookup_insert_ne. congruence.
Qed.

End HandlerFacts.

(** ** Broadcasts *)

Lemma is_open_set_outbox (o : list (wsref * message)) (w : World) (ws : wsref) :
  is_open (set_w_outbox o w) ws = is_open w ws.
Proof. reflexivity. Qed.

Lemma set_w_outbox_id (w : World) : set_w_outbox (w_outbox w) w = w.
Proof. destruct w; reflexivity. Qed.

Lemma broadcastEvent_outbox (room : Room) (ev : message) (w : World) :
  broadcastEvent room ev w
  = set_w_outbox (w_outbox w ++ map (fun ws => (ws, ev)) (recipients room w)) w.
Proof.
  unfold broadcastEvent, recipients, safeSend. simpl.
  destruct (p_ws (pl_top (r_players room))) as [t|],
           (p_ws (pl_bottom (r_players room))) as [b|]; simpl;
    rewrite ?filter_cons, ?filter_nil;
    repeat match goal with
    | |- context [is_open (set_w_outbox ?o ?w) ?x] =>
        rewrite (is_open_set_outbox o w x)
    end;
    try (destruct (is_open w t) eqn:Ht);
    try (destruct (is_open w b) eqn:Hb);
    repeat match goal with
    | |- context [is_open (set_w_outbox ?o ?w) ?x] =>
        rewrite (is_open_set_outbox o w x)
    end;
    rewrite ?Ht, ?Hb;
    rewrite ?decide_True by reflexivity;
    rewrite ?decide_False by discriminate;
    simpl; rewrite ?app_nil_r, <- ?app_assoc, ?set_w_outbox_id; reflexivity.
Qed.

(** ** Scoring *)

Lemma recipients_set_outbox (room : Room) (o : list (wsref * message)) (w : World) :
  recipients room (set_w_outbox o w) = recipients room w.
Proof. reflexivity. Qed.

Lemma onScore_not_playing (room : Room) (s : side) (w : World) :
  r_phase room ≠ Playing -> onScore room s w = (room, w).
Proof.
  intros Hph. unfold onScore. rewrite bool_decide_eq_true_2 by exact Hph.
  reflexivity.
Qed.


(** ** Serve *)

(** What [serveBall] does to a room: the ball goes to the centre, its speed
    is [INIT_BALL_SPEED], [vx = INIT_BALL_SPEED * sin angle], and
    [vy = dir * cos angle] for [angle = Math.random() * 0.8 - 0.4]; one
    random number is drawn and nothing else changes. *)
Lemma serveBall_spec (room : Room) (w : World) :
  let angle := (Finite (w_entropy w (w_draws w)) * Finite 0.8 - Finite 0.4)%js in
  let dir := match r_serveToward room with
             | TopSide => Finite (-1)
             | BottomSide => Finite 1
             end in
  serveBall room w
  = (set_r_ball
       (mkBall (par_W (r_params room) / Finite 2)%js
          (par_H (r_params room) / Finite 2)%js
          (INIT_BALL_SPEED * Math_sin angle)%js
          (dir * Math_cos angle)%js
          INIT_BALL_SPEED)
       room,
     set_w_draws (S (w_draws w)) w).
Proof. reflexivity. Qed.

(** The serve transition of [tick]: in [countdown] or [between], once
    [nextPhaseAt] has come and time has advanced since the last tick, the
    ball is served and the phase becomes [playing]. *)
Lemma tick_serves (room : Room) (w : World) :
  r_phase room = Countdown ∨ r_phase room = Between ->
  r_nextPhaseAt room ≤ nowMs w ->
  r_lastTickAt room < nowMs w ->
  tick room w
  = (set_r_phase Playing (serveBall (set_r_lastTickAt (nowMs w) room) w).1,
     (serveBall (set_r_lastTickAt (nowMs w) room) w).2).
Proof.
  intros Hph Hdue Hdt. unfold tick, of_Z.
  rewrite div_finite by lra.
  assert (Hpos : (0 < IZR (nowMs w - r_lastTickAt room) / 1000)%R).
  { apply Rdiv_lt_0_compat; [apply IZR_lt; lia | lra]. }
  rewrite le_finite_false by exact Hpos.
  simpl r_phase. simpl r_nextPhaseAt.
  rewrite (bool_decide_eq_true_2 (r_phase room ≠ Playing))
    by (destruct Hph as [-> | ->]; discriminate).
  rewrite (bool_decide_eq_true_2 (r_nextPhaseAt room ≤ nowMs w)) by exact Hdue.
  rewrite (bool_decide_eq_true_2 (r_phase room ≠ Gameover))
    by (destruct Hph as [-> | ->]; discriminate).
  simpl andb. cbv iota.
  destruct Hph as [Hph | Hph]; rewrite Hph; simpl; reflexivity.
Qed.

(** C1 (the code departs from it).  A transition into [playing] with
    [serveToward = bottom] and a random draw of [0.5], hence the angle 0:
    the ball is served with [speed = INIT_BALL_SPEED = 780] and [vx = 0],
    but [vy = 1], where [dir * INIT_BALL_SPEED * cos 0] is 780: [serveBall]
    computes [vy = dir * cos angle], without the factor [INIT_BALL_SPEED],
    and the velocity has magnitude 1. *)
Theorem serve_vy_not_scaled (room : Room) (w : World) :
  r_phase room = Countdown ∨ r_phase room = Between ->
  r_nextPhaseAt room ≤ nowMs w ->
  r_lastTickAt room < nowMs w ->
  r_serveToward room = BottomSide ->
  w_entropy w (w_draws w) = (1 / 2)%R ->
  let room' := (tick room w).1 in
  r_phase room' = Playing
  ∧ b_speed (r_ball room') = Finite 780
  ∧ (∃ vx vy : R,
       b_vx (r_ball room') = Finite vx ∧ b_vy (r_ball room') = Finite vy
       ∧ vx = 0%R ∧ vy = 1%R
       ∧ (vx * vx + vy * vy)%R = 1%R
       ∧ (vx * vx + vy * vy)%R ≠ (780 * 780)%R)
  ∧ b_vy (r_ball room') ≠ (Finite 1 * (INIT_BALL_SPEED * Math_cos (Finite 0)))%js.
Proof.
  intros Hph Hdue Hdt Hserve Hu room'. subst room'.
  rewrite tick_serves by assumption.
  rewrite serveBall_spec. simpl r_serveToward. rewrite Hserve, Hu.
  unfold INIT_BALL_SPEED. autorewrite with js.
  replace (1 / 2 * 0.8 - 0.4)%R with 0%R by lra.
  rewrite sin_0, cos_0. simpl.
  split; [reflexivity |]. split; [reflexivity |]. split.
  - exists (780 * 0)%R, (1 * 1)%R. repeat split; try reflexivity; lra.
  - intros H. inversion H. lra.
Qed.

(** ** What the physics leaves alone *)

Lemma quiet_refl (w : World) : quiet w w.
Proof. exists (w_outbox w), (w_draws w). destruct w; reflexivity. Qed.

Lemma quiet_trans (w1 w2 w3 : World) : quiet w1 w2 -> quiet w2 w3 -> quiet w1 w3.
Proof.
  intros (o1 & d1 & ->) (o2 & d2 & ->). exists o2, d2. reflexivity.
Qed.

Lemma quiet_outbox (o : list (wsref * message)) (w : World) :
  quiet w (set_w_outbox o w).
Proof. exists o, (w_draws w). destruct w; reflexivity. Qed.

Lemma quiet_draws (d : nat) (w : World) : quiet w (set_w_draws d w).
Proof. exists (w_outbox w), d. destruct w; reflexivity. Qed.

Lemma quiet_rooms (w w' : World) : quiet w w' -> w_rooms w' = w_rooms w.
Proof. intros (o & d & ->). reflexivity. Qed.

Lemma broadcastEvent_quiet (room : Room) (ev : message) (w : World) :
  quiet w (broadcastEvent room ev w).
Proof. rewrite broadcastEvent_outbox. apply quiet_outbox. Qed.

Lemma same_game_refl (r : Room) : same_game r r.
Proof. split; reflexivity. Qed.

Lemma same_game_inv (r r' : Room) : same_game r r' -> room_inv r -> room_inv r'.
Proof. intros [Hp Hph]. unfold room_inv. rewrite Hp, Hph. trivial. Qed.

Lemma paddleBounce_same_game (room : Room) (s : side) (cx : number) :
  same_game room (paddleBounce room s cx).
Proof. split; reflexivity. Qed.

Lemma serveBall_same_game (room : Room) (w : World) :
  same_game room (serveBall room w).1.
Proof. split; reflexivity. Qed.

Lemma serveBall_quiet (room : Room) (w : World) : quiet w (serveBall room w).2.
Proof. rewrite serveBall_spec. apply quiet_draws. Qed.

Lemma endGame_quiet (room : Room) (win : option side) (why : reason) (w : World) :
  quiet w (endGame room win why w).2.
Proof. unfold endGame. simpl. apply broadcastEvent_quiet. Qed.

Lemma onScore_quiet (room : Room) (s : side) (w : World) :
  quiet w (onScore room s w).2.
Proof.
  unfold onScore.
  repeat match goal with
  | |- context [if ?c then _ else _] => destruct c
  end; simpl; try apply quiet_refl;
    try (eapply quiet_trans; [| apply endGame_quiet]);
    apply broadcastEvent_quiet.
Qed.

(** The three ways [integrate] ends, on the room [rr] whose ball has moved:
    a bounce, a miss, or nothing. *)
Lemma integrate_cases (room : Room) (dt : number) (w : World) :
  ∃ rr, same_game room rr
        ∧ ((∃ s cx, integrate room dt w = (paddleBounce rr s cx, w))
           ∨ (∃ s, integrate room dt w = onScore rr s w)
           ∨ integrate room dt w = (rr, w)).
Proof.
  unfold integrate.
  match goal with
  | |- context [set_r_ball ?b room] => exists (set_r_ball b room)
  end.
  split; [split; reflexivity |].
  repeat match goal with
  | |- context [if ?c then _ else _] =>
      lazymatch c with
      | context [if _ then _ else _] => fail
      | _ => destruct c eqn:?
      end
  end; simpl; eauto.
Qed.

(** ** Hearts *)

(** A miss keeps the invariant and takes exactly one heart. *)
Lemma onScore_inv (room : Room) (s : side) (w : World) :
  room_inv room -> r_phase room = Playing ->
  let room' := (onScore room s w).1 in
  room_inv room'
  ∧ r_phase room' ≠ Playing
  ∧ p_hearts (pl_top (r_players room')) + p_hearts (pl_bottom (r_players room'))
    = p_hearts (pl_top (r_players room)) + p_hearts (pl_bottom (r_players room)) - 1
  ∧ (r_phase room' = Gameover <-> p_hearts (player s room') = 0).
Proof.
  intros (Ht & Hb & Hlive & _) Hph room'. subst room'.
  destruct (Hlive ltac:(rewrite Hph; discriminate)) as [Ht1 Hb1].
  unfold onScore.
  rewrite bool_decide_eq_false_2 by (rewrite Hph; intros H; apply H; reflexivity).
  unfold endGame, room_inv, HEARTS_START in *.
  destruct s; cbn [player set_player set_r_players set_r_phase set_p_hearts
                     r_players r_phase pl_top pl_bottom p_hearts].
  - destruct (Z.leb_spec (Z.max 0 (p_hearts (pl_top (r_players room)) - 1)) 0);
      destruct (Z.leb_spec (p_hearts (pl_bottom (r_players room))) 0);
      simpl; repeat split; try discriminate; try lia; intros; try lia;
      try discriminate; try congruence.
  - destruct (Z.leb_spec (p_hearts (pl_top (r_players room))) 0);
      destruct (Z.leb_spec (Z.max 0 (p_hearts (pl_bottom (r_players room)) - 1)) 0);
      simpl; repeat split; try discriminate; try lia; intros; try lia;
      try discriminate; try congruence.
Qed.

Lemma integrate_inv (room : Room) (dt : number) (w : World) :
  room_inv room -> r_phase room = Playing ->
  let room' := (integrate room dt w).1 in
  room_inv room'
  ∧ p_hearts (pl_top (r_players room')) + p_hearts (pl_bottom (r_players room'))
    = p_hearts (pl_top (r_players room)) + p_hearts (pl_bottom (r_players room))
      - Z.of_nat (left_playing room room')
  ∧ quiet w (integrate room dt w).2.
Proof.
  intros Hinv Hph room'. subst room'.
  destruct (integrate_cases room dt w) as (rr & Hsame & Hcase).
  pose proof (same_game_inv _ _ Hsame Hinv) as Hrr.
  destruct Hsame as [Hpl Hphase].
  assert (Hrrph : r_phase rr = Playing) by congruence.
  unfold left_playing.
  destruct Hcase as [(s & cx & ->) | [(s & ->) | ->]]; simpl.
  - rewrite bool_decide_eq_false_2 by (rewrite Hrrph; tauto).
    split; [exact Hrr |]. rewrite Hpl. split; [simpl; lia | apply quiet_refl].
  - destruct (onScore_inv rr s w Hrr Hrrph) as (Hi & Hnp & Hsum & _).
    rewrite bool_decide_eq_true_2 by (split; assumption).
    split; [exact Hi |]. rewrite Hsum, Hpl. split; [simpl; lia | apply onScore_quiet].
  - rewrite bool_decide_eq_false_2 by (rewrite Hrrph; tauto).
    split; [exact Hrr |]. rewrite Hpl. split; [simpl; lia | apply quiet_refl].
Qed.

(** A tick keeps the invariant; it takes one heart when it takes the room
    out of [playing], and none otherwise; it never leaves [gameover]. *)
Lemma tick_inv (room : Room) (w : World) :
  room_inv room ->
  let room' := (tick room w).1 in
  room_inv room'
  ∧ p_hearts (pl_top (r_players room')) + p_hearts (pl_bottom (r_players room'))
    = p_hearts (pl_top (r_players room)) + p_hearts (pl_bottom (r_players room))
      - Z.of_nat (left_playing room room')
  ∧ (r_phase room = Gameover -> r_phase room' = Gameover)
  ∧ quiet w (tick room w).2.
Proof.
  intros Hinv room'. subst room'. unfold tick.
  set (r1 := set_r_lastTickAt (nowMs w) room).
  assert (Hsame : same_game room r1) by (split; reflexivity).
  pose proof (same_game_inv _ _ Hsame Hinv) as Hr1.
  assert (Hquietcase : ∀ r2, same_game room r2 ->
            room_inv r2
            ∧ p_hearts (pl_top (r_players r2)) + p_hearts (pl_bottom (r_players r2))
              = p_hearts (pl_top (r_players room))
                + p_hearts (pl_bottom (r_players room))
                - Z.of_nat (left_playing room r2)
            ∧ (r_phase room = Gameover -> r_phase r2 = Gameover)).
  { intros r2 Hs. split; [exact (same_game_inv _ _ Hs Hinv) |].
    destruct Hs as [Hp Hph]. unfold left_playing.
    rewrite bool_decide_eq_false_2 by (rewrite Hph; tauto).
    rewrite Hp. split; [simpl; lia | congruence]. }
  assert (Hidle : room_inv (r1, w).1
            ∧ p_hearts (pl_top (r_players (r1, w).1))
              + p_hearts (pl_bottom (r_players (r1, w).1))
              = p_hearts (pl_top (r_players room))
                + p_hearts (pl_bottom (r_players room))
                - Z.of_nat (left_playing room (r1, w).1)
            ∧ (r_phase room = Gameover -> r_phase (r1, w).1 = Gameover)
            ∧ quiet w (r1, w).2).
  { destruct (Hquietcase r1 Hsame) as (? & ? & ?).
    split; [assumption | split; [assumption | split; [assumption |]]].
    apply quiet_refl. }
  destruct (_ <=? _)%js; [exact Hidle |].
  simpl r_phase. simpl r_nextPhaseAt.
  destruct (decide (r_phase room = Playing)) as [Hph | Hph].
  - rewrite bool_decide_eq_false_2 by tauto.
    match goal with |- context [integrate r1 ?dt w] =>
      destruct (integrate_inv r1 dt w Hr1 Hph) as (Hi & Hsum & Hq)
    end.
    split; [exact Hi |]. split; [| split; [congruence | exact Hq]].
    rewrite Hsum. unfold left_playing. simpl r_phase. reflexivity.
  - rewrite bool_decide_eq_true_2 by exact Hph.
    destruct (bool_decide (r_nextPhaseAt room ≤ nowMs w)); simpl;
      [| exact Hidle].
    destruct (decide (r_phase room = Gameover)) as [Hgo | Hgo].
    { rewrite bool_decide_eq_false_2 by tauto. simpl. exact Hidle. }
    rewrite bool_decide_eq_true_2 by exact Hgo. simpl.
    destruct (bool_decide (r_phase room = Countdown)
              || bool_decide (r_phase room = Between)) eqn:Hserve;
      [| exact Hidle].
    split; [| split; [| split; [tauto | apply quiet_draws]]].
    + destruct Hinv as (Ht & Hb & Hlive & Hone).
      destruct (Hlive Hgo) as [? ?]. unfold room_inv. simpl. tauto.
    + unfold left_playing. simpl.
      rewrite bool_decide_eq_false_2 by tauto. simpl. lia.
Qed.

Lemma misses_inv (r0 r : Room) (n : nat) :
  room_inv r0 -> misses r0 n r ->
  room_inv r
  ∧ p_hearts (pl_top (r_players r)) + p_hearts (pl_bottom (r_players r))
    = p_hearts (pl_top (r_players r0)) + p_hearts (pl_bottom (r_players r0))
      - Z.of_nat n.
Proof.
  intros H0 Hrun. induction Hrun as [r | r n r1 s w Hrun IH Hph | r n r1 w Hrun IH].
  - split; [exact H0 | lia].
  - destruct (IH H0) as [Hinv Hsum].
    destruct (onScore_inv r1 s w Hinv Hph) as (Hi & _ & Hs & _).
    split; [exact Hi | lia].
  - destruct (IH H0) as [Hinv Hsum].
    destruct (tick_inv r1 w Hinv) as (Hi & Hs & _).
    split; [exact Hi | lia].
Qed.

(** C7.  From a room with [HEARTS_START] hearts on both sides, along any
    sequence of ticks and miss events: every miss event takes exactly one
    heart (the hearts left are [2 * HEARTS_START] less the number of
    misses); there are never more than [2 * HEARTS_START - 1 = 5] miss
    events; after the fifth the phase is [gameover]; and a miss ends the
    game exactly when the loser's hearts reach 0. *)
Theorem gameover_within_five_misses (r0 r : Room) (n : nat) :
  hearts_of r0 = mkHearts HEARTS_START HEARTS_START ->
  misses r0 n r ->
  (n ≤ 5)%nat
  ∧ (n = 5%nat -> r_phase r = Gameover)
  ∧ p_hearts (pl_top (r_players r)) + p_hearts (pl_bottom (r_players r))
    = 2 * HEARTS_START - Z.of_nat n
  ∧ (∀ s w, r_phase r = Playing ->
       (r_phase (onScore r s w).1 = Gameover
        <-> p_hearts (player s (onScore r s w).1) = 0)).
Proof.
  intros Hh Hrun. unfold hearts_of in Hh. inversion Hh as [[Ht Hb]].
  assert (H0 : room_inv r0).
  { unfold room_inv, HEARTS_START in *. rewrite Ht, Hb.
    repeat split; try lia. }
  destruct (misses_inv r0 r n H0 Hrun) as [Hinv Hsum].
  rewrite Ht, Hb in Hsum. unfold HEARTS_START in *.
  pose proof Hinv as (Hit & Hib & Hlive & Hone).
  split; [lia |]. split; [| split; [lia |]].
  - intros ->. destruct (decide (r_phase r = Gameover)) as [Hg | Hg]; [exact Hg |].
    destruct (Hlive Hg). lia.
  - intros s w Hph. apply (onScore_inv r s w Hinv Hph).
Qed.


(** ** What each operation touches *)

Lemma safeSend_outbox (s : wsref) (msg : message) (w : World) :
  safeSend (Some s) msg w
  = set_w_outbox (w_outbox w ++ (if is_open w s then [(s, msg)] else [])) w.
Proof.
  unfold safeSend. destruct (is_open w s); [reflexivity |].
  rewrite app_nil_r. destruct w; reflexivity.
Qed.

Lemma safeSend_quiet (ws : option wsref) (msg : message) (w : World) :
  quiet w (safeSend ws msg w).
Proof.
  destruct ws as [s|]; [| apply quiet_refl].
  rewrite safeSend_outbox. apply quiet_outbox.
Qed.

Lemma w_rooms_safeSend ws msg w : w_rooms (safeSend ws msg w) = w_rooms w.
Proof. apply quiet_rooms, safeSend_quiet. Qed.

Lemma w_rooms_broadcastEvent room ev w : w_rooms (broadcastEvent room ev w) = w_rooms w.
Proof. apply quiet_rooms, broadcastEvent_quiet. Qed.

Lemma w_rooms_upd_socket ws f w : w_rooms (upd_socket ws f w) = w_rooms w.
Proof. reflexivity. Qed.

Lemma w_rooms_store_room k r w : w_rooms (store_room k r w) = <[k := r]> (w_rooms w).
Proof. reflexivity. Qed.

Lemma w_rooms_startLoops room w : w_rooms (startLoops room w).2 = w_rooms w.
Proof. reflexivity. Qed.

Lemma startLoops_room room w :
  (startLoops room w).1
  = set_r_loops (mkLoops (Some (w_next_timer w)) (Some (S (w_next_timer w)))) room.
Proof. reflexivity. Qed.

Lemma quiet_sockets (w w' : World) : quiet w w' -> w_sockets w' = w_sockets w.
Proof. intros (o & d & ->). reflexivity. Qed.

Lemma quiet_socket_of (w w' : World) (ws : wsref) :
  quiet w w' -> socket_of w' ws = socket_of w ws.
Proof. intros H. unfold socket_of. rewrite (quiet_sockets _ _ H). reflexivity. Qed.

Lemma socket_of_safeSend ws msg w x : socket_of (safeSend ws msg w) x = socket_of w x.
Proof. apply quiet_socket_of, safeSend_quiet. Qed.

Lemma socket_of_broadcastEvent room ev w x :
  socket_of (broadcastEvent room ev w) x = socket_of w x.
Proof. apply quiet_socket_of, broadcastEvent_quiet. Qed.

Lemma socket_of_store_room k r w x : socket_of (store_room k r w) x = socket_of w x.
Proof. reflexivity. Qed.

Lemma socket_of_startLoops room w x : socket_of (startLoops room w).2 x = socket_of w x.
Proof. reflexivity. Qed.

Lemma socket_of_upd_socket (ws ws' : wsref) (f : Socket -> Socket) (w : World) :
  socket_of (upd_socket ws f w) ws'
  = if decide (ws = ws') then f (socket_of w ws) else socket_of w ws'.
Proof.
  unfold socket_of, upd_socket. simpl.
  destruct (decide (ws = ws')) as [<- | Hne].
  - rewrite lookup_insert_eq. reflexivity.
  - rewrite lookup_insert_ne by exact Hne. reflexivity.
Qed.

Lemma socket_of_upd_socket_eq (ws : wsref) (f : Socket -> Socket) (w : World) :
  socket_of (upd_socket ws f w) ws = f (socket_of w ws).
Proof. rewrite socket_of_upd_socket. apply decide_True. reflexivity. Qed.

Lemma socket_of_upd_socket_ne (ws ws' : wsref) (f : Socket -> Socket) (w : World) :
  ws ≠ ws' -> socket_of (upd_socket ws f w) ws' = socket_of w ws'.
Proof. intros H. rewrite socket_of_upd_socket. apply decide_False. exact H. Qed.

Lemma destroyRoom_rooms (k : uuid) (w : World) :
  w_rooms (destroyRoom k w) = delete k (w_rooms w).
Proof.
  unfold destroyRoom. destruct (w_rooms w !! k) as [room|] eqn:Hk.
  - unfold stopLoops, clearInterval.
    destruct (loop_tick (r_loops room)), (loop_send (r_loops room)); reflexivity.
  - symmetry. apply delete_id. exact Hk.
Qed.

Lemma destroyRoom_sockets (k : uuid) (w : World) :
  w_sockets (destroyRoom k w) = w_sockets w.
Proof.
  unfold destroyRoom. destruct (w_rooms w !! k) as [room|]; [| reflexivity].
  unfold stopLoops, clearInterval.
  destruct (loop_tick (r_loops room)), (loop_send (r_loops room)); reflexivity.
Qed.

Lemma destroyRoom_outbox (k : uuid) (w : World) :
  w_outbox (destroyRoom k w) = w_outbox w.
Proof.
  unfold destroyRoom. destruct (w_rooms w !! k) as [room|]; [| reflexivity].
  unfold stopLoops, clearInterval.
  destruct (loop_tick (r_loops room)), (loop_send (r_loops room)); reflexivity.
Qed.

Lemma socket_of_destroyRoom k w x : socket_of (destroyRoom k w) x = socket_of w x.
Proof. unfold socket_of. rewrite destroyRoom_sockets. reflexivity. Qed.

Lemma nowMs_safeSend ws msg w : nowMs (safeSend ws msg w) = nowMs w.
Proof. destruct (safeSend_quiet ws msg w) as (o & d & ->). reflexivity. Qed.

#[local] Hint Rewrite w_rooms_safeSend w_rooms_broadcastEvent w_rooms_upd_socket
  w_rooms_store_room w_rooms_startLoops destroyRoom_rooms : w_rooms.
#[local] Hint Rewrite destroyRoom_outbox : w_outbox.
#[local] Hint Rewrite nowMs_safeSend : nowMs.
Create Rewrite HintDb socket_of.
#[local] Hint Rewrite socket_of_safeSend socket_of_broadcastEvent
  socket_of_store_room socket_of_startLoops socket_of_destroyRoom : socket_of.

(** ** The registry along a run *)

Lemma world_inv_rooms (w w' : World) :
  w_rooms w' = w_rooms w -> world_inv w -> world_inv w'.
Proof. unfold world_inv. intros ->. trivial. Qed.

Lemma world_inv_store (k : uuid) (r : Room) (w : World) :
  room_inv r -> world_inv w -> world_inv (store_room k r w).
Proof.
  intros Hr Hw. unfold world_inv. rewrite w_rooms_store_room.
  apply map_Forall_insert_2; assumption.
Qed.

Lemma world_inv_destroy (k : uuid) (w : World) :
  world_inv w -> world_inv (destroyRoom k w).
Proof.
  unfold world_inv. rewrite destroyRoom_rooms. apply map_Forall_delete.
Qed.

Lemma world_inv_lookup (w : World) (k : uuid) (r : Room) :
  world_inv w -> w_rooms w !! k = Some r -> room_inv r.
Proof. intros Hw Hk. exact (Hw k r Hk). Qed.

Lemma room_inv_hearts (r r' : Room) :
  hearts_of r' = hearts_of r -> r_phase r' = r_phase r ->
  room_inv r -> room_inv r'.
Proof.
  unfold hearts_of, room_inv. intros Hh Hph. inversion Hh as [[Ht Hb]].
  rewrite Ht, Hb, Hph. trivial.
Qed.

Lemma fresh_room_inv (r : Room) :
  hearts_of r = mkHearts HEARTS_START HEARTS_START -> room_inv r.
Proof.
  unfold hearts_of. intros H. inversion H as [[Ht Hb]].
  unfold room_inv, HEARTS_START in *. rewrite Ht, Hb. repeat split; lia.
Qed.

Lemma Return_inj {A : Type} (a a' : A) (w w' : World) :
  Return a w = Return a' w' -> a = a' ∧ w = w'.
Proof. intros H. inversion H. split; reflexivity. Qed.

(** A room that [makeRoom] returns is registered under its id, with full
    hearts, in [countdown]. *)
Lemma makeRoom_inv (a b : option wsref) (swapSides : bool) (w w' : World)
    (room : Room) :
  makeRoom a b swapSides w = Return room w' ->
  hearts_of room = mkHearts HEARTS_START HEARTS_START
  ∧ r_phase room = Countdown
  ∧ r_id room = w_uuid w
  ∧ w_rooms w' = <[w_uuid w := room]> (w_rooms w).
Proof.
  unfold makeRoom, uuidv4, Math_random, startLoops.
  destruct swapSides; [| destruct (_ <? _)%js];
    (destruct a as [a|]; [| destruct b; discriminate]);
    (destruct b as [b|]; [| discriminate]);
    cbv beta iota zeta;
    intros H; apply Return_inj in H as [<- <-];
    (split; [reflexivity |]); (split; [reflexivity |]);
    (split; [reflexivity |]);
    autorewrite with w_rooms;
    rewrite insert_insert_eq; reflexivity.
Qed.

Lemma makeRoom_world_inv (a b : option wsref) (swapSides : bool) (w w' : World)
    (room : Room) :
  makeRoom a b swapSides w = Return room w' ->
  world_inv w -> world_inv w' ∧ room_inv room.
Proof.
  intros H Hw. destruct (makeRoom_inv _ _ _ _ _ _ H) as (Hh & _ & _ & Hr).
  pose proof (fresh_room_inv room Hh) as Hroom.
  split; [| exact Hroom].
  unfold world_inv. rewrite Hr. apply map_Forall_insert_2; assumption.
Qed.

Lemma tryMatch_pairs_inv_aux (n : nat) :
  ∀ q, (length q ≤ n)%nat ->
  ∀ w w', tryMatch_pairs q w = Return tt w' -> world_inv w -> world_inv w'.
Proof.
  induction n as [| n IH]; intros q Hlen w w'.
  - destruct q; [| simpl in Hlen; lia]. simpl.
    intros H Hw. apply Return_inj in H as [_ <-]. exact Hw.
  - destruct q as [| a [| b q']]; simpl.
    + intros H Hw. apply Return_inj in H as [_ <-]. exact Hw.
    + intros H Hw. apply Return_inj in H as [_ <-]. exact Hw.
    + simpl in Hlen. destruct (negb _ || negb _).
      * intros H Hw. eapply (IH q'); [lia | exact H |].
        eapply world_inv_rooms; [| exact Hw]. reflexivity.
      * destruct (makeRoom _ _ _ _) as [room w1 | w1] eqn:Hmk; [| discriminate].
        intros H Hw. eapply (IH q'); [lia | exact H |].
        eapply makeRoom_world_inv; [exact Hmk |].
        eapply world_inv_rooms; [| exact Hw]. reflexivity.
Qed.

Lemma tryMatch_pairs_inv (q : list wsref) (w w' : World) :
  tryMatch_pairs q w = Return tt w' -> world_inv w -> world_inv w'.
Proof. apply (tryMatch_pairs_inv_aux (length q)). lia. Qed.

Lemma tryMatch_inv (w w' : World) :
  tryMatch w = Return tt w' -> world_inv w -> world_inv w'.
Proof.
  unfold tryMatch. intros H Hw. eapply tryMatch_pairs_inv; [exact H |].
  eapply world_inv_rooms; [| exact Hw]. reflexivity.
Qed.

Lemma startRematch_inv (k : uuid) (oldRoom : Room) (w w' : World) :
  startRematch k oldRoom w = Return tt w' ->
  room_inv oldRoom -> world_inv w -> world_inv w'.
Proof.
  unfold startRematch. intros H Hold Hw.
  destruct (makeRoom _ _ _ _) as [newRoom w1 | w1] eqn:Hmk; [| discriminate].
  inversion H; subst; clear H.
  destruct (makeRoom_inv _ _ _ _ _ _ Hmk) as (Hh & _ & _ & _).
  apply makeRoom_world_inv in Hmk as [Hw1 Hnew].
  - apply world_inv_destroy.
    eapply world_inv_rooms;
      [apply quiet_rooms; apply broadcastEvent_quiet |].
    apply world_inv_store; [| exact Hw1].
    apply fresh_room_inv. reflexivity.
  - apply world_inv_store; [| exact Hw].
    eapply same_game_inv; [| exact Hold]. split; reflexivity.
Qed.

Lemma requestRematch_inv (k : uuid) (room : Room) (s : side) (w w' : World) :
  requestRematch k room s w = Return tt w' ->
  room_inv room -> world_inv w -> world_inv w'.
Proof.
  unfold requestRematch. intros H Hroom Hw.
  destruct (bool_decide (r_phase room ≠ Gameover)).
  { apply Return_inj in H as [_ <-]. exact Hw. }
  assert (Hvote : room_inv (set_vote s true room)).
  { eapply same_game_inv; [| exact Hroom]. destruct s; split; reflexivity. }
  match type of H with
  | (if _ then startRematch _ _ ?w1 else _) = _ =>
      assert (Hw1 : world_inv w1)
  end.
  { destruct (p_ws _) as [ows|].
    - destruct (is_open _ _).
      + unfold safeSend. destruct (is_open _ _);
          (eapply world_inv_rooms; [| apply world_inv_store; eassumption]);
          reflexivity.
      + apply world_inv_store; assumption.
    - apply world_inv_store; assumption. }
  destruct (_ && _).
  - eapply startRematch_inv; eassumption.
  - apply Return_inj in H as [_ <-]. exact Hw1.
Qed.

Lemma leaveRoom_inv (ws : wsref) (w w' : World) :
  leaveRoom ws w = Return tt w' -> world_inv w -> world_inv w'.
Proof.
  unfold leaveRoom. intros H Hw.
  destruct (ws_roomId _) as [k|]; [| apply Return_inj in H as [_ <-]; exact Hw].
  destruct (w_rooms w !! k) as [room|] eqn:Hk.
  2:{ apply Return_inj in H as [_ <-].
      eapply world_inv_rooms; [| exact Hw]. reflexivity. }
  pose proof (world_inv_lookup w k room Hw Hk) as Hroom.
  destruct (ws_side _) as [s|]; [| discriminate].
  cbv zeta in H. apply Return_inj in H as [_ <-].
  eapply world_inv_rooms; [apply w_rooms_upd_socket |].
  eapply world_inv_rooms; [apply w_rooms_upd_socket |].
  set (room' := set_player s (set_p_ws None (player s room)) room).
  assert (Hroom' : room_inv room').
  { eapply room_inv_hearts; [| | exact Hroom]; destruct s; reflexivity. }
  match goal with
  | |- context [store_room k room' ?w0] => assert (Hw0 : world_inv w0)
  end.
  { destruct (_ && _); [| exact Hw].
    eapply world_inv_rooms; [apply w_rooms_broadcastEvent | exact Hw]. }
  destruct (p_ws (pl_top (r_players room')));
    [| destruct (p_ws (pl_bottom (r_players room')))];
    try apply world_inv_destroy; apply world_inv_store; assumption.
Qed.


Section RunFacts.

Variable ToNumber_builtin : json -> number.

Local Abbreviation on_message := (on_message ToNumber_builtin).
Local Abbreviation handle := (handle ToNumber_builtin).
Local Abbreviation reachable := (reachable ToNumber_builtin).

Lemma on_message_inv (ws : wsref) (data : frame) (w w' : World) :
  on_message ws data w = Return tt w' -> world_inv w -> world_inv w'.
Proof.
  unfold on_message. intros H Hw.
  destruct data as [| msg]; [inversion H; subst; exact Hw |].
  destruct msg; try (inversion H; subst; exact Hw);
    repeat match type of H with
    | (if ?c then _ else _) = _ => destruct c
    | match ?x with _ => _ end = _ => destruct x eqn:?
    end;
    try (inversion H; subst; exact Hw);
    try (eapply tryMatch_inv; [exact H |];
         eapply world_inv_rooms; [| exact Hw]; rewrite ?safeSend_outbox;
         reflexivity);
    try (inversion H; subst; rewrite ?safeSend_outbox;
         eapply world_inv_rooms; [| exact Hw]; reflexivity);
    try (eapply leaveRoom_inv; eassumption);
    try (eapply requestRematch_inv; try eassumption;
         eapply world_inv_lookup; eassumption);
    try (inversion H; subst; apply world_inv_store; [| exact Hw];
         eapply same_game_inv;
         [| eapply world_inv_lookup; eassumption];
         match goal with |- same_game _ (set_paddle ?s _ _) =>
           destruct s; split; reflexivity end).
Qed.

Lemma on_close_inv (ws : wsref) (w w' : World) :
  on_close ws w = Return tt w' -> world_inv w -> world_inv w'.
Proof.
  unfold on_close. intros H Hw.
  destruct (leaveRoom _ _) as [[] w1 | w1] eqn:Hl; [| discriminate].
  apply Return_inj in H as [_ <-].
  apply (world_inv_rooms w1); [reflexivity |].
  eapply leaveRoom_inv; [exact Hl |].
  eapply world_inv_rooms; [| exact Hw]. reflexivity.
Qed.

Lemma on_interval_inv (h : timer) (w : World) :
  world_inv w -> world_inv (on_interval h w).
Proof.
  intros Hw. unfold on_interval.
  destruct (w_timers w !! h) as [[kind k]|]; [| exact Hw].
  destruct (w_rooms w !! k) as [room|] eqn:Hk; [| exact Hw].
  destruct kind.
  - pose proof (world_inv_lookup w k room Hw Hk) as Hroom.
    destruct (tick_inv room w Hroom) as (Hi & _ & _ & Hq).
    destruct (tick room w) as [room' w1]. simpl in Hi, Hq.
    apply world_inv_store; [exact Hi |].
    eapply world_inv_rooms; [apply quiet_rooms; exact Hq | exact Hw].
  - eapply world_inv_rooms; [| exact Hw].
    unfold broadcastState. simpl.
    repeat match goal with
    | |- context [match ?x with _ => _ end] => destruct x
    end; rewrite ?safeSend_outbox; reflexivity.
Qed.

Lemma handle_inv (e : event) (w w' : World) :
  handle e w = Return tt w' -> world_inv w -> world_inv w'.
Proof.
  destruct e; simpl; intros H Hw.
  - inversion H; subst. unfold on_connection, uuidv4. simpl.
    rewrite safeSend_outbox. eapply world_inv_rooms; [| exact Hw]. reflexivity.
  - eapply on_message_inv; eassumption.
  - eapply on_close_inv; [exact H |].
    eapply world_inv_rooms; [| exact Hw]. reflexivity.
  - eapply on_close_inv; eassumption.
  - inversion H; subst. apply on_interval_inv. exact Hw.
  - inversion H; subst. eapply world_inv_rooms; [| exact Hw]. reflexivity.
  - inversion H; subst. eapply world_inv_rooms; [| exact Hw]. reflexivity.
Qed.

(** Every room of every state the process reaches satisfies [room_inv]. *)
Lemma reachable_inv (w : World) : reachable w -> world_inv w.
Proof.
  induction 1 as [entropy clock | w e w' _ IH _ Hstep].
  - unfold world_inv, initial. simpl. apply map_Forall_empty.
  - eapply handle_inv; eassumption.
Qed.

(** C8.  In every state the process reaches, for every registered room
    and either side: when that room is [playing] both players have a
    heart, so the miss takes the single heart of one of them; the test
    [topHearts <= 0 && bottomHearts <= 0] that guards
    [endGame(room, null, 'tie')] in [onScore] is false on the room as it
    is after the decrement; and the call never leaves both players'
    hearts at 0, whatever the phase. *)
Theorem tie_branch_unreachable (w : World) (k : uuid) (room : Room) (s : side) :
  reachable w ->
  w_rooms w !! k = Some room ->
  let loser := player s room in
  let scored :=
    set_player s (set_p_hearts (Z.max 0 (p_hearts loser - 1)) loser)
      (set_r_phase Between room) in
  let room' := (onScore room s w).1 in
  (r_phase room = Playing ->
   1 ≤ p_hearts (pl_top (r_players room))
   ∧ 1 ≤ p_hearts (pl_bottom (r_players room))
   ∧ (p_hearts (pl_top (r_players scored)) <=? 0)
     && (p_hearts (pl_bottom (r_players scored)) <=? 0) = false)
  ∧ ¬ (p_hearts (pl_top (r_players room')) ≤ 0
       ∧ p_hearts (pl_bottom (r_players room')) ≤ 0).
Proof.
  intros Hreach Hk loser scored room'.
  pose proof (world_inv_lookup w k room (reachable_inv w Hreach) Hk) as Hinv.
  split.
  - intros Hph. destruct Hinv as (Ht & Hb & Hlive & _).
    destruct (Hlive ltac:(rewrite Hph; discriminate)) as [Ht1 Hb1].
    split; [exact Ht1 |]. split; [exact Hb1 |].
    subst scored loser. apply andb_false_iff.
    destruct s; simpl; [right | left]; apply Z.leb_gt; lia.
  - destruct (decide (r_phase room = Playing)) as [Hph | Hph].
    + destruct (onScore_inv room s w Hinv Hph) as ((_ & _ & _ & Hone) & _).
      fold room' in Hone. lia.
    + subst room'. rewrite onScore_not_playing by exact Hph. simpl.
      destruct Hinv as (_ & _ & _ & Hone). lia.
Qed.

End RunFacts.

(** ** Leaving a room *)

Lemma leaveRoom_no_room (ws : wsref) (w : World) :
  ws_roomId (socket_of w ws) = None -> leaveRoom ws w = Return tt w.
Proof. intros H. unfold leaveRoom. rewrite H. reflexivity. Qed.

Lemma leaveRoom_clears (ws : wsref) (w w1 : World) :
  leaveRoom ws w = Return tt w1 ->
  ws_roomId (socket_of w1 ws) = None
  ∧ (∀ k room, ws_roomId (socket_of w ws) = Some k ->
       w_rooms w !! k = Some room -> ws_side (socket_of w1 ws) = None).
Proof.
  unfold leaveRoom. intros H.
  destruct (ws_roomId (socket_of w ws)) as [k|] eqn:Hroom.
  2:{ inversion H; subst. split; [exact Hroom | intros; discriminate]. }
  destruct (w_rooms w !! k) as [room|] eqn:Hk.
  2:{ inversion H; subst. rewrite socket_of_upd_socket_eq.
      split; [reflexivity |]. intros k' room' Heq Hk'. congruence. }
  destruct (ws_side (socket_of w ws)) as [s|]; [| discriminate].
  inversion H; subst; clear H.
  rewrite !socket_of_upd_socket_eq. split; [reflexivity |]. intros. reflexivity.
Qed.

Section LeaveFacts.

Variable ToNumber_builtin : json -> number.

Local Abbreviation on_message := (on_message ToNumber_builtin).

(** C10.  [leaveRoom] returns at once, changing nothing, when the
    session's [roomId] is null; a completed leave nulls the session's
    [roomId], and its [side] too when it left a registered room; so a
    second leave after a completed one changes nothing, and when the
    close (or error) handler runs after a [leaveRoom] message of the same
    session, it sends nothing and leaves rooms and intervals as they
    were: the room-side effects happen at most once. *)
Theorem leave_at_most_once (ws : wsref) (props : list (string * json))
    (w w1 : World) :
  assoc "type" props = Some (JString "leaveRoom") ->
  on_message ws (Parsed (JObject props)) w = Return tt w1 ->
  (∀ w0, ws_roomId (socket_of w0 ws) = None -> leaveRoom ws w0 = Return tt w0)
  ∧ ws_roomId (socket_of w1 ws) = None
  ∧ (∀ k room, ws_roomId (socket_of w ws) = Some k ->
       w_rooms w !! k = Some room -> ws_side (socket_of w1 ws) = None)
  ∧ leaveRoom ws w1 = Return tt w1
  ∧ (∀ st, ∃ w2,
       on_close ws (upd_socket ws (set_ws_readyState st) w1) = Return tt w2
       ∧ on_error ws (upd_socket ws (set_ws_readyState st) w1) = Return tt w2
       ∧ w_rooms w2 = w_rooms w1
       ∧ w_outbox w2 = w_outbox w1
       ∧ w_timers w2 = w_timers w1
       ∧ ws_roomId (socket_of w2 ws) = None).
Proof.
  intros Htype Hmsg.
  assert (Hleave : leaveRoom ws w = Return tt w1).
  { unfold on_message in Hmsg.
    rewrite !(type_is_object props "leaveRoom") in Hmsg by exact Htype.
    rewrite !bool_decide_eq_false_2 in Hmsg by discriminate.
    rewrite bool_decide_eq_true_2 in Hmsg by reflexivity. exact Hmsg. }
  destruct (leaveRoom_clears ws w w1 Hleave) as [Hnull Hside].
  split; [exact (leaveRoom_no_room ws) |].
  split; [exact Hnull |]. split; [exact Hside |].
  split; [apply leaveRoom_no_room; exact Hnull |].
  intros st. unfold on_error, on_close.
  assert (Hst : ws_roomId
                  (socket_of
                     (set_w_waitingQueue
                        (remove_first ws
                           (w_waitingQueue
                              (upd_socket ws (set_ws_readyState st) w1)))
                        (upd_socket ws (set_ws_readyState st) w1)) ws) = None).
  { unfold socket_of. simpl. rewrite lookup_insert_eq. simpl. exact Hnull. }
  rewrite leaveRoom_no_room by exact Hst.
  eexists. split; [reflexivity |]. split; [reflexivity |]. simpl.
  split; [reflexivity |]. split; [reflexivity |]. split; [reflexivity |].
  exact Hst.
Qed.

End LeaveFacts.

Lemma elem_of_recipients (room : Room) (w : World) (s : side) (o : wsref) :
  p_ws (player s room) = Some o -> is_open w o = true -> o ∈ recipients room w.
Proof.
  intros Hp Ho. unfold recipients. apply list_elem_of_filter. split; [exact Ho |].
  apply list_elem_of_omap. exists s. split; [| exact Hp].
  destruct s; [left | right; left].
Qed.

Lemma both_gone_else {A : Type} (top bottom : option wsref) (x y : A) :
  is_Some top ∨ is_Some bottom ->
  match top, bottom with None, None => x | _, _ => y end = y.
Proof.
  intros [[? ->] | [? ->]]; [reflexivity |]. destruct top; reflexivity.
Qed.

(** C3 (the code departs from it).  A session on side [s] of a registered
    room that is not in [gameover], whose opponent is connected, leaves
    (message, close or error all run [leaveRoom]): [gameOver] with the
    opposite side as winner, the reason [disconnect] and the hearts as they
    are is sent to the connected players, the opponent among them; the
    leaver's slot in the room is nulled and its [roomId] and [side] are
    cleared; the room stays registered; but its phase is what it was, not
    [gameover]: [leaveRoom] never assigns [room.phase]. *)
Theorem forfeit_keeps_phase (ws o : wsref) (k : uuid) (s : side) (room : Room)
    (w : World) :
  ws_roomId (socket_of w ws) = Some k ->
  ws_side (socket_of w ws) = Some s ->
  w_rooms w !! k = Some room ->
  r_phase room ≠ Gameover ->
  p_ws (player (opponentSide s) room) = Some o ->
  is_open w o = true ->
  let ev := GameOver (Some (opponentSide s)) ReasonDisconnect (hearts_of room) in
  let room' := set_player s (set_p_ws None (player s room)) room in
  ∃ w', leaveRoom ws w = Return tt w'
        ∧ w_outbox w' = w_outbox w ++ map (fun r => (r, ev)) (recipients room w)
        ∧ (o, ev) ∈ w_outbox w'
        ∧ w_rooms w' = <[k := room']> (w_rooms w)
        ∧ hearts_of room' = hearts_of room
        ∧ r_phase room' = r_phase room
        ∧ r_phase room' ≠ Gameover
        ∧ ws_roomId (socket_of w' ws) = None
        ∧ ws_side (socket_of w' ws) = None.
Proof.
  intros Hroom Hside Hk Hph Hopp Hopen ev room'.
  unfold leaveRoom. rewrite Hroom, Hk, Hside, Hopp, Hopen.
  rewrite (bool_decide_eq_true_2 _ Hph). simpl andb. cbv iota.
  rewrite broadcastEvent_outbox. fold ev. fold room'.
  assert (Hkeep : is_Some (p_ws (pl_top (r_players room')))
                  ∨ is_Some (p_ws (pl_bottom (r_players room')))).
  { subst room'. destruct s; simpl in *; [right | left]; rewrite Hopp; eauto. }
  rewrite (both_gone_else _ _ _ _ Hkeep).
  eexists. split.
  - reflexivity.
  - rewrite !socket_of_upd_socket_eq. simpl.
    split; [reflexivity |]. split.
    { apply elem_of_app. right. apply list_elem_of_fmap. exists o.
      split; [reflexivity |]. eapply elem_of_recipients; eassumption. }
    split; [reflexivity |].
    split; [subst room'; destruct s; reflexivity |].
    split; [subst room'; destruct s; reflexivity |].
    split; [subst room'; destruct s; exact Hph |].
    split; reflexivity.
Qed.

(** X8.  The last player to leave a room: the room goes from the registry and
    its two intervals are cleared. *)
Lemma last_leave_destroys (ws : wsref) (k : uuid) (s : side) (room : Room)
    (w : World) :
  ws_roomId (socket_of w ws) = Some k ->
  ws_side (socket_of w ws) = Some s ->
  w_rooms w !! k = Some room ->
  r_id room = k ->
  p_ws (player (opponentSide s) room) = None ->
  ∃ w', leaveRoom ws w = Return tt w'
        ∧ w_rooms w' = delete k (w_rooms w)
        ∧ (∀ h, loop_tick (r_loops room) = Some h ∨ loop_send (r_loops room) = Some h ->
             w_timers w' !! h = None)
        ∧ w_outbox w' = w_outbox w
        ∧ ws_roomId (socket_of w' ws) = None
        ∧ ws_side (socket_of w' ws) = None.
Proof.
  intros Hroom Hside Hk Hid Hopp.
  unfold leaveRoom. rewrite Hroom, Hk, Hside, Hopp.
  rewrite andb_false_r.
  set (room' := set_player s (set_p_ws None (player s room)) room).
  assert (Hnone : p_ws (pl_top (r_players room')) = None
                  ∧ p_ws (pl_bottom (r_players room')) = None).
  { subst room'. destruct s; simpl in *; rewrite Hopp; split; reflexivity. }
  destruct Hnone as [Ht Hb]. rewrite Ht, Hb.
  assert (Hid' : r_id room' = k) by (subst room'; destruct s; exact Hid).
  rewrite Hid'.
  eexists. split; [reflexivity |].
  rewrite !socket_of_upd_socket_eq. simpl.
  rewrite destroyRoom_rooms.
  rewrite destroyRoom_outbox. simpl.
  split; [apply delete_insert_eq |].
  split; [| repeat split; reflexivity].
  intros h Hh. unfold destroyRoom, store_room. simpl.
  rewrite lookup_insert_eq. unfold stopLoops, clearInterval. simpl.
  assert (Hloops : r_loops room' = r_loops room) by (subst room'; destruct s; reflexivity).
  rewrite Hloops.
  destruct (loop_tick (r_loops room)) as [h1|], (loop_send (r_loops room)) as [h2|];
    simpl; destruct Hh as [Hh | Hh]; inversion Hh; subst;
    rewrite ?lookup_delete_eq; try reflexivity.
  destruct (decide (h = h2)) as [-> | Hne];
    [apply lookup_delete_eq | rewrite lookup_delete_ne by congruence;
                              apply lookup_delete_eq].
Qed.

(** ** Rematch *)

Lemma socket_of_set_w_rooms v w x : socket_of (set_w_rooms v w) x = socket_of w x.
Proof. reflexivity. Qed.
Lemma socket_of_set_w_waitingQueue v w x : socket_of (set_w_waitingQueue v w) x = socket_of w x.
Proof. reflexivity. Qed.
Lemma socket_of_set_w_clients v w x : socket_of (set_w_clients v w) x = socket_of w x.
Proof. reflexivity. Qed.
Lemma socket_of_set_w_timers v w x : socket_of (set_w_timers v w) x = socket_of w x.
Proof. reflexivity. Qed.
Lemma socket_of_set_w_outbox v w x : socket_of (set_w_outbox v w) x = socket_of w x.
Proof. reflexivity. Qed.
Lemma socket_of_set_w_clock v w x : socket_of (set_w_clock v w) x = socket_of w x.
Proof. reflexivity. Qed.
Lemma socket_of_set_w_draws v w x : socket_of (set_w_draws v w) x = socket_of w x.
Proof. reflexivity. Qed.
Lemma socket_of_set_w_uuid v w x : socket_of (set_w_uuid v w) x = socket_of w x.
Proof. reflexivity. Qed.
Lemma socket_of_set_w_next_ws v w x : socket_of (set_w_next_ws v w) x = socket_of w x.
Proof. reflexivity. Qed.
Lemma socket_of_set_w_next_timer v w x : socket_of (set_w_next_timer v w) x = socket_of w x.
Proof. reflexivity. Qed.

#[local] Hint Rewrite
  socket_of_set_w_rooms socket_of_set_w_waitingQueue socket_of_set_w_clients
  socket_of_set_w_timers socket_of_set_w_outbox socket_of_set_w_clock
  socket_of_set_w_draws socket_of_set_w_uuid socket_of_set_w_next_ws
  socket_of_set_w_next_timer
  : socket_of.

Lemma nowMs_upd_socket ws f w : nowMs (upd_socket ws f w) = nowMs w.
Proof. reflexivity. Qed.

Lemma nowMs_store_room k r w : nowMs (store_room k r w) = nowMs w.
Proof. reflexivity. Qed.

Lemma nowMs_broadcastEvent room ev w : nowMs (broadcastEvent room ev w) = nowMs w.
Proof. destruct (broadcastEvent_quiet room ev w) as (o & d & ->). reflexivity. Qed.

#[local] Hint Rewrite nowMs_upd_socket nowMs_store_room nowMs_broadcastEvent : nowMs.

(** [makeRoom(a, b, true)] on two sessions that are there: the room it
    returns and the state it leaves. *)
Lemma makeRoom_swap_spec (a b : wsref) (w : World) :
  a ≠ b ->
  ∃ room w',
    makeRoom (Some a) (Some b) true w = Return room w'
    ∧ r_id room = w_uuid w
    ∧ hearts_of room = mkHearts HEARTS_START HEARTS_START
    ∧ r_phase room = Countdown
    ∧ r_nextPhaseAt room = nowMs w + 3000
    ∧ p_ws (pl_top (r_players room)) = Some a
    ∧ p_ws (pl_bottom (r_players room)) = Some b
    ∧ w_rooms w' = <[w_uuid w := room]> (w_rooms w)
    ∧ nowMs w' = nowMs w
    ∧ socket_of w' a
      = set_ws_roomId (Some (w_uuid w)) (set_ws_side (Some TopSide) (socket_of w a))
    ∧ socket_of w' b
      = set_ws_roomId (Some (w_uuid w))
          (set_ws_side (Some BottomSide) (socket_of w b)).
Proof.
  intros Hab.
  unfold makeRoom, uuidv4, Math_random, startLoops.
  cbv beta iota zeta.
  eexists. eexists. split; [reflexivity |].
  split; [reflexivity |]. split; [reflexivity |]. split; [reflexivity |].
  split.
  { unfold newRoom. cbn [r_nextPhaseAt set_r_loops].
    autorewrite with nowMs. reflexivity. }
  split; [reflexivity |]. split; [reflexivity |].
  split.
  { autorewrite with w_rooms. rewrite insert_insert_eq. reflexivity. }
  split.
  { autorewrite with nowMs. reflexivity. }
  autorewrite with socket_of.
  rewrite !socket_of_upd_socket.
  rewrite !(decide_True (P := a = a)) by reflexivity.
  rewrite !(decide_True (P := b = b)) by reflexivity.
  rewrite !(decide_False (P := a = b)) by exact Hab.
  rewrite !(decide_False (P := b = a)) by congruence.
  autorewrite with socket_of.
  split; reflexivity.
Qed.

(** C2 (the code departs from it).  [startRematch] on a room [R] with
    session [a] on top and session [b] at the bottom, both present: the new
    room [R'] is registered under a fresh id, has hearts [HEARTS_START] for
    both players, the phase [countdown] and [nextPhaseAt = now + 3000], and
    [R] is gone from the registry; but [a] is on top again and [b] at the
    bottom again, in the room and on the sessions: [makeRoom(a, b, true)]
    puts its first argument on top, and [startRematch] passes the old top
    first. *)
Theorem rematch_keeps_sides (k : uuid) (oldRoom : Room) (a b : wsref) (w : World) :
  r_id oldRoom = k ->
  p_ws (pl_top (r_players oldRoom)) = Some a ->
  p_ws (pl_bottom (r_players oldRoom)) = Some b ->
  a ≠ b ->
  w_uuid w ≠ k ->
  ∃ newRoom w',
    startRematch k oldRoom w = Return tt w'
    ∧ w_rooms w' !! k = None
    ∧ w_rooms w' !! w_uuid w = Some newRoom
    ∧ r_id newRoom = w_uuid w
    ∧ hearts_of newRoom = mkHearts HEARTS_START HEARTS_START
    ∧ r_phase newRoom = Countdown
    ∧ r_nextPhaseAt newRoom = nowMs w + 3000
    ∧ p_ws (pl_top (r_players newRoom)) = Some a
    ∧ p_ws (pl_bottom (r_players newRoom)) = Some b
    ∧ ws_side (socket_of w' a) = Some TopSide
    ∧ ws_side (socket_of w' b) = Some BottomSide
    ∧ ws_roomId (socket_of w' a) = Some (w_uuid w)
    ∧ ws_roomId (socket_of w' b) = Some (w_uuid w).
Proof.
  intros Hid Ha Hb Hab Hfresh.
  unfold startRematch. rewrite Ha, Hb.
  set (old' := set_r_rematchVotes (mkVotes false false) oldRoom).
  destruct (makeRoom_swap_spec a b (store_room k old' w) Hab)
    as (room & w1 & -> & Hrid & Hh & Hph & Hnext & Hta & Hbb & Hrooms & Hnow
        & Hsa & Hsb).
  assert (Hold : r_id old' = k) by exact Hid.
  rewrite Hold.
  change (w_uuid (store_room k old' w)) with (w_uuid w) in *.
  set (room' := set_r_nextPhaseAt (nowMs w1 + 3000) _).
  assert (Hrid' : r_id room' = w_uuid w) by exact Hrid.
  rewrite Hrid'.
  exists room'. eexists. split; [reflexivity |].
  split.
  { autorewrite with w_rooms. apply lookup_delete_eq. }
  split.
  { autorewrite with w_rooms. rewrite lookup_delete_ne by congruence.
    apply lookup_insert_eq. }
  split; [exact Hrid' |]. split; [reflexivity |]. split; [reflexivity |].
  split.
  { subst room'. cbn [r_nextPhaseAt set_r_nextPhaseAt]. rewrite Hnow.
    reflexivity. }
  split; [exact Hta |]. split; [exact Hbb |].
  autorewrite with socket_of. rewrite Hsa, Hsb.
  repeat split; reflexivity.
Qed.

(** ** Frames the handler drops or rejects *)

Section FrameFacts.

Variable ToNumber_builtin : json -> number.

Local Abbreviation on_message := (on_message ToNumber_builtin).

Lemma type_is_unique (msg : json) (t t' : string) :
  type_is msg t = true -> t ≠ t' -> type_is msg t' = false.
Proof.
  unfold type_is. destruct (get_prop "type" msg) as [[| | | s | |]|];
    try discriminate.
  intros Ht Hne. apply bool_decide_eq_true_1 in Ht. subst s.
  apply bool_decide_eq_false_2. exact Hne.
Qed.

Lemma type_is_guard (msg : json) (t : string) :
  type_is msg t = true -> ∃ props, msg = JObject props.
Proof.
  unfold type_is, get_prop. destruct msg; try discriminate. eauto.
Qed.

Lemma dropped_frame (ws : wsref) (data : frame) (w : World) :
  ¬ passes_guard data -> on_message ws data w = Return tt w.
Proof.
  destruct data as [| []]; simpl; intros H; try reflexivity; contradiction H;
    exact I.
Qed.

Lemma unknown_type_reply (ws : wsref) (msg : json) (w : World) :
  passes_guard (Parsed msg) -> unknown_type msg ->
  on_message ws (Parsed msg) w
  = Return tt (safeSend (Some ws) (ErrorMsg "Unknown message type") w).
Proof.
  intros Hguard Hunk. unfold on_message.
  rewrite !Hunk by (unfold known_types; set_solver).
  destruct msg; try contradiction; reflexivity.
Qed.

Lemma paddle_out_of_room (ws : wsref) (msg : json) (w : World) :
  type_is msg "paddle" = true -> out_of_room ws w ->
  on_message ws (Parsed msg) w = Return tt w.
Proof.
  intros Ht Hout. destruct (type_is_guard msg _ Ht) as [props ->].
  unfold on_message.
  rewrite (type_is_unique _ _ "joinQueue" Ht) by discriminate.
  rewrite (type_is_unique _ _ "cancelQueue" Ht) by discriminate.
  rewrite Ht.
  destruct Hout as [-> | [Hs | (k & -> & Hk)]]; [reflexivity | |].
  - rewrite Hs. destruct (ws_roomId _); reflexivity.
  - rewrite Hk. destruct (ws_side _); reflexivity.
Qed.

Lemma rematch_out_of_context (ws : wsref) (msg : json) (w : World) :
  type_is msg "rematchRequest" = true ->
  out_of_room ws w ∨ room_not_over ws w ->
  on_message ws (Parsed msg) w = Return tt w.
Proof.
  intros Ht Hout. destruct (type_is_guard msg _ Ht) as [props ->].
  unfold on_message.
  rewrite (type_is_unique _ _ "joinQueue" Ht) by discriminate.
  rewrite (type_is_unique _ _ "cancelQueue" Ht) by discriminate.
  rewrite (type_is_unique _ _ "paddle" Ht) by discriminate.
  rewrite Ht.
  destruct Hout as [[-> | [Hs | (k & -> & Hk)]] | (k & room & -> & Hk & Hph)].
  - reflexivity.
  - rewrite Hs. destruct (ws_roomId _); reflexivity.
  - rewrite Hk. destruct (ws_side _); reflexivity.
  - rewrite Hk. destruct (ws_side _) as [s|]; [| reflexivity].
    unfold requestRematch. rewrite bool_decide_eq_true_2 by exact Hph.
    reflexivity.
Qed.

(** C9, as the code has it.  A frame that does not parse, or that parses
    to null, a boolean, a number or a string, is dropped: nothing changes
    and nothing is sent.  A frame that parses to an object or to an array
    (which has no [type]) and whose [type] is none of the five known ones
    is answered with [{type: "error", message: "Unknown message type"}]
    (delivered when the socket is open), and nothing else changes.  A
    [paddle] message from a session without room or side, and a
    [rematchRequest] from a session without room or side or whose room is
    not in [gameover], change nothing and send nothing. *)
Theorem frame_handling (ws : wsref) (w : World) :
  (∀ data, ¬ passes_guard data -> on_message ws data w = Return tt w)
  ∧ (∀ msg, passes_guard (Parsed msg) -> unknown_type msg ->
       ∃ w', on_message ws (Parsed msg) w = Return tt w'
             ∧ quiet w w'
             ∧ w_outbox w'
               = w_outbox w
                 ++ (if is_open w ws
                     then [(ws, ErrorMsg "Unknown message type")] else []))
  ∧ (∀ msg, type_is msg "paddle" = true -> out_of_room ws w ->
       on_message ws (Parsed msg) w = Return tt w)
  ∧ (∀ msg, type_is msg "rematchRequest" = true ->
       out_of_room ws w ∨ room_not_over ws w ->
       on_message ws (Parsed msg) w = Return tt w).
Proof.
  split; [intros; apply dropped_frame; assumption |].
  split; [| split; [intros; apply paddle_out_of_room; assumption
                   | intros; apply rematch_out_of_context; assumption]].
  intros msg Hguard Hunk. eexists.
  split; [apply unknown_type_reply; assumption |].
  split; [apply safeSend_quiet |].
  rewrite safeSend_outbox. reflexivity.
Qed.

End FrameFacts.

(** * Examples *)

(** ** The run *)

Lemma demo_connects :
  on_connection (on_connection (initial demo_entropy 0)) = demo_connected.
Proof. reflexivity. Qed.

Lemma demo_joins_first :
  on_message no_builtin 0 (join "Ann") demo_connected = Return tt demo_waiting.
Proof. reflexivity. Qed.

Ltac draw_half :=
  repeat match goal with
  | |- context [(Finite (w_entropy ?W ?d) <? _)%js] =>
      change (w_entropy W d) with (1 / 2)%R
  end;
  rewrite ?lt_finite_false by lra;
  cbv beta iota zeta.

Lemma demo_joins_second :
  on_message no_builtin 1 (join "Bob") demo_waiting = Return tt demo_matched.
Proof.
  unfold on_message, join.
  rewrite (type_is_object _ "joinQueue") by reflexivity.
  rewrite !bool_decide_eq_true_2
    by (first [reflexivity | vm_compute; intros H; inversion H; subst;
               match goal with H : _ ∈ [] |- _ => inversion H end]).
  cbv beta iota zeta. simpl andb. cbv iota.
  unfold tryMatch.
  match goal with |- tryMatch_pairs (w_waitingQueue (tryMatch_filter ?W)) _ = _ =>
    set (W0 := W) end.
  assert (Hq : w_waitingQueue (tryMatch_filter W0) = [0%nat; 1%nat]) by reflexivity.
  rewrite Hq. unfold tryMatch_pairs.
  assert (Ho0 : is_open (set_w_waitingQueue [] (tryMatch_filter W0)) 0 = true)
    by reflexivity.
  assert (Ho1 : is_open (set_w_waitingQueue [] (tryMatch_filter W0)) 1 = true)
    by reflexivity.
  rewrite Ho0, Ho1. simpl negb. simpl orb. cbv iota.
  unfold makeRoom, uuidv4, Math_random, startLoops.
  cbv beta iota zeta.
  draw_half. draw_half.
  reflexivity.
Qed.

Lemma demo_first_tick :
  on_interval 0 (set_w_clock 3016 demo_matched) = demo_world.
Proof.
  unfold on_interval.
  change (w_timers (set_w_clock 3016 demo_matched) !! 0%nat)
    with (Some (TickLoop, 2%nat)).
  cbv beta iota.
  change (w_rooms (set_w_clock 3016 demo_matched) !! 2%nat) with (Some demo_room0).
  cbv beta iota.
  rewrite tick_serves;
    [| left; reflexivity | cbv; discriminate | reflexivity].
  rewrite serveBall_spec. cbv beta iota zeta.
  reflexivity.
Qed.

Lemma demo_run :
  run no_builtin demo_events (initial demo_entropy 0) = Return tt demo_world.
Proof.
  unfold demo_events, run, handle.
  rewrite demo_connects, demo_joins_first, demo_joins_second, demo_first_tick.
  reflexivity.
Qed.

Lemma demo_reachable : reachable no_builtin demo_world.
Proof.
  apply (reachable_step no_builtin (set_w_clock 3016 demo_matched) (EvInterval 0));
    [| exact I | simpl; rewrite demo_first_tick; reflexivity].
  apply (reachable_step no_builtin demo_matched (EvClock 3016));
    [| exact I | reflexivity].
  apply (reachable_step no_builtin demo_waiting (EvMessage 1 (join "Bob")));
    [| simpl; lia | exact demo_joins_second].
  apply (reachable_step no_builtin demo_connected (EvMessage 0 (join "Ann")));
    [| simpl; lia | exact demo_joins_first].
  apply (reachable_step no_builtin (on_connection (initial demo_entropy 0))
           EvConnection); [| exact I | simpl; rewrite demo_connects; reflexivity].
  apply (reachable_step no_builtin (initial demo_entropy 0) EvConnection);
    [| exact I | reflexivity].
  apply reachable_initial.
Qed.

Lemma demo_leaves :
  on_message no_builtin 0 (Parsed (JObject [("type", JString "leaveRoom")]))
    demo_world
  = Return tt demo_left.
Proof. reflexivity. Qed.

(** ** Instances of the theorems *)

Lemma serve_vy_not_scaled_witness :
  r_phase (tick demo_room0 (set_w_clock 3016 demo_matched)).1 = Playing
  ∧ b_speed (r_ball (tick demo_room0 (set_w_clock 3016 demo_matched)).1)
    = Finite 780
  ∧ b_vy (r_ball (tick demo_room0 (set_w_clock 3016 demo_matched)).1)
    ≠ (Finite 1 * (INIT_BALL_SPEED * Math_cos (Finite 0)))%js.
Proof.
  destruct (serve_vy_not_scaled demo_room0 (set_w_clock 3016 demo_matched))
    as (Hph & Hsp & _ & Hvy);
    [left; reflexivity | unfold nowMs; simpl; lia | unfold nowMs; simpl; lia
    | reflexivity | reflexivity |].
  exact (conj Hph (conj Hsp Hvy)).
Defined.

Lemma rematch_keeps_sides_witness :
  ∃ newRoom w',
    startRematch 2 demo_room0 demo_matched = Return tt w'
    ∧ w_rooms w' !! 2%nat = None
    ∧ w_rooms w' !! 3%nat = Some newRoom
    ∧ p_ws (pl_top (r_players demo_room0)) = Some 1%nat
    ∧ p_ws (pl_top (r_players newRoom)) = Some 1%nat
    ∧ p_ws (pl_bottom (r_players newRoom)) = Some 0%nat
    ∧ ws_side (socket_of w' 1) = Some TopSide
    ∧ ws_side (socket_of w' 0) = Some BottomSide.
Proof.
  destruct (rematch_keeps_sides 2 demo_room0 1 0 demo_matched)
    as (newRoom & w' & Hrun & Hold & Hnew & _ & _ & _ & _ & Ht & Hb & Hst & Hsb & _);
    [reflexivity | reflexivity | reflexivity | lia | simpl; lia |].
  exists newRoom, w'.
  repeat (split; [first [assumption | reflexivity] |]). assumption.
Defined.

Lemma forfeit_keeps_phase_witness :
  ∃ w', leaveRoom 0 demo_world = Return tt w'
        ∧ (1%nat, GameOver (Some TopSide) ReasonDisconnect (mkHearts 3 3))
            ∈ w_outbox w'
        ∧ w_rooms w' !! 2%nat
          = Some (set_player BottomSide (mkPlayer None 0 "Ann" 3) demo_room)
        ∧ r_phase (set_player BottomSide (mkPlayer None 0 "Ann" 3) demo_room)
          = Playing.
Proof.
  destruct (forfeit_keeps_phase 0 1 2 BottomSide demo_room demo_world)
    as (w' & Hrun & _ & Hin & Hrooms & _ & _ & _ & _);
    [reflexivity | reflexivity | reflexivity | discriminate | reflexivity
    | reflexivity |].
  exists w'. split; [exact Hrun |]. split; [exact Hin |].
  split; [rewrite Hrooms; apply lookup_insert_eq | reflexivity].
Defined.

Lemma paddle_message_clamps_witness :
  ∃ w' room',
    on_message no_builtin 0
      (Parsed (JObject [("type", JString "paddle"); ("x", JNumber PInf)]))
      demo_world
    = Return tt w'
    ∧ w_rooms w' !! 2%nat = Some room'
    ∧ bottomX (r_paddles room') = Finite 1
    ∧ topX (r_paddles room') = Finite 0.5
    ∧ w_outbox w' = demo_outbox.
Proof.
  destruct (paddle_message_clamps no_builtin 0
              [("type", JString "paddle"); ("x", JNumber PInf)] PInf 2
              BottomSide demo_room demo_world)
    as (Hrun & _ & _ & (room' & Hk & (Hmine & Hother) & _) & Hrest);
    [reflexivity | reflexivity | discriminate | reflexivity | reflexivity
    | reflexivity |].
  exists (store_room 2
            (set_paddle BottomSide (clamp PInf (Finite 0) (Finite 1)) demo_room)
            demo_world), room'.
  assert (Hc : clamp PInf (Finite 0) (Finite 1) = Finite 1).
  { unfold clamp, Math_max, Math_min, Rmax.
    destruct (Rle_dec 0 1); [reflexivity | lra]. }
  split; [exact Hrun |]. split; [exact Hk |].
  split; [rewrite <- Hc; exact Hmine |]. split; [exact Hother |].
  destruct Hrest as (_ & _ & _ & _ & _ & Hout & _). exact Hout.
Defined.


Lemma paddleBounce_spec_witness :
  (∃ vy, b_vy (r_ball (paddleBounce demo_bounce_room BottomSide (Finite 450)))
         = Finite vy ∧ (vy < 0)%R)
  ∧ ∃ sp, b_speed (r_ball (paddleBounce demo_bounce_room BottomSide (Finite 450)))
          = Finite sp ∧ (100 <= sp <= 1200)%R.
Proof.
  destruct (paddleBounce_spec demo_bounce_room BottomSide 500 450 (0.28 * 900) 780)
    as (Heq & Hvy & Hsp); [reflexivity | reflexivity | lra | reflexivity |].
  rewrite Heq. split; eexists; (split; [reflexivity | assumption]).
Defined.

Lemma gameover_within_five_misses_witness :
  misses demo_room 1 (onScore demo_room TopSide demo_world).1
  ∧ p_hearts (pl_top (r_players (onScore demo_room TopSide demo_world).1))
    + p_hearts (pl_bottom (r_players (onScore demo_room TopSide demo_world).1))
    = 5.
Proof.
  assert (Hrun : misses demo_room 1 (onScore demo_room TopSide demo_world).1)
    by (apply misses_onScore; [apply misses_start | reflexivity]).
  destruct (gameover_within_five_misses demo_room _ 1 eq_refl Hrun)
    as (_ & _ & Hsum & _).
  exact (conj Hrun Hsum).
Defined.

Lemma tie_branch_unreachable_witness :
  reachable no_builtin demo_world
  ∧ w_rooms demo_world !! 2%nat = Some demo_room
  ∧ ¬ (p_hearts (pl_top (r_players (onScore demo_room TopSide demo_world).1)) ≤ 0
       ∧ p_hearts (pl_bottom (r_players (onScore demo_room TopSide demo_world).1))
         ≤ 0).
Proof.
  split; [exact demo_reachable |]. split; [reflexivity |].
  exact (proj2 (tie_branch_unreachable no_builtin demo_world 2 demo_room TopSide
                  demo_reachable eq_refl)).
Defined.

Lemma leave_at_most_once_witness :
  leaveRoom 0 demo_left = Return tt demo_left
  ∧ ∃ w2, on_close 0 (upd_socket 0 (set_ws_readyState CLOSED) demo_left)
          = Return tt w2
          ∧ w_rooms w2 = w_rooms demo_left
          ∧ w_outbox w2 = w_outbox demo_left
          ∧ w_timers w2 = w_timers demo_left.
Proof.
  destruct (leave_at_most_once no_builtin 0 [("type", JString "leaveRoom")]
              demo_world demo_left eq_refl demo_leaves)
    as (_ & _ & _ & Hagain & Hclose).
  split; [exact Hagain |].
  destruct (Hclose CLOSED) as (w2 & Hc & _ & Hr & Ho & Ht & _).
  exists w2. repeat (split; [assumption |]). assumption.
Defined.

Lemma frame_handling_witness :
  on_message no_builtin 0 Unparseable demo_world = Return tt demo_world
  ∧ on_message no_builtin 0 (Parsed (JString "paddle")) demo_world
    = Return tt demo_world
  ∧ (∃ w', on_message no_builtin 0
             (Parsed (JObject [("type", JString "fly")])) demo_world
           = Return tt w'
           ∧ w_outbox w'
             = w_outbox demo_world ++ [(0%nat, ErrorMsg "Unknown message type")])
  ∧ on_message no_builtin 0 (Parsed (JObject [("type", JString "paddle")]))
      demo_waiting
    = Return tt demo_waiting
  ∧ on_message no_builtin 0
      (Parsed (JObject [("type", JString "rematchRequest")])) demo_world
    = Return tt demo_world.
Proof.
  destruct (frame_handling no_builtin 0 demo_world) as (Hdrop & Hunk & _ & Hre).
  destruct (frame_handling no_builtin 0 demo_waiting) as (_ & _ & Hpad & _).
  split; [apply Hdrop; simpl; tauto |].
  split; [apply Hdrop; simpl; tauto |].
  split.
  { destruct (Hunk (JObject [("type", JString "fly")])) as (w' & Hrun & _ & Hout).
    - exact I.
    - intros t Ht. unfold known_types in Ht.
      repeat (apply elem_of_cons in Ht as [-> | Ht]; [reflexivity |]).
      inversion Ht.
    - exists w'. split; [exact Hrun |]. rewrite Hout. reflexivity. }
  split.
  - apply Hpad; [reflexivity | left; reflexivity].
  - apply Hre; [reflexivity |]. right. exists 2%nat, demo_room.
    split; [reflexivity |]. split; [reflexivity | discriminate].
Defined.

(** C9 as stated fails on a frame that holds a JSON array: it does not
    parse to a JSON object, and it is not dropped, the session gets the
    error reply. *)
Lemma array_frame_not_dropped :
  ¬ is_json_object (Parsed (JArray []))
  ∧ on_message no_builtin 0 (Parsed (JArray [])) demo_world
    = Return tt
        (set_w_outbox
           (w_outbox demo_world ++ [(0%nat, ErrorMsg "Unknown message type")])
           demo_world)
  ∧ on_message no_builtin 0 (Parsed (JArray [])) demo_world
    ≠ Return tt demo_world.
Proof.
  split; [simpl; tauto |].
  assert (Hrun : on_message no_builtin 0 (Parsed (JArray [])) demo_world
                 = Return tt
                     (set_w_outbox
                        (w_outbox demo_world
                         ++ [(0%nat, ErrorMsg "Unknown message type")])
                        demo_world)) by reflexivity.
  split; [exact Hrun |].
  rewrite Hrun. intros H. apply Return_inj in H as [_ H].
  apply (f_equal (fun w => length (w_outbox w))) in H.
  simpl in H. discriminate H.
Qed.

(** * Further properties of the code *)

(** ** Names *)

Lemma trimStart_clean (l : list ascii) :
  (∀ c, head l = Some c -> is_js_space c = false) -> trimStart l = l.
Proof.
  destruct l as [| c l]; [reflexivity |]. intros H. simpl.
  rewrite (H c eq_refl). reflexivity.
Qed.

Lemma trim_clean (l : list ascii) :
  (∀ c, head l = Some c -> is_js_space c = false) ->
  (∀ c, last l = Some c -> is_js_space c = false) ->
  trim l = l.
Proof.
  intros Hh Hl. unfold trim. rewrite (trimStart_clean l Hh).
  rewrite trimStart_clean; [apply rev_involutive |].
  intros c Hc. apply Hl. rewrite <- Hc. rewrite rev_alt.
  symmetry. apply (head_reverse l).
Qed.

Lemma filter_all {A : Type} (P : A -> Prop) `{∀ x, Decision (P x)} (l : list A) :
  Forall P l -> filter P l = l.
Proof.
  induction 1 as [| x l Hx _ IH]; [reflexivity |].
  rewrite filter_cons_True by exact Hx. rewrite IH. reflexivity.
Qed.

Lemma filter_none {A : Type} (P : A -> Prop) `{∀ x, Decision (P x)} (l : list A) :
  (∀ x, x ∈ l -> ¬ P x) -> filter P l = [].
Proof.
  induction l as [| c l IH]; intros Hno; [reflexivity |].
  rewrite filter_cons_False by (apply Hno; left).
  apply IH. intros x Hx. apply Hno. right. exact Hx.
Qed.

Lemma trimStart_blank (l : list ascii) :
  Forall (fun c => is_js_space c = true) l -> trimStart l = [].
Proof.
  induction 1 as [| c l Hc _ IH]; [reflexivity |].
  simpl. rewrite Hc. exact IH.
Qed.

Lemma trimStart_elem (l : list ascii) (c : ascii) :
  c ∈ trimStart l -> c ∈ l.
Proof.
  induction l as [| d l IH]; [trivial |]. simpl.
  destruct (is_js_space d); [| trivial].
  intros H. right. apply IH. exact H.
Qed.

Lemma elem_rev {A : Type} (l : list A) (c : A) : c ∈ rev l -> c ∈ l.
Proof. rewrite rev_alt. intros H. apply elem_of_reverse. exact H. Qed.

Lemma trim_elem (l : list ascii) (c : ascii) : c ∈ trim l -> c ∈ l.
Proof.
  unfold trim. intros H.
  apply elem_rev, trimStart_elem, elem_rev, trimStart_elem in H. exact H.
Qed.

(** X1.  [sanitizeName] always answers a name that is not empty, has at
    most 16 code units and holds no control character, whatever
    [msg.name] is; and it answers ["Player"] when [msg.name] is missing,
    is not a string, or is a string that is empty, blank (white space
    only) or made of control characters only. *)
Theorem sanitizeName_safe (raw : option json) :
  (let name := list_ascii_of_string (sanitizeName raw) in
   name ≠ []
   ∧ (length name ≤ 16)%nat
   ∧ Forall (fun c => is_control c = false) name)
  ∧ ((∀ s, raw ≠ Some (JString s)) -> sanitizeName raw = "Player")
  ∧ (∀ s, raw = Some (JString s) ->
       Forall (fun c => is_js_space c = true) (list_ascii_of_string s)
       ∨ Forall (fun c => is_control c = true) (list_ascii_of_string s) ->
       sanitizeName raw = "Player").
Proof.
  split; [| split].
  - assert (Hdefault : let name := list_ascii_of_string "Player" in
              name ≠ [] ∧ (length name ≤ 16)%nat
              ∧ Forall (fun c => is_control c = false) name).
    { simpl. split; [discriminate |]. split; [lia |].
      repeat constructor. }
    unfold sanitizeName.
    destruct raw as [[| | | s | |]|]; try exact Hdefault.
    destruct (bool_decide (s = "")); [exact Hdefault |].
    set (name := filter _ _).
    assert (Hlen : (length name ≤ 16)%nat).
    { subst name. etransitivity; [apply length_filter |].
      rewrite length_take. lia. }
    assert (Hctl : Forall (fun c => is_control c = false) name).
    { subst name. apply Forall_forall. intros c Hc.
      apply list_elem_of_filter in Hc. tauto. }
    destruct name as [| c name'] eqn:Hname; [exact Hdefault |].
    cbv zeta. rewrite list_ascii_of_string_of_list_ascii.
    split; [discriminate |]. split; assumption.
  - intros Hno. destruct raw as [[| | | s | |]|]; try reflexivity.
    contradiction (Hno s). reflexivity.
  - intros s -> Hs. unfold sanitizeName.
    destruct (bool_decide (s = "")); [reflexivity |].
    assert (Hnone : filter (fun c => is_control c = false)
                      (take 16 (trim (list_ascii_of_string s))) = []).
    { destruct Hs as [Hblank | Hctl].
      - unfold trim. rewrite (trimStart_blank _ Hblank). reflexivity.
      - apply filter_none. intros c Hc.
        assert (Hin : c ∈ list_ascii_of_string s).
        { apply trim_elem. eapply elem_of_sublist; [exact Hc | apply sublist_take]. }
        rewrite Forall_forall in Hctl. rewrite (Hctl c Hin). discriminate. }
    cbv zeta. rewrite Hnone. reflexivity.
Qed.

Lemma sanitizeName_safe_witness :
  sanitizeName (Some (JString "   ")) = "Player"
  ∧ sanitizeName
      (Some (JString (String (ascii_of_nat 7)
                        (String (ascii_of_nat 127) EmptyString))))
    = "Player"
  ∧ sanitizeName (Some (JNumber (Finite 5))) = "Player".
Proof.
  split; [| split].
  - destruct (sanitizeName_safe (Some (JString "   "))) as (_ & _ & H).
    apply (H _ eq_refl). left. repeat constructor.
  - destruct (sanitizeName_safe
                (Some (JString (String (ascii_of_nat 7)
                                  (String (ascii_of_nat 127) EmptyString)))))
      as (_ & _ & H).
    apply (H _ eq_refl). right. repeat constructor.
  - destruct (sanitizeName_safe (Some (JNumber (Finite 5)))) as (_ & H & _).
    apply H. discriminate.
Defined.

(** X2.  A clean name goes through [sanitizeName] unchanged. *)
Theorem sanitizeName_clean (s : string) :
  clean_name s -> sanitizeName (Some (JString s)) = s.
Proof.
  intros (Hne & Hlen & Hctl & Hhead & Hlast). unfold sanitizeName.
  rewrite bool_decide_eq_false_2
    by (intros ->; apply Hne; reflexivity).
  rewrite trim_clean by assumption.
  rewrite take_ge by exact Hlen.
  assert (Hf : filter (fun c => is_control c = false) (list_ascii_of_string s)
               = list_ascii_of_string s).
  { apply filter_all. exact Hctl. }
  rewrite Hf.
  destruct (list_ascii_of_string s) eqn:Hl; [contradiction Hne; reflexivity |].
  rewrite <- Hl. apply string_of_list_ascii_of_string.
Qed.

Lemma sanitizeName_clean_witness :
  clean_name "Ann" ∧ sanitizeName (Some (JString "Ann")) = "Ann"%string.
Proof.
  assert (H : clean_name "Ann").
  { unfold clean_name. simpl. split; [discriminate |]. split; [lia |].
    split; [repeat constructor |].
    split; intros c Hc; inversion Hc; reflexivity. }
  split; [exact H | apply (sanitizeName_clean "Ann" H)].
Defined.

(** ** Clamping *)

(** X3.  [clamp(v, lo, hi)] for finite bounds [lo <= hi]: NaN goes through as
    NaN; every other value, the infinities included, lands in [lo, hi];
    and a value already in [lo, hi] is returned as it is. *)
Theorem clamp_range (v : number) (lo hi : R) :
  (lo <= hi)%R ->
  (v = NaN -> clamp v (Finite lo) (Finite hi) = NaN)
  ∧ (v ≠ NaN ->
     ∃ r, clamp v (Finite lo) (Finite hi) = Finite r ∧ (lo <= r <= hi)%R)
  ∧ (∀ r, v = Finite r -> (lo <= r <= hi)%R ->
          clamp v (Finite lo) (Finite hi) = v).
Proof.
  intros Hle. split; [intros ->; reflexivity |]. split.
  - intros Hv. destruct v as [| | | r]; [congruence | | |].
    + exists hi. split; [| lra]. unfold clamp, Math_min, Math_max.
      f_equal. unfold Rmax. destruct (Rle_dec lo hi); lra.
    + exists lo. split; [reflexivity | lra].
    + exists (Rmax lo (Rmin hi r)). split; [apply clamp_finite |].
      apply Rmax_Rmin_bounds. exact Hle.
  - intros r -> Hr. rewrite clamp_finite. f_equal.
    unfold Rmax, Rmin. repeat destruct (Rle_dec _ _); lra.
Qed.

Lemma clamp_range_witness :
  clamp NaN (Finite 0) (Finite 1) = NaN
  ∧ (∃ r, clamp NInf (Finite 0) (Finite 1) = Finite r ∧ (0 <= r <= 1)%R)
  ∧ clamp (Finite 0.5) (Finite 0) (Finite 1) = Finite 0.5.
Proof.
  destruct (clamp_range NaN 0 1 ltac:(lra)) as (Hnan & _ & _).
  destruct (clamp_range NInf 0 1 ltac:(lra)) as (_ & Hinf & _).
  destruct (clamp_range (Finite 0.5) 0 1 ltac:(lra)) as (_ & _ & Hin).
  split; [apply Hnan; reflexivity |].
  split; [apply Hinf; discriminate | apply (Hin 0.5%R); [reflexivity | lra]].
Defined.

(** ** Bounces *)

Lemma paddleBounce_ball (room : Room) (s : side) (x cx pw speed : R) :
  b_x (r_ball room) = Finite x ->
  par_pw (r_params room) = Finite pw ->
  pw ≠ 0%R ->
  b_speed (r_ball room) = Finite speed ->
  let rel := Rmax (-1) (Rmin 1 ((x - cx) / (pw / 2))) in
  let newSpeed := Rmax 100 (Rmin 1200 (speed * 1.03)) in
  let theta := (rel * 1.05)%R in
  r_ball (paddleBounce room s (Finite cx))
  = mkBall (Finite x) (b_y (r_ball room))
      (Finite (newSpeed * sin theta))
      (Finite (match s with
               | TopSide => Rabs (newSpeed * cos theta)
               | BottomSide => - Rabs (newSpeed * cos theta)
               end))
      (Finite newSpeed).
Proof.
  intros Hx Hpw Hpw0 Hsp rel newSpeed theta.
  unfold paddleBounce. rewrite Hx, Hpw, Hsp.
  unfold SPEED_UP, MAX_BALL_SPEED, MAX_BOUNCE_ANGLE. cbv zeta.
  rewrite (div_finite pw 2) by lra.
  autorewrite with js.
  rewrite div_finite by lra.
  autorewrite with js.
  fold rel. fold newSpeed. fold theta.
  destruct s; autorewrite with js;
    unfold set_b_speed, set_b_vy, set_b_vx; simpl; rewrite Hx; reflexivity.
Qed.

Lemma cos_max_bounce : (0.497 <= cos 1.05)%R.
Proof.
  destruct (pre_cos_bound 1.05 1) as [H _]; [lra | lra |].
  eapply Rle_trans; [| exact H].
  unfold cos_approx, cos_term. simpl sum_f_R0.
  cbn [Factorial.fact Nat.mul Nat.add pow]. simpl INR. lra.
Qed.

Lemma bounce_angle (rel : R) :
  (-1 <= rel <= 1)%R ->
  (0.49 <= cos (rel * 1.05) <= 1)%R ∧ (Rabs (sin (rel * 1.05)) <= 0.88)%R.
Proof.
  intros Hrel.
  assert (Hpi : (2 < PI)%R) by (pose proof PI2_1; lra).
  assert (Hcos : (0.49 <= cos (rel * 1.05))%R).
  { pose proof cos_max_bounce as H105.
    assert (Habs : cos (rel * 1.05) = cos (Rabs (rel * 1.05))).
    { unfold Rabs. destruct (Rcase_abs _); [symmetry; apply cos_neg | reflexivity]. }
    rewrite Habs.
    assert (Hle : (0 <= Rabs (rel * 1.05) <= 1.05)%R).
    { split; [apply Rabs_pos |]. apply Rabs_le. lra. }
    pose proof (cos_decr_1 (Rabs (rel * 1.05)) 1.05) as Hd.
    lra. }
  split; [split; [exact Hcos | apply COS_bound] |].
  pose proof (sin2_cos2 (rel * 1.05)) as Hunit. unfold Rsqr in Hunit.
  apply Rabs_le. nra.
Qed.

(** X4.  After a paddle bounce of a ball whose speed is in
    [100, MAX_BALL_SPEED]: the new speed is the old one times [SPEED_UP]
    capped at [MAX_BALL_SPEED], so it never decreases and never passes the
    cap; and the bounce is steep, as [MAX_BOUNCE_ANGLE] is 1.05 radians
    from the vertical: the ball leaves away from the paddle with at least
    0.49 of the new speed along the court and at most 0.88 of it across,
    wherever it hit the paddle. *)
Theorem paddleBounce_steep (room : Room) (s : side) (x cx pw speed : R) :
  b_x (r_ball room) = Finite x ->
  par_pw (r_params room) = Finite pw ->
  pw ≠ 0%R ->
  b_speed (r_ball room) = Finite speed ->
  (100 <= speed <= 1200)%R ->
  ∃ vx vy sp,
    b_vx (r_ball (paddleBounce room s (Finite cx))) = Finite vx
    ∧ b_vy (r_ball (paddleBounce room s (Finite cx))) = Finite vy
    ∧ b_speed (r_ball (paddleBounce room s (Finite cx))) = Finite sp
    ∧ sp = Rmin 1200 (speed * 1.03)
    ∧ (speed <= sp <= 1200)%R
    ∧ (Rabs vx <= 0.88 * sp)%R
    ∧ match s with
      | TopSide => (0.49 * sp <= vy <= sp)%R
      | BottomSide => (- sp <= vy <= - (0.49 * sp))%R
      end.
Proof.
  intros Hx Hpw Hpw0 Hsp Hrange.
  rewrite (paddleBounce_ball room s x cx pw speed Hx Hpw Hpw0 Hsp). cbv zeta.
  set (rel := Rmax (-1) (Rmin 1 ((x - cx) / (pw / 2)))).
  assert (Hrel : (-1 <= rel <= 1)%R).
  { subst rel. apply Rmax_Rmin_bounds. lra. }
  destruct (bounce_angle rel Hrel) as [Hcos Hsin].
  set (theta := (rel * 1.05)%R) in *.
  assert (Hns : Rmax 100 (Rmin 1200 (speed * 1.03)) = Rmin 1200 (speed * 1.03)).
  { unfold Rmax, Rmin. repeat destruct (Rle_dec _ _); lra. }
  rewrite Hns. set (sp := Rmin 1200 (speed * 1.03)).
  assert (Hsp' : (speed <= sp <= 1200)%R).
  { subst sp. unfold Rmin. destruct (Rle_dec _ _); lra. }
  eexists _, _, sp. simpl.
  split; [reflexivity |]. split; [reflexivity |]. split; [reflexivity |].
  split; [reflexivity |]. split; [exact Hsp' |].
  assert (Hpos : (0 <= sp * cos theta)%R) by nra.
  split.
  - rewrite Rabs_mult, (Rabs_pos_eq sp) by lra. nra.
  - destruct s; rewrite (Rabs_pos_eq _ Hpos); nra.
Qed.

Lemma paddleBounce_steep_witness :
  ∃ vx vy sp,
    b_vx (r_ball (paddleBounce demo_bounce_room BottomSide (Finite 450))) = Finite vx
    ∧ b_vy (r_ball (paddleBounce demo_bounce_room BottomSide (Finite 450)))
      = Finite vy
    ∧ (780 <= sp <= 1200)%R
    ∧ (Rabs vx <= 0.88 * sp)%R
    ∧ (- sp <= vy <= - (0.49 * sp))%R.
Proof.
  destruct (paddleBounce_steep demo_bounce_room BottomSide 500 450 (0.28 * 900) 780)
    as (vx & vy & sp & Hvx & Hvy & _ & _ & Hsp & Hacross & Halong);
    [reflexivity | reflexivity | lra | reflexivity | lra |].
  exists vx, vy, sp. repeat (split; [assumption |]). exact Halong.
Defined.

(** ** Ticks that do nothing *)

(** X5.  A tick changes nothing but [lastTickAt] and sends nothing when the
    room is in [gameover], when the clock has not advanced since the last
    tick, or when the room is paused ([countdown], [between]) and
    [nextPhaseAt] has not come: the ball does not move during a pause and
    a finished game stays finished. *)
Theorem tick_idle (room : Room) (w : World) :
  r_phase room = Gameover
  ∨ nowMs w ≤ r_lastTickAt room
  ∨ (r_phase room ≠ Playing ∧ nowMs w < r_nextPhaseAt room) ->
  tick room w = (set_r_lastTickAt (nowMs w) room, w).
Proof.
  intros Hcase. unfold tick, of_Z. rewrite div_finite by lra.
  destruct (Z_le_gt_dec (nowMs w) (r_lastTickAt room)) as [Hle | Hgt].
  { rewrite le_finite_true; [reflexivity |].
    apply Rmult_le_reg_r with (r := 1000%R); [lra |].
    unfold Rdiv. rewrite Rmult_assoc, Rinv_l by lra.
    rewrite Rmult_1_r, Rmult_0_l. apply IZR_le. lia. }
  rewrite le_finite_false
    by (apply Rdiv_lt_0_compat; [apply IZR_lt; lia | lra]).
  simpl r_phase. simpl r_nextPhaseAt.
  destruct Hcase as [Hgo | [Hle | [Hnp Hearly]]]; [| lia |].
  - rewrite Hgo.
    rewrite (bool_decide_eq_true_2 (Gameover ≠ Playing)) by discriminate.
    rewrite (bool_decide_eq_false_2 (Gameover ≠ Gameover)) by (intros H; apply H; reflexivity).
    rewrite andb_false_r. reflexivity.
  - rewrite (bool_decide_eq_true_2 _ Hnp).
    rewrite (bool_decide_eq_false_2 (r_nextPhaseAt room ≤ nowMs w)) by lia.
    reflexivity.
Qed.

Lemma tick_idle_witness :
  tick demo_room0 demo_matched = (set_r_lastTickAt 0 demo_room0, demo_matched).
Proof.
  apply (tick_idle demo_room0 demo_matched).
  right. left. unfold nowMs. simpl. lia.
Defined.

(** ** The integration step *)

(** How [integrate] ends, with the tests that decide it: a bounce, a miss
    at the top (the ball is wholly above the court), a miss at the bottom
    (wholly below), or nothing. *)
Lemma integrate_exits (room : Room) (dt : number) (w : World) :
  let b := after_walls room dt in
  let rr := set_r_ball b room in
  let r := par_r (r_params room) in
  let H := par_H (r_params room) in
  (∃ s cx, integrate room dt w = (paddleBounce rr s cx, w))
  ∨ ((b_y b + r <? Finite 0)%js = true
     ∧ integrate room dt w = onScore rr TopSide w)
  ∨ ((b_y b + r <? Finite 0)%js = false
     ∧ (b_y b - r >? H)%js = true
     ∧ integrate room dt w = onScore rr BottomSide w)
  ∨ ((b_y b + r <? Finite 0)%js = false
     ∧ (b_y b - r >? H)%js = false
     ∧ integrate room dt w = (rr, w)).
Proof.
  cbv zeta. unfold integrate. fold (after_walls room dt).
  set (b := after_walls room dt). cbn [r_paddles set_r_ball r_params].
  destruct (_ && _ && _ && _); [left; eauto |].
  destruct (_ && _ && _ && _); [left; eauto |].
  right. destruct (_ <? _)%js; [left; split; reflexivity |].
  right. destruct (_ >? _)%js; [left | right]; repeat split; reflexivity.
Qed.

Lemma paddleBounce_keeps (room : Room) (s : side) (cx : number) :
  b_x (r_ball (paddleBounce room s cx)) = b_x (r_ball room)
  ∧ r_players (paddleBounce room s cx) = r_players room
  ∧ r_phase (paddleBounce room s cx) = r_phase room.
Proof. destruct s; repeat split; reflexivity. Qed.

Lemma onScore_ball_x (room : Room) (s : side) (w : World) :
  b_x (r_ball (onScore room s w).1) = b_x (r_ball room)
  ∨ b_x (r_ball (onScore room s w).1) = (par_W (r_params room) / Finite 2)%js.
Proof.
  unfold onScore, endGame.
  repeat match goal with
  | |- context [if ?c then _ else _] => destruct c
  end; simpl; destruct s; simpl; auto.
Qed.

Lemma onScore_other_hearts (room : Room) (s : side) (w : World) :
  p_hearts (player (opponentSide s) (onScore room s w).1)
  = p_hearts (player (opponentSide s) room).
Proof.
  unfold onScore, endGame.
  repeat match goal with
  | |- context [if ?c then _ else _] => destruct c
  end; simpl; destruct s; reflexivity.
Qed.

Lemma ge_finite_true (x y : R) : (y <= x)%R -> (Finite x >=? Finite y)%js = true.
Proof. intros H. unfold JS.ge. apply le_finite_true. exact H. Qed.

Lemma ge_finite_false (x y : R) : (x < y)%R -> (Finite x >=? Finite y)%js = false.
Proof. intros H. unfold JS.ge. apply le_finite_false. exact H. Qed.

Lemma after_walls_x (room : Room) (x vx d r W : R) :
  b_x (r_ball room) = Finite x ->
  b_vx (r_ball room) = Finite vx ->
  par_r (r_params room) = Finite r ->
  par_W (r_params room) = Finite W ->
  (r <= W - r)%R ->
  ∃ x', b_x (after_walls room (Finite d)) = Finite x' ∧ (r <= x' <= W - r)%R.
Proof.
  intros Hx Hvx Hr HW Hfit. unfold after_walls.
  rewrite Hx, Hvx, Hr, HW. cbv zeta.
  cbn [b_x b_vx set_b_x set_b_y]. autorewrite with js.
  destruct (Rle_dec (x + vx * d - r) 0) as [Hl | Hl].
  - rewrite le_finite_true by exact Hl. exists r. split; [reflexivity | lra].
  - rewrite le_finite_false by lra.
    destruct (Rle_dec W (x + vx * d + r)) as [Hh | Hh].
    + rewrite ge_finite_true by exact Hh. exists (W - r)%R.
      split; [reflexivity | lra].
    + rewrite ge_finite_false by lra. exists (x + vx * d)%R.
      split; [reflexivity | lra].
Qed.

(** X6.  After an integration step on finite values, in a court at least as
    wide as the ball, the ball is between the side walls: its centre is in
    [r, W - r], whether the step ended in a bounce, a miss or nothing. *)
Theorem integrate_within_walls (room : Room) (w : World) (x vx d r W : R) :
  b_x (r_ball room) = Finite x ->
  b_vx (r_ball room) = Finite vx ->
  par_r (r_params room) = Finite r ->
  par_W (r_params room) = Finite W ->
  (r <= W - r)%R ->
  ∃ x', b_x (r_ball (integrate room (Finite d) w).1) = Finite x'
        ∧ (r <= x' <= W - r)%R.
Proof.
  intros Hx Hvx Hr HW Hfit.
  destruct (after_walls_x room x vx d r W Hx Hvx Hr HW Hfit) as (x1 & Hx1 & Hin).
  assert (Hscore : ∀ s,
            ∃ x', b_x (r_ball (onScore
                                 (set_r_ball (after_walls room (Finite d)) room)
                                 s w).1) = Finite x'
                  ∧ (r <= x' <= W - r)%R).
  { intros s.
    destruct (onScore_ball_x (set_r_ball (after_walls room (Finite d)) room) s w)
      as [-> | ->].
    - exists x1. split; [exact Hx1 | exact Hin].
    - cbn [r_params set_r_ball]. rewrite HW. rewrite div_finite by lra.
      exists (W / 2)%R. split; [reflexivity | lra]. }
  destruct (integrate_exits room (Finite d) w)
    as [(s & cx & ->) | [(_ & ->) | [(_ & _ & ->) | (_ & _ & ->)]]].
  - cbn [fst]. destruct (paddleBounce_keeps
                           (set_r_ball (after_walls room (Finite d)) room) s cx)
      as (-> & _ & _).
    exists x1. split; [exact Hx1 | exact Hin].
  - apply Hscore.
  - apply Hscore.
  - exists x1. split; [exact Hx1 | exact Hin].
Qed.

Lemma integrate_within_walls_witness :
  ∃ x', b_x (r_ball (integrate demo_bounce_room (Finite 0.05) demo_world).1)
        = Finite x'
        ∧ (0.018 * 900 <= x' <= 900 - 0.018 * 900)%R.
Proof.
  apply (integrate_within_walls demo_bounce_room demo_world 500 0 0.05
           (0.018 * 900) 900); [reflexivity | reflexivity | reflexivity
                               | reflexivity | lra].
Defined.

Lemma after_walls_y (room : Room) (dt : number) :
  b_y (after_walls room dt) = (b_y (r_ball room) + b_vy (r_ball room) * dt)%js.
Proof.
  unfold after_walls. cbv zeta.
  repeat match goal with
  | |- context [if ?c then _ else _] => destruct c
  end; reflexivity.
Qed.

(** X7.  A step of [integrate] on finite values takes a heart only from the
    side whose edge the ball has wholly crossed: from the top only if
    [y + r < 0] after the move, from the bottom only if [y - r > H]; while
    the ball touches the court nobody loses a heart. *)
Theorem miss_only_past_an_edge (room : Room) (w : World) (y vy d r H : R) :
  b_y (r_ball room) = Finite y ->
  b_vy (r_ball room) = Finite vy ->
  par_r (r_params room) = Finite r ->
  par_H (r_params room) = Finite H ->
  let y' := (y + vy * d)%R in
  let room' := (integrate room (Finite d) w).1 in
  (p_hearts (pl_top (r_players room')) ≠ p_hearts (pl_top (r_players room)) ->
   (y' + r < 0)%R)
  ∧ (p_hearts (pl_bottom (r_players room'))
     ≠ p_hearts (pl_bottom (r_players room)) -> (H < y' - r)%R).
Proof.
  intros Hy Hvy Hr HH y' room'. subst room'.
  pose proof (after_walls_y room (Finite d)) as Hy1.
  rewrite Hy, Hvy in Hy1. autorewrite with js in Hy1. fold y' in Hy1.
  destruct (integrate_exits room (Finite d) w)
    as [(s & cx & ->) | [(Htop & ->) | [(_ & Hbot & ->) | (_ & _ & ->)]]];
    cbv zeta in *.
  - cbn [fst]. destruct (paddleBounce_keeps
                           (set_r_ball (after_walls room (Finite d)) room) s cx)
      as (_ & -> & _).
    split; intros Hne; contradiction Hne; reflexivity.
  - rewrite Hy1, Hr in Htop. autorewrite with js in Htop.
    unfold JS.lt in Htop. destruct (Rlt_dec (y' + r) 0) as [Hlt |]; [| discriminate].
    split; [intros _; exact Hlt |].
    intros Hne. contradiction Hne.
    apply (onScore_other_hearts
             (set_r_ball (after_walls room (Finite d)) room) TopSide w).
  - rewrite Hy1, Hr, HH in Hbot. autorewrite with js in Hbot.
    unfold JS.gt, JS.lt in Hbot.
    destruct (Rlt_dec H (y' - r)) as [Hlt |]; [| discriminate].
    split; [| intros _; exact Hlt].
    intros Hne. contradiction Hne.
    apply (onScore_other_hearts
             (set_r_ball (after_walls room (Finite d)) room) BottomSide w).
  - split; intros Hne; contradiction Hne; reflexivity.
Qed.

Lemma miss_only_past_an_edge_witness :
  p_hearts (pl_top (r_players (integrate demo_bounce_room (Finite 0.05) demo_world).1))
  = 3
  ∧ p_hearts
      (pl_bottom (r_players (integrate demo_bounce_room (Finite 0.05) demo_world).1))
    = 3.
Proof.
  destruct (miss_only_past_an_edge demo_bounce_room demo_world 1500 780 0.05
              (0.018 * 900) 1600 eq_refl eq_refl eq_refl eq_refl) as [Ht Hb].
  cbv zeta in Ht, Hb. split.
  - destruct (decide (p_hearts (pl_top (r_players
                (integrate demo_bounce_room (Finite 0.05) demo_world).1)) = 3))
      as [He | Hne]; [exact He |].
    exfalso. apply Ht in Hne. lra.
  - destruct (decide (p_hearts (pl_bottom (r_players
                (integrate demo_bounce_room (Finite 0.05) demo_world).1)) = 3))
      as [He | Hne]; [exact He |].
    exfalso. apply Hb in Hne. lra.
Defined.

Lemma last_leave_destroys_witness :
  ∃ w', leaveRoom 1 demo_left = Return tt w'
        ∧ w_rooms w' = delete 2%nat (w_rooms demo_left)
        ∧ w_timers w' !! 0%nat = None
        ∧ w_timers w' !! 1%nat = None
        ∧ w_outbox w' = w_outbox demo_left.
Proof.
  destruct (last_leave_destroys 1 2 TopSide
              (set_player BottomSide (mkPlayer None 0 "Ann" 3) demo_room)
              demo_left eq_refl eq_refl eq_refl eq_refl eq_refl)
    as (w' & Hrun & Hrooms & Htimers & Hout & _).
  exists w'. split; [exact Hrun |]. split; [exact Hrooms |].
  split; [apply Htimers; left; reflexivity |].
  split; [apply Htimers; right; reflexivity | exact Hout].
Defined.

(** ** Rematch requests *)

Section RematchFacts.

Variable ToNumber_builtin : json -> number.

Local Abbreviation on_message := (on_message ToNumber_builtin).

Lemma rematch_message (ws : wsref) (props : list (string * json)) (k : uuid)
    (s : side) (room : Room) (w : World) :
  assoc "type" props = Some (JString "rematchRequest") ->
  ws_roomId (socket_of w ws) = Some k ->
  ws_side (socket_of w ws) = Some s ->
  w_rooms w !! k = Some room ->
  on_message ws (Parsed (JObject props)) w = requestRematch k room s w.
Proof.
  intros Htype Hroom Hside Hk. unfold on_message.
  rewrite !(type_is_object props "rematchRequest") by exact Htype.
  rewrite !bool_decide_eq_false_2 by discriminate.
  rewrite bool_decide_eq_true_2 by reflexivity.
  rewrite Hroom, Hside, Hk. reflexivity.
Qed.


(** X10.  A rematch request that completes the vote after a player has left
    the room: [startRematch] passes the [null] of the empty slot to
    [makeRoom], whose assignment to [top.side] or [bottom.side] throws; the
    [TypeError] escapes the message handler. *)
Theorem rematch_after_leave_throws (ws : wsref) (props : list (string * json))
    (k : uuid) (s : side) (room : Room) (w : World) :
  assoc "type" props = Some (JString "rematchRequest") ->
  ws_roomId (socket_of w ws) = Some k ->
  ws_side (socket_of w ws) = Some s ->
  w_rooms w !! k = Some room ->
  r_phase room = Gameover ->
  vote (opponentSide s) room = true ->
  p_ws (pl_top (r_players room)) = None
  ∨ p_ws (pl_bottom (r_players room)) = None ->
  ∃ w', on_message ws (Parsed (JObject props)) w = Throw w'.
Proof.
  intros Htype Hroom Hside Hk Hph Hvote Hgone.
  rewrite (rematch_message ws props k s room w Htype Hroom Hside Hk).
  unfold requestRematch.
  rewrite bool_decide_eq_false_2 by (rewrite Hph; intros H; apply H; reflexivity).
  assert (Hboth : vote_top (r_rematchVotes (set_vote s true room))
                  && vote_bottom (r_rematchVotes (set_vote s true room)) = true).
  { destruct s; simpl in *; rewrite Hvote; reflexivity. }
  rewrite Hboth.
  unfold startRematch, makeRoom, uuidv4. cbv beta iota zeta.
  assert (Htop : p_ws (pl_top (r_players (set_vote s true room)))
                 = p_ws (pl_top (r_players room))) by (destruct s; reflexivity).
  assert (Hbot : p_ws (pl_bottom (r_players (set_vote s true room)))
                 = p_ws (pl_bottom (r_players room))) by (destruct s; reflexivity).
  rewrite Htop, Hbot.
  destruct Hgone as [-> | ->].
  - eexists. reflexivity.
  - destruct (p_ws (pl_top (r_players room))); eexists; reflexivity.
Qed.

End RematchFacts.


Lemma rematch_after_leave_throws_witness :
  ∃ w', on_message no_builtin 0
          (Parsed (JObject [("type", JString "rematchRequest")])) demo_over
        = Throw w'.
Proof.
  apply (rematch_after_leave_throws no_builtin 0
           [("type", JString "rematchRequest")] 2 BottomSide demo_over_room
           demo_over eq_refl eq_refl eq_refl eq_refl eq_refl eq_refl).
  left. reflexivity.
Defined.

(** * Well-formed states along a run *)

Lemma room_shape_refl (r : Room) : room_shape r r.
Proof. repeat split. Qed.

Lemma rooms_shape_refl (m : gmap uuid Room) (k : uuid) :
  option_Forall2 room_shape (m !! k) (m !! k).
Proof. destruct (m !! k); constructor. apply room_shape_refl. Qed.

Lemma wf_shape (w w' : World) : same_shape w w' -> wf w -> wf w'.
Proof.
  intros (Hnd & Hq & Ht & Hws & Hid & Hnt & Hs & Hr) (Hqw & Hrw & Hsw & Htw).
  assert (Hroom : ∀ k room', w_rooms w' !! k = Some room' ->
            ∃ room, w_rooms w !! k = Some room ∧ room_shape room room').
  { intros k room' Hk. specialize (Hr k). rewrite Hk in Hr.
    inversion Hr as [room ? Hshape Heq |]; subst. eauto. }
  assert (Hroom' : ∀ k room, w_rooms w !! k = Some room ->
            ∃ room', w_rooms w' !! k = Some room' ∧ room_shape room room').
  { intros k room Hk. specialize (Hr k). rewrite Hk in Hr.
    inversion Hr as [? room' Hshape |]; subst. eauto. }
  assert (Hfree : ∀ ws, ws_roomId (socket_of w ws) = None ->
            ws_roomId (socket_of w' ws) = None).
  { intros ws Hnone. destruct (Hs ws) as [[-> _] | [_ ->]]; [exact Hnone | reflexivity]. }
  assert (Hold : ∀ ws, (ws < w_next_ws w)%nat ->
            ws_roomId (socket_of w' ws) = ws_roomId (socket_of w ws)
            ∧ ws_side (socket_of w' ws) = ws_side (socket_of w ws)).
  { intros ws Hlt. destruct (Hs ws) as [H | [Hge _]]; [exact H | lia]. }
  split; [| split; [| split]].
  - destruct Hqw as [Hnd0 Hin]. split; [apply Hnd; exact Hnd0 |].
    intros ws Hws'. destruct (Hq ws Hws') as [Hws0 | [Hlt Hnone]].
    + destruct (Hin ws Hws0) as [Hlt Hnone]. split; [lia | apply Hfree; exact Hnone].
    + split; [lia | apply Hfree; exact Hnone].
  - intros k room' Hk. destruct (Hroom k room' Hk) as (room & Hk0 & Hid' & Hl & Hp).
    destruct (Hrw k room Hk0) as (Hrid & Hlt & Hsome & Hloops & Hslots).
    split; [congruence |]. split; [lia |]. split.
    { pose proof (Hp TopSide) as Hpt. pose proof (Hp BottomSide) as Hpb.
      simpl in Hpt, Hpb. rewrite Hpt, Hpb. exact Hsome. }
    split.
    { intros kind. rewrite Hl, Ht. apply Hloops. }
    intros s ws Hslot. rewrite Hp in Hslot.
    destruct (Hslots s ws Hslot) as (Hlt' & Hrid' & Hside).
    destruct (Hold ws Hlt') as [-> ->]. split; [lia |]. split; assumption.
  - intros ws k Hk. destruct (Hs ws) as [[Hrid Hside] | [_ Hnone]]; [| congruence].
    rewrite Hrid in Hk. destruct (Hsw ws k Hk) as (room & s & Hk0 & Hs0 & Hslot).
    destruct (Hroom' k room Hk0) as (room' & Hk' & _ & _ & Hp).
    exists room', s. split; [exact Hk' |]. split; [congruence |].
    rewrite Hp. exact Hslot.
  - intros h kind k Hh. rewrite Ht in Hh.
    destruct (Htw h kind k Hh) as (Hlt & room & Hk0 & Hl).
    destruct (Hroom' k room Hk0) as (room' & Hk' & _ & Hl' & _).
    split; [lia |]. exists room'. split; [exact Hk' |]. rewrite Hl'. exact Hl.
Qed.

(** A change of fields the well-formedness does not read. *)
Lemma same_shape_fields (w w' : World) :
  w_waitingQueue w' = w_waitingQueue w ->
  w_timers w' = w_timers w ->
  w_next_ws w' = w_next_ws w ->
  w_uuid w' = w_uuid w ->
  w_next_timer w' = w_next_timer w ->
  (∀ ws, ws_roomId (socket_of w' ws) = ws_roomId (socket_of w ws)
         ∧ ws_side (socket_of w' ws) = ws_side (socket_of w ws)) ->
  (∀ k, option_Forall2 room_shape (w_rooms w !! k) (w_rooms w' !! k)) ->
  same_shape w w'.
Proof.
  intros Hq Ht Hws Hid Hnt Hs Hr. unfold same_shape.
  rewrite Hq, Ht, Hws, Hid, Hnt.
  split; [trivial |]. split; [auto |]. split; [reflexivity |].
  split; [lia |]. split; [lia |]. split; [lia |]. split; [| exact Hr].
  intros ws. left. apply Hs.
Qed.

Lemma same_shape_quiet (w w' : World) : quiet w w' -> same_shape w w'.
Proof.
  intros (o & d & ->). apply same_shape_fields; try reflexivity.
  - intros ws. split; reflexivity.
  - intros k. apply rooms_shape_refl.
Qed.

Lemma wf_quiet (w w' : World) : quiet w w' -> wf w -> wf w'.
Proof. intros H. apply wf_shape, same_shape_quiet, H. Qed.

Lemma same_shape_store (k : uuid) (room room' : Room) (w : World) :
  w_rooms w !! k = Some room -> room_shape room room' ->
  same_shape w (store_room k room' w).
Proof.
  intros Hk Hshape. apply same_shape_fields; try reflexivity.
  - intros ws. split; reflexivity.
  - intros k'. rewrite w_rooms_store_room.
    destruct (decide (k = k')) as [<- | Hne].
    + rewrite lookup_insert_eq, Hk. constructor. exact Hshape.
    + rewrite lookup_insert_ne by exact Hne. apply rooms_shape_refl.
Qed.

Lemma wf_store (k : uuid) (room room' : Room) (w : World) :
  w_rooms w !! k = Some room -> room_shape room room' ->
  wf w -> wf (store_room k room' w).
Proof. intros Hk Hs. apply wf_shape. eapply same_shape_store; eassumption. Qed.

(** Assignments to fields of a session other than [roomId] and [side]. *)
Lemma same_shape_socket (ws : wsref) (f : Socket -> Socket) (w : World) :
  (∀ s, ws_roomId (f s) = ws_roomId s ∧ ws_side (f s) = ws_side s) ->
  same_shape w (upd_socket ws f w).
Proof.
  intros Hf. apply same_shape_fields; try reflexivity.
  - intros x. rewrite socket_of_upd_socket.
    destruct (decide (ws = x)) as [<- | _]; [apply Hf | split; reflexivity].
  - intros k. apply rooms_shape_refl.
Qed.

Lemma remove_first_sublist (ws : wsref) (q : list wsref) :
  sublist (remove_first ws q) q.
Proof.
  induction q as [| c q IH]; simpl; [constructor |].
  destruct (bool_decide (c = ws)).
  - apply sublist_cons. reflexivity.
  - apply sublist_skip. exact IH.
Qed.

(** The queue loses sessions. *)
Lemma same_shape_queue (q : list wsref) (w : World) :
  sublist q (w_waitingQueue w) -> same_shape w (set_w_waitingQueue q w).
Proof.
  intros Hsub. unfold same_shape.
  split; [intros Hnd; eapply sublist_NoDup; eassumption |].
  split.
  { intros ws Hws. left. eapply elem_of_sublist; [exact Hws | exact Hsub]. }
  split; [reflexivity |]. split; [reflexivity |]. split; [reflexivity |].
  split; [reflexivity |]. split.
  - intros ws. left. split; reflexivity.
  - intros k. apply rooms_shape_refl.
Qed.

(** A session that exists and has no room joins the queue. *)
Lemma same_shape_push (ws : wsref) (w : World) :
  ws ∉ w_waitingQueue w -> (ws < w_next_ws w)%nat ->
  ws_roomId (socket_of w ws) = None ->
  same_shape w (set_w_waitingQueue (w_waitingQueue w ++ [ws]) w).
Proof.
  intros Hnew Hlt Hnone. unfold same_shape.
  rewrite w_waitingQueue_set_w_waitingQueue.
  split.
  { intros Hnd. apply NoDup_app. split; [exact Hnd |]. split.
    - intros x Hx Hx'. apply list_elem_of_singleton in Hx'. subst x. contradiction.
    - apply NoDup_singleton. }
  split.
  { intros x Hx. apply elem_of_app in Hx as [Hx | Hx]; [left; exact Hx |].
    apply list_elem_of_singleton in Hx. subst x. right. split; assumption. }
  split; [reflexivity |]. split; [reflexivity |]. split; [reflexivity |].
  split; [reflexivity |]. split.
  - intros x. left. split; reflexivity.
  - intros k. apply rooms_shape_refl.
Qed.

(** ** The steps that make, empty and destroy rooms *)

Lemma wf_fresh_room (w : World) : wf w -> w_rooms w !! w_uuid w = None.
Proof.
  intros (_ & Hr & _ & _). destruct (w_rooms w !! w_uuid w) as [room|] eqn:Hk;
    [| reflexivity].
  destruct (Hr _ _ Hk) as (_ & Hlt & _). lia.
Qed.

Lemma wf_timer_bound (w : World) (h : timer) (x : loop_kind * uuid) :
  wf w -> w_timers w !! h = Some x -> (h < w_next_timer w)%nat.
Proof.
  intros (_ & _ & _ & Ht) Hh. destruct x as [kind k].
  destruct (Ht h kind k Hh) as [Hlt _]. exact Hlt.
Qed.

Lemma wf_room_bound (w : World) (k : uuid) (room : Room) :
  wf w -> w_rooms w !! k = Some room -> (k < w_uuid w)%nat.
Proof. intros (_ & Hr & _ & _) Hk. destruct (Hr k room Hk) as (_ & Hlt & _). exact Hlt. Qed.

(** A room is made for two sessions that exist, have no room and do not
    wait. *)
Lemma wf_new_room (w w' : World) (room : Room) (top bottom : wsref) :
  wf w ->
  top ≠ bottom ->
  (top < w_next_ws w)%nat -> (bottom < w_next_ws w)%nat ->
  ws_roomId (socket_of w top) = None ->
  ws_roomId (socket_of w bottom) = None ->
  top ∉ w_waitingQueue w -> bottom ∉ w_waitingQueue w ->
  r_id room = w_uuid w ->
  r_loops room = mkLoops (Some (w_next_timer w)) (Some (S (w_next_timer w))) ->
  p_ws (pl_top (r_players room)) = Some top ->
  p_ws (pl_bottom (r_players room)) = Some bottom ->
  w_rooms w' = <[w_uuid w := room]> (w_rooms w) ->
  w_timers w'
  = <[S (w_next_timer w) := (SendLoop, w_uuid w)]>
      (<[w_next_timer w := (TickLoop, w_uuid w)]> (w_timers w)) ->
  w_waitingQueue w' = w_waitingQueue w ->
  w_next_ws w' = w_next_ws w ->
  w_uuid w' = S (w_uuid w) ->
  w_next_timer w' = S (S (w_next_timer w)) ->
  ws_roomId (socket_of w' top) = Some (w_uuid w) ->
  ws_side (socket_of w' top) = Some TopSide ->
  ws_roomId (socket_of w' bottom) = Some (w_uuid w) ->
  ws_side (socket_of w' bottom) = Some BottomSide ->
  (∀ ws, ws ≠ top -> ws ≠ bottom -> socket_of w' ws = socket_of w ws) ->
  wf w'.
Proof.
  intros Hwf Hne Htlt Hblt Htfree Hbfree Htq Hbq Hid Hloops Hpt Hpb
    Hrooms Htimers Hqueue Hnws Huuid Hnt Htr Hts Hbr Hbs Hother.
  pose proof (wf_fresh_room w Hwf) as Hfresh.
  assert (Hk_ne : ∀ k r, w_rooms w !! k = Some r -> k ≠ w_uuid w).
  { intros k r Hk. pose proof (wf_room_bound w k r Hwf Hk). lia. }
  assert (Hh_ne : ∀ h x, w_timers w !! h = Some x ->
            h ≠ w_next_timer w ∧ h ≠ S (w_next_timer w)).
  { intros h x Hh. pose proof (wf_timer_bound w h x Hwf Hh). lia. }
  destruct Hwf as ((Hnd & Hq) & Hr & Hs & Ht).
  assert (Hocc : ∀ ws k, ws_roomId (socket_of w ws) = Some k ->
            ws ≠ top ∧ ws ≠ bottom).
  { intros ws k Hk. split; intros ->; congruence. }
  split; [| split; [| split]].
  - unfold queue_wf. rewrite Hqueue, Hnws. split; [exact Hnd |].
    intros ws Hws. destruct (Hq ws Hws) as [Hlt Hnone]. split; [exact Hlt |].
    rewrite Hother; [exact Hnone | |]; intros ->; contradiction.
  - intros k r Hk. rewrite Hrooms in Hk. unfold room_wf.
    rewrite Huuid, Hnws, Htimers.
    destruct (decide (w_uuid w = k)) as [<- | Hkne].
    + rewrite lookup_insert_eq in Hk. inversion Hk; subst r; clear Hk.
      split; [exact Hid |]. split; [lia |].
      split; [left; rewrite Hpt; eauto |].
      split.
      { intros [|]; rewrite Hloops; simpl.
        - exists (w_next_timer w). split; [reflexivity |].
          rewrite lookup_insert_ne by lia. apply lookup_insert_eq.
        - exists (S (w_next_timer w)). split; [reflexivity |].
          apply lookup_insert_eq. }
      intros [|] ws Hslot; simpl in Hslot.
      * rewrite Hpt in Hslot. inversion Hslot; subst ws.
        split; [exact Htlt |]. split; assumption.
      * rewrite Hpb in Hslot. inversion Hslot; subst ws.
        split; [exact Hblt |]. split; assumption.
    + rewrite lookup_insert_ne in Hk by exact Hkne.
      destruct (Hr k r Hk) as (Hrid & Hlt & Hsome & Hl & Hslots).
      split; [exact Hrid |]. split; [lia |]. split; [exact Hsome |].
      split.
      { intros kind. destruct (Hl kind) as (h & Hh & Hth). exists h.
        split; [exact Hh |]. destruct (Hh_ne h _ Hth) as [Hn1 Hn2].
        rewrite !lookup_insert_ne by congruence. exact Hth. }
      intros s ws Hslot. destruct (Hslots s ws Hslot) as (Hlt' & Hrid' & Hside).
      destruct (Hocc ws k Hrid') as [Hn1 Hn2].
      rewrite Hother by assumption. split; [exact Hlt' |]. split; assumption.
  - intros ws k Hk. rewrite Hrooms.
    destruct (decide (ws = top)) as [-> | Hn1].
    { rewrite Htr in Hk. inversion Hk; subst k. exists room, TopSide.
      split; [apply lookup_insert_eq |]. split; [exact Hts | exact Hpt]. }
    destruct (decide (ws = bottom)) as [-> | Hn2].
    { rewrite Hbr in Hk. inversion Hk; subst k. exists room, BottomSide.
      split; [apply lookup_insert_eq |]. split; [exact Hbs | exact Hpb]. }
    rewrite Hother in Hk |- * by assumption.
    destruct (Hs ws k Hk) as (r & s & Hkr & Hside & Hslot).
    exists r, s. split; [| split; assumption].
    rewrite lookup_insert_ne by (apply not_eq_sym; eapply Hk_ne; exact Hkr).
    exact Hkr.
  - intros h kind k Hh. rewrite Htimers in Hh. rewrite Hnt, Hrooms.
    destruct (decide (S (w_next_timer w) = h)) as [<- | Hn2].
    { rewrite lookup_insert_eq in Hh. inversion Hh; subst kind k.
      split; [lia |]. exists room. split; [apply lookup_insert_eq |].
      rewrite Hloops. reflexivity. }
    rewrite lookup_insert_ne in Hh by exact Hn2.
    destruct (decide (w_next_timer w = h)) as [<- | Hn1].
    { rewrite lookup_insert_eq in Hh. inversion Hh; subst kind k.
      split; [lia |]. exists room. split; [apply lookup_insert_eq |].
      rewrite Hloops. reflexivity. }
    rewrite lookup_insert_ne in Hh by exact Hn1.
    destruct (Ht h kind k Hh) as (Hlt & r & Hkr & Hl).
    split; [lia |]. exists r. split; [| exact Hl].
    rewrite lookup_insert_ne by (apply not_eq_sym; eapply Hk_ne; exact Hkr).
    exact Hkr.
Qed.

Lemma player_cases (s s' : side) : s' = s ∨ s' = opponentSide s.
Proof. destruct s, s'; auto. Qed.

(** The session in a slot is the one the invariant names. *)
Lemma wf_slot (w : World) (ws : wsref) (k : uuid) (s : side) (room : Room) :
  wf w -> ws_roomId (socket_of w ws) = Some k ->
  ws_side (socket_of w ws) = Some s -> w_rooms w !! k = Some room ->
  p_ws (player s room) = Some ws.
Proof.
  intros (_ & _ & Hs & _) Hroom Hside Hk.
  destruct (Hs ws k Hroom) as (r & s' & Hk' & Hside' & Hslot). congruence.
Qed.

(** A session leaves a room in which the opponent stays. *)
Lemma wf_detach (w w' : World) (ws : wsref) (k : uuid) (s : side)
    (room room' : Room) :
  wf w ->
  ws_roomId (socket_of w ws) = Some k ->
  ws_side (socket_of w ws) = Some s ->
  w_rooms w !! k = Some room ->
  is_Some (p_ws (player (opponentSide s) room)) ->
  r_id room' = r_id room ->
  r_loops room' = r_loops room ->
  p_ws (player s room') = None ->
  p_ws (player (opponentSide s) room') = p_ws (player (opponentSide s) room) ->
  w_rooms w' = <[k := room']> (w_rooms w) ->
  w_timers w' = w_timers w ->
  w_waitingQueue w' = w_waitingQueue w ->
  w_next_ws w' = w_next_ws w ->
  w_uuid w' = w_uuid w ->
  w_next_timer w' = w_next_timer w ->
  ws_roomId (socket_of w' ws) = None ->
  (∀ x, x ≠ ws -> socket_of w' x = socket_of w x) ->
  wf w'.
Proof.
  intros Hwf Hroom Hside Hk Hopp Hid Hloops Hgone Hstay Hrooms Htimers Hqueue
    Hnws Huuid Hnt Hnone Hother.
  pose proof (wf_slot w ws k s room Hwf Hroom Hside Hk) as Hmine.
  destruct Hwf as ((Hnd & Hq) & Hr & Hs & Ht).
  split; [| split; [| split]].
  - unfold queue_wf. rewrite Hqueue, Hnws. split; [exact Hnd |].
    intros x Hx. destruct (Hq x Hx) as [Hlt Hfree]. split; [exact Hlt |].
    rewrite Hother; [exact Hfree |]. intros ->. congruence.
  - intros k' r Hk'. rewrite Hrooms in Hk'. unfold room_wf.
    rewrite Huuid, Hnws, Htimers.
    destruct (decide (k = k')) as [<- | Hkne].
    + rewrite lookup_insert_eq in Hk'. inversion Hk'; subst r; clear Hk'.
      destruct (Hr k room Hk) as (Hrid & Hlt & _ & Hl & Hslots).
      split; [congruence |]. split; [exact Hlt |].
      split.
      { destruct s; simpl in *; [right | left]; rewrite Hstay; exact Hopp. }
      split; [rewrite Hloops; exact Hl |].
      intros s' x Hslot. destruct (player_cases s s') as [-> | ->].
      * congruence.
      * rewrite Hstay in Hslot.
        destruct (Hslots _ x Hslot) as (Hlt' & Hrid' & Hside').
        assert (x ≠ ws).
        { intros ->. rewrite Hside in Hside'. inversion Hside' as [Heq].
          destruct s; discriminate. }
        rewrite Hother by assumption. split; [exact Hlt' |]. split; assumption.
    + rewrite lookup_insert_ne in Hk' by exact Hkne.
      destruct (Hr k' r Hk') as (Hrid & Hlt & Hsome & Hl & Hslots).
      split; [exact Hrid |]. split; [exact Hlt |]. split; [exact Hsome |].
      split; [exact Hl |].
      intros s' x Hslot. destruct (Hslots s' x Hslot) as (Hlt' & Hrid' & Hside').
      assert (x ≠ ws) by (intros ->; congruence).
      rewrite Hother by assumption. split; [exact Hlt' |]. split; assumption.
  - intros x k' Hx. rewrite Hrooms.
    assert (Hxne : x ≠ ws) by (intros ->; congruence).
    rewrite Hother in Hx |- * by exact Hxne.
    destruct (Hs x k' Hx) as (r & s' & Hkr & Hside' & Hslot).
    destruct (decide (k = k')) as [<- | Hkne].
    + rewrite lookup_insert_eq. rewrite Hk in Hkr. inversion Hkr; subst r.
      exists room', s'. split; [reflexivity |]. split; [exact Hside' |].
      destruct (player_cases s s') as [-> | ->]; [congruence |].
      rewrite Hstay. exact Hslot.
    + rewrite lookup_insert_ne by exact Hkne. eauto.
  - intros h kind k' Hh. rewrite Htimers in Hh. rewrite Hnt, Hrooms.
    destruct (Ht h kind k' Hh) as (Hlt & r & Hkr & Hl).
    split; [exact Hlt |].
    destruct (decide (k = k')) as [<- | Hkne].
    + rewrite lookup_insert_eq. rewrite Hk in Hkr. inversion Hkr; subst r.
      exists room'. split; [reflexivity |]. rewrite Hloops. exact Hl.
    + rewrite lookup_insert_ne by exact Hkne. eauto.
Qed.

(** The last session leaves a room, which goes with its intervals. *)
Lemma wf_destroy (w w' : World) (ws : wsref) (k : uuid) (s : side)
    (room : Room) (h1 h2 : timer) :
  wf w ->
  ws_roomId (socket_of w ws) = Some k ->
  ws_side (socket_of w ws) = Some s ->
  w_rooms w !! k = Some room ->
  p_ws (player (opponentSide s) room) = None ->
  r_loops room = mkLoops (Some h1) (Some h2) ->
  w_rooms w' = delete k (w_rooms w) ->
  w_timers w' = delete h2 (delete h1 (w_timers w)) ->
  w_waitingQueue w' = w_waitingQueue w ->
  w_next_ws w' = w_next_ws w ->
  w_uuid w' = w_uuid w ->
  w_next_timer w' = w_next_timer w ->
  ws_roomId (socket_of w' ws) = None ->
  (∀ x, x ≠ ws -> socket_of w' x = socket_of w x) ->
  wf w'.
Proof.
  intros Hwf Hroom Hside Hk Hopp Hloops Hrooms Htimers Hqueue Hnws Huuid Hnt
    Hnone Hother.
  pose proof (wf_slot w ws k s room Hwf Hroom Hside Hk) as Hmine.
  destruct Hwf as ((Hnd & Hq) & Hr & Hs & Ht).
  assert (Hk_of : ∀ h kind k', w_timers w !! h = Some (kind, k') ->
            (h = h1 ∨ h = h2) -> k' = k).
  { intros h kind k' Hh Hcase.
    destruct (Hr k room Hk) as (_ & _ & _ & Hl & _).
    destruct (Hl TickLoop) as (x1 & Hx1 & Ht1).
    destruct (Hl SendLoop) as (x2 & Hx2 & Ht2).
    rewrite Hloops in Hx1, Hx2. simpl in Hx1, Hx2.
    inversion Hx1; inversion Hx2; subst x1 x2.
    destruct Hcase as [-> | ->]; congruence. }
  assert (Hother_room : ∀ x k', ws_roomId (socket_of w x) = Some k' ->
            x ≠ ws -> k' ≠ k).
  { intros x k' Hx Hxne ->.
    destruct (Hs x k Hx) as (r & s' & Hkr & Hside' & Hslot).
    rewrite Hk in Hkr. inversion Hkr; subst r.
    destruct (player_cases s s') as [-> | ->]; congruence. }
  split; [| split; [| split]].
  - unfold queue_wf. rewrite Hqueue, Hnws. split; [exact Hnd |].
    intros x Hx. destruct (Hq x Hx) as [Hlt Hfree]. split; [exact Hlt |].
    rewrite Hother; [exact Hfree |]. intros ->. congruence.
  - intros k' r Hk'. rewrite Hrooms in Hk'. unfold room_wf.
    rewrite Huuid, Hnws, Htimers.
    apply lookup_delete_Some in Hk' as [Hkne Hk'].
    destruct (Hr k' r Hk') as (Hrid & Hlt & Hsome & Hl & Hslots).
    split; [exact Hrid |]. split; [exact Hlt |]. split; [exact Hsome |].
    split.
    { intros kind. destruct (Hl kind) as (h & Hh & Hth). exists h.
      split; [exact Hh |].
      rewrite !lookup_delete_ne; [exact Hth | |];
        intros <-; apply Hkne; symmetry; eapply Hk_of; eauto. }
    intros s' x Hslot. destruct (Hslots s' x Hslot) as (Hlt' & Hrid' & Hside').
    assert (x ≠ ws) by (intros ->; congruence).
    rewrite Hother by assumption. split; [exact Hlt' |]. split; assumption.
  - intros x k' Hx. rewrite Hrooms.
    assert (Hxne : x ≠ ws) by (intros ->; congruence).
    rewrite Hother in Hx |- * by exact Hxne.
    destruct (Hs x k' Hx) as (r & s' & Hkr & Hside' & Hslot).
    exists r, s'. split; [| split; assumption].
    rewrite lookup_delete_ne; [exact Hkr |].
    apply not_eq_sym. eapply Hother_room; eassumption.
  - intros h kind k' Hh. rewrite Htimers in Hh. rewrite Hnt, Hrooms.
    apply lookup_delete_Some in Hh as [Hn2 Hh].
    apply lookup_delete_Some in Hh as [Hn1 Hh].
    destruct (Ht h kind k' Hh) as (Hlt & r & Hkr & Hl).
    split; [exact Hlt |]. exists r. split; [| exact Hl].
    rewrite lookup_delete_ne; [exact Hkr |].
    intros <-. rewrite Hk in Hkr. inversion Hkr; subst r.
    rewrite Hloops in Hl. destruct kind; simpl in Hl; congruence.
Qed.

(** ** What the operations do to the queue, the intervals and the counters *)

Lemma quiet_fields (w w' : World) :
  quiet w w' ->
  w_waitingQueue w' = w_waitingQueue w
  ∧ w_timers w' = w_timers w
  ∧ w_next_ws w' = w_next_ws w
  ∧ w_uuid w' = w_uuid w
  ∧ w_next_timer w' = w_next_timer w.
Proof. intros (o & d & ->). repeat split; reflexivity. Qed.

Lemma w_waitingQueue_upd_socket ws g w : w_waitingQueue (upd_socket ws g w) = w_waitingQueue w.
Proof. reflexivity. Qed.
Lemma w_waitingQueue_store_room k r w : w_waitingQueue (store_room k r w) = w_waitingQueue w.
Proof. reflexivity. Qed.
Lemma w_waitingQueue_safeSend ws msg w : w_waitingQueue (safeSend ws msg w) = w_waitingQueue w.
Proof. apply (quiet_fields w _ (safeSend_quiet ws msg w)). Qed.
Lemma w_waitingQueue_broadcastEvent room ev w : w_waitingQueue (broadcastEvent room ev w) = w_waitingQueue w.
Proof. apply (quiet_fields w _ (broadcastEvent_quiet room ev w)). Qed.

Lemma w_waitingQueue_destroyRoom k w : w_waitingQueue (destroyRoom k w) = w_waitingQueue w.
Proof.
  unfold destroyRoom. destruct (w_rooms w !! k) as [room|]; [| reflexivity].
  unfold stopLoops, clearInterval.
  destruct (loop_tick (r_loops room)), (loop_send (r_loops room)); reflexivity.
Qed.

#[local] Hint Rewrite w_waitingQueue_upd_socket w_waitingQueue_store_room w_waitingQueue_safeSend
  w_waitingQueue_broadcastEvent w_waitingQueue_destroyRoom : w_waitingQueue.

Lemma w_timers_upd_socket ws g w : w_timers (upd_socket ws g w) = w_timers w.
Proof. reflexivity. Qed.
Lemma w_timers_store_room k r w : w_timers (store_room k r w) = w_timers w.
Proof. reflexivity. Qed.
Lemma w_timers_safeSend ws msg w : w_timers (safeSend ws msg w) = w_timers w.
Proof. apply (quiet_fields w _ (safeSend_quiet ws msg w)). Qed.
Lemma w_timers_broadcastEvent room ev w : w_timers (broadcastEvent room ev w) = w_timers w.
Proof. apply (quiet_fields w _ (broadcastEvent_quiet room ev w)). Qed.

#[local] Hint Rewrite w_timers_upd_socket w_timers_store_room w_timers_safeSend
  w_timers_broadcastEvent : w_timers.

Lemma w_next_ws_upd_socket ws g w : w_next_ws (upd_socket ws g w) = w_next_ws w.
Proof. reflexivity. Qed.
Lemma w_next_ws_store_room k r w : w_next_ws (store_room k r w) = w_next_ws w.
Proof. reflexivity. Qed.
Lemma w_next_ws_safeSend ws msg w : w_next_ws (safeSend ws msg w) = w_next_ws w.
Proof. apply (quiet_fields w _ (safeSend_quiet ws msg w)). Qed.
Lemma w_next_ws_broadcastEvent room ev w : w_next_ws (broadcastEvent room ev w) = w_next_ws w.
Proof. apply (quiet_fields w _ (broadcastEvent_quiet room ev w)). Qed.

Lemma w_next_ws_destroyRoom k w : w_next_ws (destroyRoom k w) = w_next_ws w.
Proof.
  unfold destroyRoom. destruct (w_rooms w !! k) as [room|]; [| reflexivity].
  unfold stopLoops, clearInterval.
  destruct (loop_tick (r_loops room)), (loop_send (r_loops room)); reflexivity.
Qed.

#[local] Hint Rewrite w_next_ws_upd_socket w_next_ws_store_room w_next_ws_safeSend
  w_next_ws_broadcastEvent w_next_ws_destroyRoom : w_next_ws.

Lemma w_uuid_upd_socket ws g w : w_uuid (upd_socket ws g w) = w_uuid w.
Proof. reflexivity. Qed.
Lemma w_uuid_store_room k r w : w_uuid (store_room k r w) = w_uuid w.
Proof. reflexivity. Qed.
Lemma w_uuid_safeSend ws msg w : w_uuid (safeSend ws msg w) = w_uuid w.
Proof. apply (quiet_fields w _ (safeSend_quiet ws msg w)). Qed.
Lemma w_uuid_broadcastEvent room ev w : w_uuid (broadcastEvent room ev w) = w_uuid w.
Proof. apply (quiet_fields w _ (broadcastEvent_quiet room ev w)). Qed.

Lemma w_uuid_destroyRoom k w : w_uuid (destroyRoom k w) = w_uuid w.
Proof.
  unfold destroyRoom. destruct (w_rooms w !! k) as [room|]; [| reflexivity].
  unfold stopLoops, clearInterval.
  destruct (loop_tick (r_loops room)), (loop_send (r_loops room)); reflexivity.
Qed.

#[local] Hint Rewrite w_uuid_upd_socket w_uuid_store_room w_uuid_safeSend
  w_uuid_broadcastEvent w_uuid_destroyRoom : w_uuid.

Lemma w_next_timer_upd_socket ws g w : w_next_timer (upd_socket ws g w) = w_next_timer w.
Proof. reflexivity. Qed.
Lemma w_next_timer_store_room k r w : w_next_timer (store_room k r w) = w_next_timer w.
Proof. reflexivity. Qed.
Lemma w_next_timer_safeSend ws msg w : w_next_timer (safeSend ws msg w) = w_next_timer w.
Proof. apply (quiet_fields w _ (safeSend_quiet ws msg w)). Qed.
Lemma w_next_timer_broadcastEvent room ev w : w_next_timer (broadcastEvent room ev w) = w_next_timer w.
Proof. apply (quiet_fields w _ (broadcastEvent_quiet room ev w)). Qed.

Lemma w_next_timer_destroyRoom k w : w_next_timer (destroyRoom k w) = w_next_timer w.
Proof.
  unfold destroyRoom. destruct (w_rooms w !! k) as [room|]; [| reflexivity].
  unfold stopLoops, clearInterval.
  destruct (loop_tick (r_loops room)), (loop_send (r_loops room)); reflexivity.
Qed.

#[local] Hint Rewrite w_next_timer_upd_socket w_next_timer_store_room w_next_timer_safeSend
  w_next_timer_broadcastEvent w_next_timer_destroyRoom : w_next_timer.

Lemma destroyRoom_timers (k : uuid) (room : Room) (h1 h2 : timer) (w : World) :
  w_rooms w !! k = Some room ->
  r_loops room = mkLoops (Some h1) (Some h2) ->
  w_timers (destroyRoom k w) = delete h2 (delete h1 (w_timers w)).
Proof.
  intros Hk Hl. unfold destroyRoom. rewrite Hk. unfold stopLoops, clearInterval.
  rewrite Hl. reflexivity.
Qed.

Lemma is_open_fields (w w' : World) (ws : wsref) :
  socket_of w' ws = socket_of w ws -> is_open w' ws = is_open w ws.
Proof. unfold is_open. intros ->. reflexivity. Qed.

Ltac makeRoom_sock top bottom :=
  autorewrite with socket_of;
  repeat (rewrite socket_of_upd_socket;
          rewrite ?(decide_True (P := top = top)) by reflexivity;
          rewrite ?(decide_True (P := bottom = bottom)) by reflexivity;
          rewrite ?(decide_False (P := bottom = top)) by congruence;
          rewrite ?(decide_False (P := top = bottom)) by congruence;
          autorewrite with socket_of);
  reflexivity.

(** [makeRoom(a, b, true)] on two different sessions: the room it returns
    and the state it leaves. *)
Lemma makeRoom_swap_fields (a b : wsref) (w : World) :
  a ≠ b ->
  ∃ room w',
    makeRoom (Some a) (Some b) true w = Return room w'
    ∧ r_id room = w_uuid w
    ∧ r_loops room
      = mkLoops (Some (w_next_timer w)) (Some (S (w_next_timer w)))
    ∧ p_ws (pl_top (r_players room)) = Some a
    ∧ p_ws (pl_bottom (r_players room)) = Some b
    ∧ w_rooms w' = <[w_uuid w := room]> (w_rooms w)
    ∧ w_timers w'
      = <[S (w_next_timer w) := (SendLoop, w_uuid w)]>
          (<[w_next_timer w := (TickLoop, w_uuid w)]> (w_timers w))
    ∧ w_waitingQueue w' = w_waitingQueue w
    ∧ w_next_ws w' = w_next_ws w
    ∧ w_uuid w' = S (w_uuid w)
    ∧ w_next_timer w' = S (S (w_next_timer w))
    ∧ ws_roomId (socket_of w' a) = Some (w_uuid w)
    ∧ ws_side (socket_of w' a) = Some TopSide
    ∧ ws_roomId (socket_of w' b) = Some (w_uuid w)
    ∧ ws_side (socket_of w' b) = Some BottomSide
    ∧ (∀ ws, ws ≠ a -> ws ≠ b -> socket_of w' ws = socket_of w ws).
Proof.
  intros Hab.
  assert (Hba : b ≠ a) by congruence.
  unfold makeRoom, uuidv4, Math_random, startLoops.
  cbv beta iota zeta.
  eexists; eexists.
  split; [reflexivity |].
  split; [reflexivity |].
  split; [cbn [r_loops set_r_loops]; autorewrite with w_next_timer;
          reflexivity |].
  split; [reflexivity |].
  split; [reflexivity |].
  split; [autorewrite with w_rooms; rewrite insert_insert_eq; reflexivity |].
  split; [autorewrite with w_timers w_next_timer; reflexivity |].
  split; [autorewrite with w_waitingQueue; reflexivity |].
  split; [autorewrite with w_next_ws; reflexivity |].
  split; [autorewrite with w_uuid; reflexivity |].
  split; [autorewrite with w_next_timer; reflexivity |].
  split; [makeRoom_sock a b |].
  split; [makeRoom_sock a b |].
  split; [makeRoom_sock a b |].
  split; [makeRoom_sock a b |].
  intros ws H1 H2. autorewrite with socket_of.
  rewrite !socket_of_upd_socket_ne by congruence.
  autorewrite with socket_of. reflexivity.
Qed.

(** Without [swapSides], the first draw decides which session is on top;
    the rest is [makeRoom] with the sides given. *)
Lemma makeRoom_draw (a b : wsref) (w : World) :
  makeRoom (Some a) (Some b) false w
  = if (Finite (w_entropy w (w_draws w)) <? Finite 0.5)%js
    then makeRoom (Some a) (Some b) true (set_w_draws (S (w_draws w)) w)
    else makeRoom (Some b) (Some a) true (set_w_draws (S (w_draws w)) w).
Proof.
  unfold makeRoom, uuidv4, Math_random.
  destruct (_ <? _)%js; reflexivity.
Qed.

(** [makeRoom] on two different sessions, sides drawn or given. *)
Lemma makeRoom_fields (a b : wsref) (swapSides : bool) (w : World) :
  a ≠ b ->
  ∃ room w' top bottom,
    makeRoom (Some a) (Some b) swapSides w = Return room w'
    ∧ ((top = a ∧ bottom = b) ∨ (top = b ∧ bottom = a))
    ∧ (swapSides = true -> top = a ∧ bottom = b)
    ∧ r_id room = w_uuid w
    ∧ r_loops room
      = mkLoops (Some (w_next_timer w)) (Some (S (w_next_timer w)))
    ∧ p_ws (pl_top (r_players room)) = Some top
    ∧ p_ws (pl_bottom (r_players room)) = Some bottom
    ∧ w_rooms w' = <[w_uuid w := room]> (w_rooms w)
    ∧ w_timers w'
      = <[S (w_next_timer w) := (SendLoop, w_uuid w)]>
          (<[w_next_timer w := (TickLoop, w_uuid w)]> (w_timers w))
    ∧ w_waitingQueue w' = w_waitingQueue w
    ∧ w_next_ws w' = w_next_ws w
    ∧ w_uuid w' = S (w_uuid w)
    ∧ w_next_timer w' = S (S (w_next_timer w))
    ∧ ws_roomId (socket_of w' top) = Some (w_uuid w)
    ∧ ws_side (socket_of w' top) = Some TopSide
    ∧ ws_roomId (socket_of w' bottom) = Some (w_uuid w)
    ∧ ws_side (socket_of w' bottom) = Some BottomSide
    ∧ (∀ ws, ws ≠ top -> ws ≠ bottom -> socket_of w' ws = socket_of w ws).
Proof.
  intros Hab.
  destruct swapSides.
  - destruct (makeRoom_swap_fields a b w Hab) as (room & w' & Hrun & H).
    exists room, w', a, b. split; [exact Hrun |].
    split; [left; split; reflexivity |]. split; [intros _; split; reflexivity |].
    exact H.
  - rewrite makeRoom_draw. destruct (_ <? _)%js.
    + destruct (makeRoom_swap_fields a b (set_w_draws (S (w_draws w)) w) Hab)
        as (room & w' & Hrun & H).
      exists room, w', a, b. split; [exact Hrun |].
      split; [left; split; reflexivity |]. split; [discriminate |].
      exact H.
    + destruct (makeRoom_swap_fields b a (set_w_draws (S (w_draws w)) w)
                  (not_eq_sym Hab)) as (room & w' & Hrun & H).
      exists room, w', b, a. split; [exact Hrun |].
      split; [right; split; reflexivity |]. split; [discriminate |].
      exact H.
Qed.

(** [makeRoom] keeps well-formed states well formed. *)
Lemma makeRoom_wf (a b : wsref) (swapSides : bool) (w : World) :
  wf w ->
  a ≠ b ->
  (a < w_next_ws w)%nat -> (b < w_next_ws w)%nat ->
  ws_roomId (socket_of w a) = None ->
  ws_roomId (socket_of w b) = None ->
  a ∉ w_waitingQueue w -> b ∉ w_waitingQueue w ->
  ∃ room w', makeRoom (Some a) (Some b) swapSides w = Return room w'
             ∧ wf w'
             ∧ w_waitingQueue w' = w_waitingQueue w.
Proof.
  intros Hwf Hab Ha Hb Hfa Hfb Hqa Hqb.
  destruct (makeRoom_fields a b swapSides w Hab)
    as (room & w' & top & bottom & Hrun & Hcase & _ & Hid & Hl & Hpt & Hpb
        & Hrooms & Htimers & Hq & Hnws & Huuid & Hnt & Htr & Hts & Hbr & Hbs
        & Hother).
  exists room, w'. split; [exact Hrun |]. split; [| exact Hq].
  destruct Hcase as [[-> ->] | [-> ->]].
  - apply (wf_new_room w w' room a b); assumption.
  - apply (wf_new_room w w' room b a); first [assumption | congruence].
Qed.

(** The second loop of [tryMatch] from a well-formed state whose queue is
    [q]: it returns, in a well-formed state, with at most one session left
    waiting. *)
Lemma tryMatch_pairs_wf_aux (n : nat) :
  ∀ q w, (length q ≤ n)%nat -> wf w -> w_waitingQueue w = q ->
  ∃ w', tryMatch_pairs q w = Return tt w'
        ∧ wf w'
        ∧ (length (w_waitingQueue w') ≤ 1)%nat
        ∧ sublist (w_waitingQueue w') q.
Proof.
  induction n as [| n IH]; intros q w Hlen Hwf Hq.
  - destruct q; [| simpl in Hlen; lia]. exists w.
    split; [reflexivity |]. split; [exact Hwf |]. rewrite Hq. split; [simpl; lia |].
    reflexivity.
  - destruct q as [| a [| b q']].
    + exists w. split; [reflexivity |]. split; [exact Hwf |]. rewrite Hq.
      split; [simpl; lia | reflexivity].
    + exists w. split; [reflexivity |]. split; [exact Hwf |]. rewrite Hq.
      split; [simpl; lia | reflexivity].
    + simpl in Hlen. simpl tryMatch_pairs.
      assert (Hsub : sublist q' (w_waitingQueue w)).
      { rewrite Hq. apply sublist_cons, sublist_cons. reflexivity. }
      pose proof (wf_shape _ _ (same_shape_queue q' w Hsub) Hwf) as Hwf1.
      destruct Hwf as ((Hnd & Hin) & _).
      rewrite Hq in Hnd, Hin.
      apply NoDup_cons in Hnd as [Ha Hnd]. apply NoDup_cons in Hnd as [Hb Hnd].
      destruct (Hin a ltac:(left)) as [Halt Hafree].
      destruct (Hin b ltac:(right; left)) as [Hblt Hbfree].
      destruct (negb _ || negb _).
      * destruct (IH q' (set_w_waitingQueue q' w) ltac:(lia) Hwf1 eq_refl)
          as (w' & Hrun & Hwf' & Hlen' & Hsub').
        exists w'. split; [exact Hrun |]. split; [exact Hwf' |].
        split; [exact Hlen' |].
        apply sublist_cons, sublist_cons. exact Hsub'.
      * destruct (makeRoom_wf a b false (set_w_waitingQueue q' w) Hwf1)
          as (room & w1 & Hmk & Hwf2 & Hq2); try assumption.
        { intros ->. apply Ha. left. }
        { intros Hx. apply Ha. right. exact Hx. }
        rewrite Hmk.
        destruct (IH q' w1 ltac:(lia) Hwf2 Hq2)
          as (w' & Hrun & Hwf' & Hlen' & Hsub').
        exists w'. split; [exact Hrun |]. split; [exact Hwf' |].
        split; [exact Hlen' |].
        apply sublist_cons, sublist_cons. exact Hsub'.
Qed.

Lemma tryMatch_wf (w : World) :
  wf w ->
  ∃ w', tryMatch w = Return tt w'
        ∧ wf w'
        ∧ (length (w_waitingQueue w') ≤ 1)%nat
        ∧ sublist (w_waitingQueue w') (w_waitingQueue w).
Proof.
  intros Hwf. unfold tryMatch.
  assert (Hsub : sublist (w_waitingQueue (tryMatch_filter w)) (w_waitingQueue w)).
  { unfold tryMatch_filter. rewrite w_waitingQueue_set_w_waitingQueue.
    apply sublist_filter. }
  assert (Hwf1 : wf (tryMatch_filter w)).
  { eapply wf_shape; [| exact Hwf]. apply same_shape_queue.
    apply sublist_filter. }
  destruct (tryMatch_pairs_wf_aux _ _ (tryMatch_filter w) (le_n _) Hwf1 eq_refl)
    as (w' & Hrun & Hwf' & Hlen & Hsub').
  exists w'. split; [exact Hrun |]. split; [exact Hwf' |]. split; [exact Hlen |].
  etransitivity; eassumption.
Qed.

Lemma wf_loops (w : World) (k : uuid) (room : Room) :
  wf w -> w_rooms w !! k = Some room ->
  ∃ h1 h2, r_loops room = mkLoops (Some h1) (Some h2).
Proof.
  intros (_ & Hr & _ & _) Hk. destruct (Hr k room Hk) as (_ & _ & _ & Hl & _).
  destruct (Hl TickLoop) as (h1 & H1 & _). destruct (Hl SendLoop) as (h2 & H2 & _).
  exists h1, h2. destruct (r_loops room) as [lt ls]. simpl in H1, H2.
  subst. reflexivity.
Qed.

(** [leaveRoom] from a well-formed state returns, in a well-formed
    state. *)
Lemma leaveRoom_wf (ws : wsref) (w : World) :
  wf w ->
  ∃ w', leaveRoom ws w = Return tt w'
        ∧ wf w'
        ∧ w_waitingQueue w' = w_waitingQueue w
        ∧ ws_roomId (socket_of w' ws) = None
        ∧ (∀ x, x ≠ ws -> socket_of w' x = socket_of w x)
        ∧ ws_id (socket_of w' ws) = ws_id (socket_of w ws).
Proof.
  intros Hwf. unfold leaveRoom.
  destruct (ws_roomId (socket_of w ws)) as [k|] eqn:Hroom.
  2:{ exists w. split; [reflexivity |]. split; [exact Hwf |].
      split; [reflexivity |]. split; [exact Hroom |]. split; reflexivity. }
  pose proof Hwf as (_ & Hr & Hs & _).
  destruct (Hs ws k Hroom) as (room & s & Hk & Hside & Hslot).
  destruct (Hr k room Hk) as (Hid & _ & _ & _ & _).
  destruct (wf_loops w k room Hwf Hk) as (h1 & h2 & Hloops).
  rewrite Hk, Hside. cbv beta iota zeta.
  match goal with
  | |- context [store_room k _ ?W] => set (w0 := W)
  end.
  assert (Hq0 : quiet w w0).
  { subst w0. destruct (_ && _); [apply broadcastEvent_quiet | apply quiet_refl]. }
  destruct (quiet_fields w w0 Hq0) as (Hqq & Hqt & Hqw & Hqu & Hqn).
  pose proof (quiet_rooms w w0 Hq0) as Hqr.
  set (room' := set_player s (set_p_ws None (player s room)) room).
  assert (Hid' : r_id room' = r_id room) by (subst room'; destruct s; reflexivity).
  assert (Hloops' : r_loops room' = r_loops room)
    by (subst room'; destruct s; reflexivity).
  assert (Hgone : p_ws (player s room') = None)
    by (subst room'; destruct s; reflexivity).
  assert (Hstay : p_ws (player (opponentSide s) room')
                  = p_ws (player (opponentSide s) room))
    by (subst room'; destruct s; reflexivity).
  assert (Hsock : ∀ w1 x, x ≠ ws ->
            socket_of w1 x = socket_of w x ->
            socket_of (upd_socket ws (set_ws_side None)
                         (upd_socket ws (set_ws_roomId None) w1)) x
            = socket_of w x).
  { intros w1 x Hx Hw1. rewrite !socket_of_upd_socket_ne by congruence.
    exact Hw1. }
  assert (Hmine : ∀ w1, socket_of w1 ws = socket_of w ws ->
            ws_roomId (socket_of (upd_socket ws (set_ws_side None)
                         (upd_socket ws (set_ws_roomId None) w1)) ws) = None
            ∧ ws_id (socket_of (upd_socket ws (set_ws_side None)
                         (upd_socket ws (set_ws_roomId None) w1)) ws)
              = ws_id (socket_of w ws)).
  { intros w1 Hw1. rewrite !socket_of_upd_socket_eq. rewrite Hw1.
    split; reflexivity. }
  destruct (p_ws (player (opponentSide s) room)) as [o|] eqn:Hopp.
  - assert (Hkeep : is_Some (p_ws (pl_top (r_players room')))
                    ∨ is_Some (p_ws (pl_bottom (r_players room')))).
    { destruct s; [right | left]; exists o; exact Hstay. }
    rewrite (both_gone_else _ _ _ _ Hkeep).
    eexists. split; [reflexivity |].
    assert (H0 : ∀ x, socket_of (store_room k room' w0) x = socket_of w x).
    { intros x. rewrite socket_of_store_room. apply quiet_socket_of. exact Hq0. }
    split; [| split; [exact Hqq |
              split; [apply (Hmine _ (H0 ws)) |
              split; [intros x Hx; apply Hsock; [exact Hx | apply H0] |
                      apply (Hmine _ (H0 ws))]]]].
    eapply (wf_detach w _ ws k s room room'); try eassumption.
    + rewrite Hopp. eauto.
    + congruence.
    + autorewrite with w_rooms. rewrite Hqr. reflexivity.
    + apply (Hmine _ (H0 ws)).
    + intros x Hx. apply Hsock; [exact Hx | apply H0].
  - assert (Hnone : p_ws (pl_top (r_players room')) = None
                    ∧ p_ws (pl_bottom (r_players room')) = None).
    { destruct s; split; first [exact Hstay | exact Hgone]. }
    destruct Hnone as [-> ->]. rewrite Hid', Hid.
    eexists. split; [reflexivity |].
    assert (H0 : ∀ x, socket_of (destroyRoom k (store_room k room' w0)) x
                      = socket_of w x).
    { intros x. rewrite socket_of_destroyRoom, socket_of_store_room.
      apply quiet_socket_of. exact Hq0. }
    split; [| split; [autorewrite with w_waitingQueue; exact Hqq |
              split; [apply (Hmine _ (H0 ws)) |
              split; [intros x Hx; apply Hsock; [exact Hx | apply H0] |
                      apply (Hmine _ (H0 ws))]]]].
    eapply (wf_destroy w _ ws k s room h1 h2); try eassumption.
    + autorewrite with w_rooms. rewrite Hqr. apply delete_insert_eq.
    + rewrite !w_timers_upd_socket.
      rewrite (destroyRoom_timers k room' h1 h2).
      * rewrite w_timers_store_room, Hqt. reflexivity.
      * rewrite w_rooms_store_room. apply lookup_insert_eq.
      * congruence.
    + autorewrite with w_waitingQueue. exact Hqq.
    + autorewrite with w_next_ws. exact Hqw.
    + autorewrite with w_uuid. exact Hqu.
    + autorewrite with w_next_timer. exact Hqn.
    + apply (Hmine _ (H0 ws)).
    + intros x Hx. apply Hsock; [exact Hx | apply H0].
Qed.

Lemma replace_room_map {A : Type} (m : gmap nat A) (k id : nat) (x y z : A) :
  id ≠ k ->
  delete k (<[id := x]> (<[id := y]> (<[k := z]> m))) = <[id := x]> (delete k m).
Proof.
  intros Hne. rewrite insert_insert_eq.
  rewrite delete_insert_ne by congruence.
  rewrite delete_insert_eq. reflexivity.
Qed.

Lemma replace_timers_map {A : Type} (m : gmap nat A) (h1 h2 n1 n2 : nat) (x y : A) :
  h1 ≠ n1 -> h1 ≠ n2 -> h2 ≠ n1 -> h2 ≠ n2 ->
  delete h2 (delete h1 (<[n2 := y]> (<[n1 := x]> m)))
  = <[n2 := y]> (<[n1 := x]> (delete h2 (delete h1 m))).
Proof.
  intros H11 H12 H21 H22.
  rewrite !delete_insert_ne by congruence. reflexivity.
Qed.

(** [startRematch] on a registered room with both players there, from a
    well-formed state: it returns, in a well-formed state. *)
Lemma startRematch_wf (k : uuid) (old : Room) (a b : wsref) (w : World) :
  wf w ->
  w_rooms w !! k = Some old ->
  p_ws (pl_top (r_players old)) = Some a ->
  p_ws (pl_bottom (r_players old)) = Some b ->
  ∃ w', startRematch k old w = Return tt w'
        ∧ wf w'
        ∧ w_waitingQueue w' = w_waitingQueue w.
Proof.
  intros Hwf Hk Ha Hb.
  pose proof Hwf as ((Hnd & Hq) & Hr & Hs & Ht).
  destruct (Hr k old Hk) as (Hid & Hklt & _ & Hl & Hslots).
  destruct (Hslots TopSide a Ha) as (Halt & Har & Has).
  destruct (Hslots BottomSide b Hb) as (Hblt & Hbr & Hbs).
  assert (Hab : a ≠ b) by (intros ->; congruence).
  destruct (wf_loops w k old Hwf Hk) as (h1 & h2 & Hloops).
  destruct (Hl TickLoop) as (x1 & Hx1 & Ht1).
  destruct (Hl SendLoop) as (x2 & Hx2 & Ht2).
  rewrite Hloops in Hx1, Hx2. simpl in Hx1, Hx2.
  inversion Hx1; inversion Hx2; subst x1 x2; clear Hx1 Hx2.
  pose proof (wf_timer_bound w h1 _ Hwf Ht1) as Hh1.
  pose proof (wf_timer_bound w h2 _ Hwf Ht2) as Hh2.
  (* the state without the old room, and its sessions without room *)
  set (oldA := set_player TopSide (set_p_ws None (player TopSide old)) old).
  set (mid1 := store_room k oldA (upd_socket a (set_ws_roomId None) w)).
  set (mid2 := set_w_timers (delete h2 (delete h1 (w_timers w)))
                 (set_w_rooms (delete k (w_rooms w))
                    (upd_socket b (set_ws_roomId None)
                       (upd_socket a (set_ws_roomId None) w)))).
  assert (Hwf1 : wf mid1).
  { apply (wf_detach w mid1 a k TopSide old oldA); try assumption;
      try reflexivity.
    - simpl. rewrite Hb. eauto.
    - subst mid1. rewrite socket_of_store_room, socket_of_upd_socket_eq.
      reflexivity.
    - intros x Hx. subst mid1.
      rewrite socket_of_store_room, socket_of_upd_socket_ne by congruence.
      reflexivity. }
  assert (Hwf2 : wf mid2).
  { apply (wf_destroy mid1 mid2 b k BottomSide oldA h1 h2); try assumption;
      try reflexivity.
    - subst mid1.
      rewrite socket_of_store_room, socket_of_upd_socket_ne by congruence.
      exact Hbr.
    - subst mid1.
      rewrite socket_of_store_room, socket_of_upd_socket_ne by congruence.
      exact Hbs.
    - subst mid1. rewrite w_rooms_store_room. apply lookup_insert_eq.
    - subst mid1 mid2. rewrite w_rooms_store_room.
      rewrite delete_insert_eq. reflexivity.
    - subst mid2. autorewrite with socket_of.
      rewrite socket_of_upd_socket_eq. reflexivity.
    - intros x Hx. subst mid1 mid2. autorewrite with socket_of.
      rewrite socket_of_upd_socket_ne by congruence. reflexivity. }
  (* the run *)
  unfold startRematch. rewrite Ha, Hb.
  set (old' := set_r_rematchVotes (mkVotes false false) old).
  destruct (makeRoom_swap_fields a b (store_room k old' w) Hab)
    as (room & w2 & -> & Hrid & Hrl & Hpt & Hpb & Hrooms & Htimers & Hqueue
        & Hnws & Huuid & Hnt & Htr & Hts & Hbr' & Hbs' & Hother).
  change (w_uuid (store_room k old' w)) with (w_uuid w) in *.
  change (w_next_timer (store_room k old' w)) with (w_next_timer w) in *.
  change (w_timers (store_room k old' w)) with (w_timers w) in *.
  change (w_waitingQueue (store_room k old' w)) with (w_waitingQueue w) in *.
  change (w_next_ws (store_room k old' w)) with (w_next_ws w) in *.
  rewrite w_rooms_store_room in Hrooms.
  assert (Hold : r_id old' = k) by exact Hid.
  rewrite Hold.
  set (room' := set_r_nextPhaseAt (nowMs w2 + 3000) _).
  assert (Hrid' : r_id room' = w_uuid w) by exact Hrid.
  rewrite Hrid'.
  assert (Hfresh : w_uuid w ≠ k) by lia.
  eexists. split; [reflexivity |].
  match goal with |- wf ?W ∧ _ => set (wF := W) end.
  assert (Fq : w_waitingQueue wF = w_waitingQueue mid2).
  { subst wF. autorewrite with w_waitingQueue. exact Hqueue. }
  split; [| exact Fq].
  assert (Fa : ws_roomId (socket_of mid2 a) = None).
  { subst mid2. autorewrite with socket_of.
    rewrite socket_of_upd_socket_ne by congruence.
    rewrite socket_of_upd_socket_eq. reflexivity. }
  assert (Fb : ws_roomId (socket_of mid2 b) = None).
  { subst mid2. autorewrite with socket_of.
    rewrite socket_of_upd_socket_eq. reflexivity. }
  assert (Fqa : a ∉ w_waitingQueue mid2).
  { intros Hin. destruct (Hq a Hin) as [_ Hnone]. congruence. }
  assert (Fqb : b ∉ w_waitingQueue mid2).
  { intros Hin. destruct (Hq b Hin) as [_ Hnone]. congruence. }
  assert (Fid : r_id room' = w_uuid mid2) by exact Hrid.
  assert (Fl : r_loops room'
               = mkLoops (Some (w_next_timer mid2)) (Some (S (w_next_timer mid2))))
    by exact Hrl.
  assert (Fpt : p_ws (pl_top (r_players room')) = Some a) by exact Hpt.
  assert (Fpb : p_ws (pl_bottom (r_players room')) = Some b) by exact Hpb.
  assert (Fr : w_rooms wF = <[w_uuid mid2 := room']> (w_rooms mid2)).
  { subst wF. autorewrite with w_rooms. rewrite Hrooms.
    apply replace_room_map. exact Hfresh. }
  assert (Ft : w_timers wF
               = <[S (w_next_timer mid2) := (SendLoop, w_uuid mid2)]>
                   (<[w_next_timer mid2 := (TickLoop, w_uuid mid2)]>
                      (w_timers mid2))).
  { subst wF. rewrite (destroyRoom_timers k old' h1 h2).
    - autorewrite with w_timers. rewrite Htimers.
      change (w_next_timer mid2) with (w_next_timer w).
      change (w_timers mid2) with (delete h2 (delete h1 (w_timers w))).
      apply replace_timers_map; lia.
    - autorewrite with w_rooms. rewrite Hrooms.
      rewrite !lookup_insert_ne by exact Hfresh. apply lookup_insert_eq.
    - exact Hloops. }
  assert (Fnws : w_next_ws wF = w_next_ws mid2).
  { subst wF. autorewrite with w_next_ws. exact Hnws. }
  assert (Fu : w_uuid wF = S (w_uuid mid2)).
  { subst wF. autorewrite with w_uuid. exact Huuid. }
  assert (Fnt : w_next_timer wF = S (S (w_next_timer mid2))).
  { subst wF. autorewrite with w_next_timer. exact Hnt. }
  assert (Ftr : ws_roomId (socket_of wF a) = Some (w_uuid mid2)).
  { subst wF. autorewrite with socket_of. exact Htr. }
  assert (Fts : ws_side (socket_of wF a) = Some TopSide).
  { subst wF. autorewrite with socket_of. exact Hts. }
  assert (Fbr : ws_roomId (socket_of wF b) = Some (w_uuid mid2)).
  { subst wF. autorewrite with socket_of. exact Hbr'. }
  assert (Fbs : ws_side (socket_of wF b) = Some BottomSide).
  { subst wF. autorewrite with socket_of. exact Hbs'. }
  assert (Fo : ∀ x, x ≠ a -> x ≠ b -> socket_of wF x = socket_of mid2 x).
  { intros x Hxa Hxb. subst wF. autorewrite with socket_of.
    rewrite (Hother x Hxa Hxb). subst mid2. autorewrite with socket_of.
    rewrite !socket_of_upd_socket_ne by congruence. reflexivity. }
  apply (wf_new_room mid2 wF room' a b Hwf2 Hab Halt Hblt Fa Fb Fqa Fqb Fid Fl
           Fpt Fpb Fr Ft Fq Fnws Fu Fnt Ftr Fts Fbr Fbs Fo).
Qed.

(** With a slot empty, [startRematch] throws. *)
Lemma startRematch_throws (k : uuid) (old : Room) (w : World) :
  p_ws (pl_top (r_players old)) = None
  ∨ p_ws (pl_bottom (r_players old)) = None ->
  ∃ w', startRematch k old w = Throw w'.
Proof.
  intros Hgone. unfold startRematch, makeRoom, uuidv4. cbv beta iota zeta.
  destruct Hgone as [-> | ->].
  - eexists. reflexivity.
  - destruct (p_ws (pl_top (r_players old))); eexists; reflexivity.
Qed.

Lemma requestRematch_wf (k : uuid) (room : Room) (s : side) (w w' : World) :
  wf w -> w_rooms w !! k = Some room ->
  requestRematch k room s w = Return tt w' ->
  wf w' ∧ w_waitingQueue w' = w_waitingQueue w.
Proof.
  intros Hwf Hk. unfold requestRematch.
  destruct (bool_decide (r_phase room ≠ Gameover)).
  { intros H. apply Return_inj in H as [_ <-]. split; [exact Hwf | reflexivity]. }
  set (room2 := set_vote s true room).
  assert (Hshape : room_shape room room2).
  { subst room2. destruct s; repeat split; intros []; reflexivity. }
  pose proof (wf_store k room room2 w Hk Hshape Hwf) as Hwf2.
  match goal with
  | |- (if _ then startRematch k room2 ?W else _) = _ -> _ => set (w3 := W)
  end.
  assert (Hq3 : quiet (store_room k room2 w) w3).
  { subst w3. destruct (p_ws _) as [o|]; [| apply quiet_refl].
    destruct (is_open _ _); [apply safeSend_quiet | apply quiet_refl]. }
  pose proof (wf_quiet _ _ Hq3 Hwf2) as Hwf3.
  assert (Hk3 : w_rooms w3 !! k = Some room2).
  { rewrite (quiet_rooms _ _ Hq3), w_rooms_store_room. apply lookup_insert_eq. }
  assert (Hqq : w_waitingQueue w3 = w_waitingQueue w).
  { destruct (quiet_fields _ _ Hq3) as (-> & _). reflexivity. }
  destruct (_ && _).
  - destruct (p_ws (pl_top (r_players room2))) as [a|] eqn:Ha.
    2:{ destruct (startRematch_throws k room2 w3 (or_introl Ha)) as [w1 ->].
        discriminate. }
    destruct (p_ws (pl_bottom (r_players room2))) as [b|] eqn:Hb.
    2:{ destruct (startRematch_throws k room2 w3 (or_intror Hb)) as [w1 ->].
        discriminate. }
    destruct (startRematch_wf k room2 a b w3 Hwf3 Hk3 Ha Hb)
      as (w1 & -> & Hwf1 & Hq1).
    intros H. apply Return_inj in H as [_ <-]. split; [exact Hwf1 | congruence].
  - intros H. apply Return_inj in H as [_ <-]. split; [exact Hwf3 | exact Hqq].
Qed.

(** ** The handlers keep well-formed states well formed *)

Ltac shape_auto := repeat split; try (intros []); reflexivity.

Lemma paddleBounce_shape (room : Room) (s : side) (cx : number) :
  room_shape room (paddleBounce room s cx).
Proof. destruct s; shape_auto. Qed.

Lemma onScore_shape (room : Room) (s : side) (w : World) :
  room_shape room (onScore room s w).1.
Proof.
  unfold onScore, endGame.
  repeat match goal with
  | |- context [if ?c then _ else _] => destruct c
  end; simpl; destruct s; shape_auto.
Qed.

Lemma room_shape_trans (r1 r2 r3 : Room) :
  room_shape r1 r2 -> room_shape r2 r3 -> room_shape r1 r3.
Proof.
  intros (Hi & Hl & Hp) (Hi' & Hl' & Hp').
  split; [congruence |]. split; [congruence |]. intros s. rewrite Hp'. apply Hp.
Qed.

Lemma integrate_shape (room : Room) (dt : number) (w : World) :
  room_shape room (integrate room dt w).1
  ∧ quiet w (integrate room dt w).2.
Proof.
  assert (Hrr : room_shape room (set_r_ball (after_walls room dt) room))
    by shape_auto.
  destruct (integrate_exits room dt w)
    as [(s & cx & ->) | [(_ & ->) | [(_ & _ & ->) | (_ & _ & ->)]]]; simpl.
  - split; [| apply quiet_refl].
    eapply room_shape_trans; [exact Hrr | apply paddleBounce_shape].
  - split; [| apply onScore_quiet].
    eapply room_shape_trans; [exact Hrr | apply onScore_shape].
  - split; [| apply onScore_quiet].
    eapply room_shape_trans; [exact Hrr | apply onScore_shape].
  - split; [exact Hrr | apply quiet_refl].
Qed.

Lemma tick_shape (room : Room) (w : World) :
  room_shape room (tick room w).1 ∧ quiet w (tick room w).2.
Proof.
  unfold tick. cbv zeta.
  destruct (_ <=? _)%js; [split; [shape_auto | apply quiet_refl] |].
  destruct (bool_decide (r_phase _ ≠ Playing)).
  - destruct (_ && _); [| split; [shape_auto | apply quiet_refl]].
    destruct (_ || _); [| split; [shape_auto | apply quiet_refl]].
    rewrite serveBall_spec. simpl. split; [shape_auto | apply quiet_draws].
  - match goal with
    | |- context [integrate ?r ?d w] =>
        destruct (integrate_shape r d w) as [Hs Hq]
    end.
    split; [| exact Hq]. eapply room_shape_trans; [| exact Hs]. shape_auto.
Qed.

Lemma broadcastState_quiet (room : Room) (w : World) :
  quiet w (broadcastState room w).
Proof.
  unfold broadcastState. cbv zeta. cbn [foldl].
  assert (Hstep : ∀ (pl : side -> message) s w0,
            quiet w0 (match p_ws (player s room) with
                     | Some ws =>
                         if is_open w0 ws then safeSend (Some ws) (pl s) w0
                         else w0
                     | None => w0
                     end)).
  { intros pl s w0. destruct (p_ws _); [| apply quiet_refl].
    destruct (is_open _ _); [apply safeSend_quiet | apply quiet_refl]. }
  eapply quiet_trans; [apply Hstep |]. apply Hstep.
Qed.

Lemma on_interval_wf (h : timer) (w : World) :
  wf w ->
  wf (on_interval h w)
  ∧ w_waitingQueue (on_interval h w) = w_waitingQueue w.
Proof.
  intros Hwf. unfold on_interval.
  destruct (w_timers w !! h) as [[kind k]|]; [| split; [exact Hwf | reflexivity]].
  destruct (w_rooms w !! k) as [room|] eqn:Hk; [| split; [exact Hwf | reflexivity]].
  destruct kind.
  - destruct (tick_shape room w) as [Hs Hq].
    destruct (tick room w) as [room' w1]. simpl in Hs, Hq.
    destruct (quiet_fields _ _ Hq) as (Hqq & _).
    split; [| rewrite w_waitingQueue_store_room; exact Hqq].
    apply (wf_store k room room' w1); [| exact Hs | apply (wf_quiet w); assumption].
    rewrite (quiet_rooms _ _ Hq). exact Hk.
  - pose proof (broadcastState_quiet room w) as Hq.
    destruct (quiet_fields _ _ Hq) as (Hqq & _).
    split; [apply (wf_quiet w); assumption | exact Hqq].
Qed.

Lemma on_connection_wf (w : World) :
  wf w ->
  wf (on_connection w)
  ∧ w_waitingQueue (on_connection w) = w_waitingQueue w.
Proof.
  intros Hwf. unfold on_connection, uuidv4. cbv beta iota zeta.
  rewrite safeSend_outbox.
  split; [| reflexivity].
  eapply wf_shape; [| exact Hwf].
  unfold same_shape.
  split; [trivial |]. split; [intros ws Hws; left; exact Hws |].
  split; [reflexivity |].
  split; [autorewrite with w_next_ws; lia |].
  split; [autorewrite with w_uuid; lia |].
  split; [reflexivity |].
  split.
  - intros ws. autorewrite with socket_of.
    rewrite socket_of_upd_socket.
    destruct (decide (w_next_ws w = ws)) as [<- | Hne].
    + right. split; [lia | reflexivity].
    + left. split; reflexivity.
  - intros k. apply rooms_shape_refl.
Qed.

Lemma sublist_length_le {A : Type} (l k : list A) :
  sublist l k -> (length l ≤ length k)%nat.
Proof. apply sublist_length. Qed.

Section WfRun.

Variable ToNumber_builtin : json -> number.

Local Abbreviation on_message := (on_message ToNumber_builtin).
Local Abbreviation handle := (handle ToNumber_builtin).
Local Abbreviation reachable := (reachable ToNumber_builtin).

Lemma on_message_wf (ws : wsref) (data : frame) (w w' : World) :
  wf w -> (ws < w_next_ws w)%nat ->
  on_message ws data w = Return tt w' ->
  wf w'
  ∧ ((length (w_waitingQueue w') ≤ 1)%nat
     ∨ sublist (w_waitingQueue w') (w_waitingQueue w)).
Proof.
  intros Hwf Hlt. unfold on_message.
  assert (Hsame : Return tt w = Return tt w' ->
            wf w' ∧ ((length (w_waitingQueue w') ≤ 1)%nat
                     ∨ sublist (w_waitingQueue w') (w_waitingQueue w))).
  { intros H. apply Return_inj in H as [_ <-]. split; [exact Hwf |].
    right. reflexivity. }
  destruct data as [| msg]; [exact Hsame |].
  assert (Hbody :
    (if type_is msg "joinQueue" then
       let name := sanitizeName (get_prop "name" msg) in
       let w := upd_socket ws (set_ws_name name) w in
       if bool_decide (ws_roomId (socket_of w ws) = None)
          && bool_decide (ws ∉ w_waitingQueue w) then
         let w := set_w_waitingQueue (w_waitingQueue w ++ [ws]) w in
         let w := safeSend (Some ws) (Finding (length (w_waitingQueue w))) w in
         tryMatch w
       else Return tt w
     else if type_is msg "cancelQueue" then
       let w := set_w_waitingQueue (remove_first ws (w_waitingQueue w)) w in
       Return tt (safeSend (Some ws) QueueCancelled w)
     else if type_is msg "paddle" then
       match ws_roomId (socket_of w ws), ws_side (socket_of w ws) with
       | Some k, Some s =>
           match w_rooms w !! k with
           | None => Return tt w
           | Some room =>
               match Number ToNumber_builtin (get_prop "x" msg) with
               | None => Throw w
               | Some v =>
                   let x := clamp v (Finite 0) (Finite 1) in
                   Return tt (store_room k (set_paddle s x room) w)
               end
           end
       | _, _ => Return tt w
       end
     else if type_is msg "rematchRequest" then
       match ws_roomId (socket_of w ws), ws_side (socket_of w ws) with
       | Some k, Some s =>
           match w_rooms w !! k with
           | None => Return tt w
           | Some room => requestRematch k room s w
           end
       | _, _ => Return tt w
       end
     else if type_is msg "leaveRoom" then leaveRoom ws w
     else Return tt (safeSend (Some ws) (ErrorMsg "Unknown message type") w))
    = Return tt w' ->
    wf w' ∧ ((length (w_waitingQueue w') ≤ 1)%nat
             ∨ sublist (w_waitingQueue w') (w_waitingQueue w))).
  2:{ destruct msg; first [exact Hsame | exact Hbody]. }
  clear Hsame.
  destruct (type_is msg "joinQueue").
  { cbv zeta.
    set (w1 := upd_socket ws (set_ws_name _) w).
    assert (Hwf1 : wf w1).
    { eapply wf_shape; [| exact Hwf]. apply same_shape_socket.
      intros s. split; reflexivity. }
    destruct (bool_decide (ws_roomId (socket_of w1 ws) = None)) eqn:Hfree;
      [| intros H; apply Return_inj in H as [_ <-]; split; [exact Hwf1 |];
         right; reflexivity].
    destruct (bool_decide (ws ∉ w_waitingQueue w1)) eqn:Hnew;
      [| intros H; apply Return_inj in H as [_ <-]; split; [exact Hwf1 |];
         right; reflexivity].
    apply bool_decide_eq_true_1 in Hfree, Hnew. simpl andb. cbv iota.
    set (w2 := set_w_waitingQueue (w_waitingQueue w1 ++ [ws]) w1).
    assert (Hwf2 : wf w2).
    { eapply wf_shape; [| exact Hwf1]. apply same_shape_push; assumption. }
    match goal with |- tryMatch ?W = _ -> _ => set (w3 := W) end.
    assert (Hwf3 : wf w3) by (apply (wf_quiet w2); [apply safeSend_quiet | exact Hwf2]).
    destruct (tryMatch_wf w3 Hwf3) as (w4 & -> & Hwf4 & Hlen & _).
    intros H. apply Return_inj in H as [_ <-]. split; [exact Hwf4 |].
    left. exact Hlen. }
  destruct (type_is msg "cancelQueue").
  { cbv zeta. intros H. apply Return_inj in H as [_ <-].
    pose proof (remove_first_sublist ws (w_waitingQueue w)) as Hsub.
    split.
    - apply (wf_quiet (set_w_waitingQueue (remove_first ws (w_waitingQueue w)) w));
        [apply safeSend_quiet |].
      eapply wf_shape; [| exact Hwf]. apply same_shape_queue. exact Hsub.
    - right. rewrite w_waitingQueue_safeSend, w_waitingQueue_set_w_waitingQueue.
      exact Hsub. }
  destruct (type_is msg "paddle").
  { destruct (ws_roomId (socket_of w ws)) as [k|];
      [| intros H; apply Return_inj in H as [_ <-]; split; [exact Hwf |];
         right; reflexivity].
    destruct (ws_side (socket_of w ws)) as [s|];
      [| intros H; apply Return_inj in H as [_ <-]; split; [exact Hwf |];
         right; reflexivity].
    destruct (w_rooms w !! k) as [room|] eqn:Hk;
      [| intros H; apply Return_inj in H as [_ <-]; split; [exact Hwf |];
         right; reflexivity].
    destruct (Number ToNumber_builtin (get_prop "x" msg)) as [v|];
      [| discriminate].
    cbv zeta. intros H. apply Return_inj in H as [_ <-].
    split; [| right; reflexivity].
    apply (wf_store k room); [exact Hk | | exact Hwf].
    destruct s; shape_auto. }
  destruct (type_is msg "rematchRequest").
  { destruct (ws_roomId (socket_of w ws)) as [k|];
      [| intros H; apply Return_inj in H as [_ <-]; split; [exact Hwf |];
         right; reflexivity].
    destruct (ws_side (socket_of w ws)) as [s|];
      [| intros H; apply Return_inj in H as [_ <-]; split; [exact Hwf |];
         right; reflexivity].
    destruct (w_rooms w !! k) as [room|] eqn:Hk;
      [| intros H; apply Return_inj in H as [_ <-]; split; [exact Hwf |];
         right; reflexivity].
    intros H. destruct (requestRematch_wf k room s w w' Hwf Hk H) as [Hwf' Hq].
    split; [exact Hwf' |]. right. rewrite Hq. reflexivity. }
  destruct (type_is msg "leaveRoom").
  { destruct (leaveRoom_wf ws w Hwf) as (w1 & -> & Hwf1 & Hq & _).
    intros H. apply Return_inj in H as [_ <-]. split; [exact Hwf1 |].
    right. rewrite Hq. reflexivity. }
  intros H. apply Return_inj in H as [_ <-].
  split; [apply (wf_quiet w); [apply safeSend_quiet | exact Hwf] |].
  right. rewrite w_waitingQueue_safeSend. reflexivity.
Qed.

Lemma on_close_wf (ws : wsref) (w : World) :
  wf w ->
  ∃ w', on_close ws w = Return tt w'
        ∧ wf w'
        ∧ sublist (w_waitingQueue w') (w_waitingQueue w)
        ∧ (ws ∉ w_waitingQueue w')
        ∧ ws_roomId (socket_of w' ws) = None
        ∧ w_clients w' !! ws_id (socket_of w' ws) = None.
Proof.
  intros Hwf. unfold on_close.
  pose proof (remove_first_sublist ws (w_waitingQueue w)) as Hsub.
  set (w1 := set_w_waitingQueue (remove_first ws (w_waitingQueue w)) w).
  assert (Hwf1 : wf w1).
  { eapply wf_shape; [| exact Hwf]. apply same_shape_queue. exact Hsub. }
  destruct (leaveRoom_wf ws w1 Hwf1) as (w2 & -> & Hwf2 & Hq & Hnone & _).
  eexists. split; [reflexivity |].
  split.
  { eapply wf_shape; [| exact Hwf2]. apply same_shape_fields; try reflexivity.
    - intros x. split; reflexivity.
    - intros k. apply rooms_shape_refl. }
  rewrite w_waitingQueue_set_w_clients, Hq.
  split; [exact Hsub |].
  split; [| split; [exact Hnone |
                    rewrite w_clients_set_w_clients; apply lookup_delete_eq]].
  subst w1. rewrite w_waitingQueue_set_w_waitingQueue.
  destruct Hwf as ((Hnd & _) & _). revert Hnd.
  generalize (w_waitingQueue w). intros q. induction q as [| c q IH]; simpl.
  - intros _ Hin. inversion Hin.
  - intros Hnd. apply NoDup_cons in Hnd as [Hc Hnd].
    destruct (bool_decide (c = ws)) eqn:Hcw.
    + apply bool_decide_eq_true_1 in Hcw. subst c. exact Hc.
    + apply bool_decide_eq_false_1 in Hcw. intros Hin.
      apply elem_of_cons in Hin as [-> | Hin]; [congruence |].
      exact (IH Hnd Hin).
Qed.

Lemma handle_wf (e : event) (w w' : World) :
  wf w -> event_ok e w -> handle e w = Return tt w' ->
  wf w'
  ∧ ((length (w_waitingQueue w') ≤ 1)%nat
     ∨ sublist (w_waitingQueue w') (w_waitingQueue w)).
Proof.
  intros Hwf Hok. destruct e as [| ws data | ws | ws | h | t | ws st];
    simpl handle; simpl in Hok.
  - intros H. apply Return_inj in H as [_ <-].
    destruct (on_connection_wf w Hwf) as [Hwf' Hq].
    split; [exact Hwf' |]. right. rewrite Hq. reflexivity.
  - apply on_message_wf; assumption.
  - assert (Hwf1 : wf (upd_socket ws (set_ws_readyState CLOSED) w)).
    { eapply wf_shape; [| exact Hwf]. apply same_shape_socket.
      intros s. split; reflexivity. }
    destruct (on_close_wf ws _ Hwf1) as (w1 & -> & Hwf' & Hsub & _).
    intros H. apply Return_inj in H as [_ <-]. split; [exact Hwf' |].
    right. exact Hsub.
  - unfold on_error.
    destruct (on_close_wf ws w Hwf) as (w1 & -> & Hwf' & Hsub & _).
    intros H. apply Return_inj in H as [_ <-]. split; [exact Hwf' |].
    right. exact Hsub.
  - intros H. apply Return_inj in H as [_ <-].
    destruct (on_interval_wf h w Hwf) as [Hwf' Hq].
    split; [exact Hwf' |]. right. rewrite Hq. reflexivity.
  - intros H. apply Return_inj in H as [_ <-]. split; [| right; reflexivity].
    eapply wf_shape; [| exact Hwf]. apply same_shape_fields; try reflexivity.
    + intros x. split; reflexivity.
    + intros k. apply rooms_shape_refl.
  - intros H. apply Return_inj in H as [_ <-]. split; [| right; reflexivity].
    eapply wf_shape; [| exact Hwf]. apply same_shape_socket.
    intros s. split; reflexivity.
Qed.

(** Every state the process reaches is well formed, and at most one
    session waits in it. *)
Lemma reachable_wf (w : World) :
  reachable w -> wf w ∧ (length (w_waitingQueue w) ≤ 1)%nat.
Proof.
  induction 1 as [entropy clock | w e w' _ [IH IHlen] Hok Hstep].
  - split; [| simpl; lia].
    unfold wf, queue_wf, rooms_wf, sessions_wf, timers_wf, initial, socket_of.
    simpl. split; [split; [apply NoDup_nil_2 | intros ws Hin; inversion Hin] |].
    split; [intros k room Hk; rewrite lookup_empty in Hk; discriminate |].
    split; [intros ws k Hk; rewrite lookup_empty in Hk; discriminate |].
    intros h kind k Hk. rewrite lookup_empty in Hk. discriminate.
  - destruct (handle_wf e w w' IH Hok Hstep) as [Hwf [Hlen | Hsub]].
    + split; assumption.
    + split; [exact Hwf |]. apply sublist_length in Hsub. lia.
Qed.

End WfRun.

(** ** What a run never does *)

Lemma requestRematch_throw (ws : wsref) (k : uuid) (room : Room) (s : side)
    (w w' : World) :
  wf w ->
  ws_roomId (socket_of w ws) = Some k ->
  ws_side (socket_of w ws) = Some s ->
  w_rooms w !! k = Some room ->
  requestRematch k room s w = Throw w' ->
  r_phase room = Gameover
  ∧ vote (opponentSide s) room = true
  ∧ p_ws (player (opponentSide s) room) = None.
Proof.
  intros Hwf Hroom Hside Hk.
  pose proof (wf_slot w ws k s room Hwf Hroom Hside Hk) as Hmine.
  unfold requestRematch.
  destruct (bool_decide (r_phase room ≠ Gameover)) eqn:Hph; [discriminate |].
  apply bool_decide_eq_false_1 in Hph.
  assert (Hover : r_phase room = Gameover).
  { destruct (decide (r_phase room = Gameover)) as [H | H]; [exact H |].
    contradiction. }
  set (room2 := set_vote s true room).
  assert (Hshape : room_shape room room2).
  { subst room2. destruct s; repeat split; intros []; reflexivity. }
  pose proof (wf_store k room room2 w Hk Hshape Hwf) as Hwf2.
  match goal with
  | |- (if _ then startRematch k room2 ?W else _) = _ -> _ => set (w3 := W)
  end.
  assert (Hq3 : quiet (store_room k room2 w) w3).
  { subst w3.
    destruct (p_ws (player (opponentSide s) room2)) as [o|]; [| apply quiet_refl].
    destruct (is_open _ _); [apply safeSend_quiet | apply quiet_refl]. }
  pose proof (wf_quiet _ _ Hq3 Hwf2) as Hwf3.
  assert (Hk3 : w_rooms w3 !! k = Some room2).
  { rewrite (quiet_rooms _ _ Hq3), w_rooms_store_room. apply lookup_insert_eq. }
  destruct (_ && _) eqn:Hvotes; [| discriminate].
  intros Hthrow. split; [exact Hover |].
  split.
  { subst room2. destruct s; simpl in Hvotes |- *;
      [exact Hvotes | rewrite andb_true_r in Hvotes; exact Hvotes]. }
  destruct (p_ws (player (opponentSide s) room)) as [o|] eqn:Hopp;
    [| reflexivity].
  exfalso.
  assert (Ht : ∃ a, p_ws (pl_top (r_players room2)) = Some a).
  { subst room2. destruct s; simpl in Hmine, Hopp |- *; eauto. }
  assert (Hb : ∃ b, p_ws (pl_bottom (r_players room2)) = Some b).
  { subst room2. destruct s; simpl in Hmine, Hopp |- *; eauto. }
  destruct Ht as [a Ha]. destruct Hb as [b Hb].
  destruct (startRematch_wf k room2 a b w3 Hwf3 Hk3 Ha Hb) as (w1 & Hrun & _).
  rewrite Hrun in Hthrow. discriminate.
Qed.

Section NeverFacts.

Variable ToNumber_builtin : json -> number.

Local Abbreviation on_message := (on_message ToNumber_builtin).
Local Abbreviation handle := (handle ToNumber_builtin).
Local Abbreviation reachable := (reachable ToNumber_builtin).

Lemma Number_unconvertible (x : json) :
  unconvertible x = true -> Number ToNumber_builtin (Some x) = None.
Proof.
  intros H. destruct x as [| [] | | | items | props]; try discriminate H;
    unfold Number; rewrite H; reflexivity.
Qed.

Lemma Number_throws (v : option json) :
  Number ToNumber_builtin v = None -> ∃ x, v = Some x ∧ unconvertible x = true.
Proof.
  destruct v as [x|]; [| discriminate].
  destruct x as [| [] | | | items | props]; try discriminate;
    unfold Number;
    match goal with |- context [if ?c then _ else _] => destruct c eqn:Hc end;
    try discriminate; eauto.
Qed.

Lemma paddle_unconvertible_throws (e : event) (w : World) :
  paddle_unconvertible e w -> handle e w = Throw w.
Proof.
  intros (ws & msg & k & s & room & x & -> & Htype & Hroom & Hside & Hk & Hx & Hun).
  destruct (type_is_guard msg "paddle" Htype) as [props ->].
  unfold handle, on_message.
  rewrite (type_is_unique _ "paddle" "joinQueue" Htype) by discriminate.
  rewrite (type_is_unique _ "paddle" "cancelQueue" Htype) by discriminate.
  rewrite Htype, Hroom, Hside, Hk, Hx, (Number_unconvertible x Hun).
  reflexivity.
Qed.

Lemma rematch_on_empty_slot_throws (e : event) (w : World) :
  rematch_on_empty_slot e w -> ∃ w', handle e w = Throw w'.
Proof.
  intros (ws & msg & k & s & room & -> & Htype & Hroom & Hside & Hk & Hph
          & Hvote & Hgone).
  destruct (type_is_guard msg "rematchRequest" Htype) as [props ->].
  assert (Hassoc : assoc "type" props = Some (JString "rematchRequest")).
  { unfold type_is, get_prop in Htype.
    destruct (assoc "type" props) as [[| | | t | |]|]; try discriminate Htype.
    apply bool_decide_eq_true_1 in Htype. subst t. reflexivity. }
  unfold handle.
  rewrite (rematch_message ToNumber_builtin ws props k s room w
             Hassoc Hroom Hside Hk).
  unfold requestRematch.
  rewrite bool_decide_eq_false_2 by (rewrite Hph; intros H; apply H; reflexivity).
  assert (Hboth : vote_top (r_rematchVotes (set_vote s true room))
                  && vote_bottom (r_rematchVotes (set_vote s true room)) = true).
  { destruct s; simpl in *; rewrite Hvote; reflexivity. }
  rewrite Hboth.
  unfold startRematch, makeRoom, uuidv4. cbv beta iota zeta.
  assert (Htop : p_ws (pl_top (r_players (set_vote s true room)))
                 = p_ws (pl_top (r_players room))) by (destruct s; reflexivity).
  assert (Hbot : p_ws (pl_bottom (r_players (set_vote s true room)))
                 = p_ws (pl_bottom (r_players room))) by (destruct s; reflexivity).
  rewrite Htop, Hbot.
  destruct s; simpl in Hgone; rewrite Hgone.
  - destruct (p_ws (pl_top (r_players room))); eexists; reflexivity.
  - eexists. reflexivity.
Qed.

Lemma on_message_throw (ws : wsref) (data : frame) (w w' : World) :
  wf w -> (ws < w_next_ws w)%nat ->
  on_message ws data w = Throw w' ->
  rematch_on_empty_slot (EvMessage ws data) w
  ∨ paddle_unconvertible (EvMessage ws data) w.
Proof.
  intros Hwf Hlt. unfold on_message.
  destruct data as [| msg]; [discriminate |].
  destruct msg as [| | | | items | props]; try discriminate.
  set (msg := JObject props).
  destruct (type_is msg "joinQueue").
  { cbv zeta.
    set (w1 := upd_socket ws (set_ws_name _) w).
    assert (Hwf1 : wf w1).
    { eapply wf_shape; [| exact Hwf]. apply same_shape_socket.
      intros s. split; reflexivity. }
    destruct (bool_decide (ws_roomId (socket_of w1 ws) = None)) eqn:Hfree;
      [| discriminate].
    destruct (bool_decide (ws ∉ w_waitingQueue w1)) eqn:Hnew; [| discriminate].
    apply bool_decide_eq_true_1 in Hfree, Hnew. simpl andb. cbv iota.
    set (w2 := set_w_waitingQueue (w_waitingQueue w1 ++ [ws]) w1).
    assert (Hwf2 : wf w2).
    { eapply wf_shape; [| exact Hwf1]. apply same_shape_push; assumption. }
    match goal with |- tryMatch ?W = _ -> _ => set (w3 := W) end.
    assert (Hwf3 : wf w3)
      by (apply (wf_quiet w2); [apply safeSend_quiet | exact Hwf2]).
    destruct (tryMatch_wf w3 Hwf3) as (w4 & -> & _). discriminate. }
  destruct (type_is msg "cancelQueue"); [discriminate |].
  destruct (type_is msg "paddle") eqn:Hpaddle.
  { destruct (ws_roomId (socket_of w ws)) as [k|] eqn:Hroom; [| discriminate].
    destruct (ws_side (socket_of w ws)) as [s|] eqn:Hside; [| discriminate].
    destruct (w_rooms w !! k) as [room|] eqn:Hk; [| discriminate].
    destruct (Number ToNumber_builtin (get_prop "x" msg)) as [v|] eqn:Hnum;
      [discriminate |].
    intros _. right.
    destruct (Number_throws _ Hnum) as (x & Hx & Hun).
    exists ws, msg, k, s, room, x.
    repeat (split; [first [reflexivity | assumption] |]). exact Hun. }
  destruct (type_is msg "rematchRequest") eqn:Htype.
  { destruct (ws_roomId (socket_of w ws)) as [k|] eqn:Hroom; [| discriminate].
    destruct (ws_side (socket_of w ws)) as [s|] eqn:Hside; [| discriminate].
    destruct (w_rooms w !! k) as [room|] eqn:Hk; [| discriminate].
    intros Hthrow. left.
    destruct (requestRematch_throw ws k room s w w' Hwf Hroom Hside Hk Hthrow)
      as (Hover & Hvote & Hgone).
    exists ws, msg, k, s, room. repeat (split; [first [reflexivity | assumption] |]).
    exact Hgone. }
  destruct (type_is msg "leaveRoom").
  { destruct (leaveRoom_wf ws w Hwf) as (w1 & -> & _). discriminate. }
  discriminate.
Qed.

(** X11.  In every state the process reaches, every handler returns,
    with two exceptions, which throw: a [rematchRequest] that completes
    the vote of a room a player has left, and a [paddle] message from a
    session in a registered room whose [x] is an array or an object that
    [Number] cannot convert to a primitive (an object with an own
    property [toString], such as [{"toString": null}], or an array that
    holds one).  Both throw whenever they occur, the latter before
    anything is written.  In particular the close and error handlers,
    [leaveRoom] and the matchmaking never throw. *)
Theorem handlers_return (w : World) (e : event) :
  reachable w -> event_ok e w ->
  ((∃ w', handle e w = Return tt w')
   ∨ (rematch_on_empty_slot e w ∧ ∃ w', handle e w = Throw w')
   ∨ (paddle_unconvertible e w ∧ handle e w = Throw w))
  ∧ (rematch_on_empty_slot e w -> ∃ w', handle e w = Throw w')
  ∧ (paddle_unconvertible e w -> handle e w = Throw w).
Proof.
  intros Hreach Hok.
  split; [| split; [apply rematch_on_empty_slot_throws
                   | apply paddle_unconvertible_throws]].
  destruct (reachable_wf ToNumber_builtin w Hreach) as [Hwf _].
  destruct (handle e w) as [[] w' | w'] eqn:Hrun; [left; eauto |].
  right.
  assert (Hwhy : rematch_on_empty_slot e w ∨ paddle_unconvertible e w).
  { destruct e as [| ws data | ws | ws | h | t | ws st]; simpl in Hrun, Hok;
      try discriminate.
    - eapply on_message_throw; eassumption.
    - assert (Hwf1 : wf (upd_socket ws (set_ws_readyState CLOSED) w)).
      { eapply wf_shape; [| exact Hwf]. apply same_shape_socket.
        intros s. split; reflexivity. }
      destruct (on_close_wf ws _ Hwf1) as (w1 & Hc & _).
      rewrite Hc in Hrun. discriminate.
    - unfold on_error in Hrun. destruct (on_close_wf ws w Hwf) as (w1 & Hc & _).
      rewrite Hc in Hrun. discriminate. }
  destruct Hwhy as [Hre | Hpad]; [left; split; [exact Hre | eauto] |].
  right. split; [exact Hpad |].
  rewrite <- Hrun. apply paddle_unconvertible_throws. exact Hpad.
Qed.

(** X12.  In every state the process reaches, a
    running interval is the tick or send loop of a registered room, which
    holds its handle; and every registered room is registered under its
    own id and has both its loops running.  No interval outlives its room
    and no room is left without its loops. *)
Theorem intervals_match_rooms (w : World) :
  reachable w ->
  (∀ h kind k, w_timers w !! h = Some (kind, k) ->
     ∃ room, w_rooms w !! k = Some room
             ∧ loop_of kind (r_loops room) = Some h)
  ∧ (∀ k room, w_rooms w !! k = Some room ->
       r_id room = k
       ∧ ∀ kind, ∃ h, loop_of kind (r_loops room) = Some h
                      ∧ w_timers w !! h = Some (kind, k)).
Proof.
  intros Hreach.
  destruct (reachable_wf ToNumber_builtin w Hreach) as [(_ & Hr & _ & Ht) _].
  split.
  - intros h kind k Hh. destruct (Ht h kind k Hh) as [_ H]. exact H.
  - intros k room Hk. destruct (Hr k room Hk) as (Hid & _ & _ & Hl & _).
    split; assumption.
Qed.

(** X13.  In every state the process reaches: a
    registered room still has a player; the session in a slot of a room
    carries that room's id and that side; and a session with a [roomId]
    holds the slot of its side in that room, which is registered.  So the
    branch of [leaveRoom] for a room that is not found, and the one in
    which [ws.side] is null, are never taken. *)
Theorem sessions_match_rooms (w : World) :
  reachable w ->
  (∀ k room, w_rooms w !! k = Some room ->
     (is_Some (p_ws (pl_top (r_players room)))
      ∨ is_Some (p_ws (pl_bottom (r_players room))))
     ∧ ∀ s ws, p_ws (player s room) = Some ws ->
         ws_roomId (socket_of w ws) = Some k
         ∧ ws_side (socket_of w ws) = Some s)
  ∧ (∀ ws k, ws_roomId (socket_of w ws) = Some k ->
       ∃ room s, w_rooms w !! k = Some room
                 ∧ ws_side (socket_of w ws) = Some s
                 ∧ p_ws (player s room) = Some ws).
Proof.
  intros Hreach.
  destruct (reachable_wf ToNumber_builtin w Hreach) as [(_ & Hr & Hs & _) _].
  split; [| exact Hs].
  intros k room Hk. destruct (Hr k room Hk) as (_ & _ & Hsome & _ & Hslots).
  split; [exact Hsome |]. intros s ws Hslot.
  destruct (Hslots s ws Hslot) as (_ & H). exact H.
Qed.

(** X14.  In every state the process reaches, at most one
    session waits, and a waiting session is in no room: two waiting
    sessions are always paired by the [tryMatch] that follows the second
    [joinQueue]. *)
Theorem queue_is_short (w : World) :
  reachable w ->
  (length (w_waitingQueue w) ≤ 1)%nat
  ∧ NoDup (w_waitingQueue w)
  ∧ ∀ ws, ws ∈ w_waitingQueue w -> ws_roomId (socket_of w ws) = None.
Proof.
  intros Hreach.
  destruct (reachable_wf ToNumber_builtin w Hreach) as [((Hnd & Hq) & _) Hlen].
  split; [exact Hlen |]. split; [exact Hnd |].
  intros ws Hws. destruct (Hq ws Hws) as [_ H]. exact H.
Qed.

(** X15.  In every state the process reaches, the close handler
    of a session returns, and afterwards the session waits in no queue, has
    no room, holds no slot of any room and is no longer among the
    clients. *)
Theorem close_cleans_up (w : World) (ws : wsref) :
  reachable w ->
  ∃ w', handle (EvClose ws) w = Return tt w'
        ∧ (ws ∉ w_waitingQueue w')
        ∧ ws_roomId (socket_of w' ws) = None
        ∧ (∀ k room s, w_rooms w' !! k = Some room ->
             p_ws (player s room) ≠ Some ws)
        ∧ w_clients w' !! ws_id (socket_of w' ws) = None.
Proof.
  intros Hreach. destruct (reachable_wf ToNumber_builtin w Hreach) as [Hwf _].
  assert (Hwf1 : wf (upd_socket ws (set_ws_readyState CLOSED) w)).
  { eapply wf_shape; [| exact Hwf]. apply same_shape_socket.
    intros s. split; reflexivity. }
  destruct (on_close_wf ws _ Hwf1) as (w' & Hrun & Hwf' & _ & Hq & Hnone & Hcl).
  exists w'. split; [exact Hrun |]. split; [exact Hq |]. split; [exact Hnone |].
  split; [| exact Hcl].
  intros k room s Hk Hslot. destruct Hwf' as (_ & Hr & _ & _).
  destruct (Hr k room Hk) as (_ & _ & _ & _ & Hslots).
  destruct (Hslots s ws Hslot) as (_ & Hrid & _). congruence.
Qed.

End NeverFacts.

Lemma demo_waiting_reachable : reachable no_builtin demo_waiting.
Proof.
  apply (reachable_step no_builtin demo_connected (EvMessage 0 (join "Ann")));
    [| simpl; lia | exact demo_joins_first].
  apply (reachable_step no_builtin (on_connection (initial demo_entropy 0))
           EvConnection); [| exact I | simpl; rewrite demo_connects; reflexivity].
  apply (reachable_step no_builtin (initial demo_entropy 0) EvConnection);
    [| exact I | reflexivity].
  apply reachable_initial.
Qed.

Lemma handlers_return_witness :
  handle no_builtin
    (EvMessage 0 (Parsed (JObject [("type", JString "paddle");
                                   ("x", JObject [("toString", JNull)])])))
    demo_world
  = Throw demo_world.
Proof.
  refine (proj2 (proj2 (handlers_return no_builtin demo_world _
                          demo_reachable _)) _);
    [simpl; lia |].
  exists 0%nat, (JObject [("type", JString "paddle");
                          ("x", JObject [("toString", JNull)])]),
    2%nat, BottomSide, demo_room, (JObject [("toString", JNull)]).
  repeat split; reflexivity.
Defined.

Lemma intervals_match_rooms_witness :
  ∃ room, w_rooms demo_world !! 2%nat = Some room
          ∧ loop_of SendLoop (r_loops room) = Some 1%nat.
Proof.
  destruct (intervals_match_rooms no_builtin demo_world demo_reachable) as [H _].
  apply (H 1%nat SendLoop 2%nat). reflexivity.
Defined.

Lemma sessions_match_rooms_witness :
  ∃ room s, w_rooms demo_world !! 2%nat = Some room
            ∧ ws_side (socket_of demo_world 0) = Some s
            ∧ p_ws (player s room) = Some 0%nat.
Proof.
  destruct (sessions_match_rooms no_builtin demo_world demo_reachable) as [_ H].
  apply (H 0%nat 2%nat). reflexivity.
Defined.

Lemma queue_is_short_witness :
  (length (w_waitingQueue demo_waiting) ≤ 1)%nat
  ∧ ws_roomId (socket_of demo_waiting 0) = None.
Proof.
  destruct (queue_is_short no_builtin demo_waiting demo_waiting_reachable)
    as (Hlen & _ & Hfree).
  split; [exact Hlen |]. apply Hfree. left.
Defined.

Lemma close_cleans_up_witness :
  ∃ w', handle no_builtin (EvClose 0) demo_world = Return tt w'
        ∧ ws_roomId (socket_of w' 0) = None
        ∧ ∀ k room s, w_rooms w' !! k = Some room ->
            p_ws (player s room) ≠ Some 0%nat.
Proof.
  destruct (close_cleans_up no_builtin demo_world 0 demo_reachable)
    as (w' & Hrun & _ & Hnone & Hslots & _).
  exists w'. split; [exact Hrun |]. split; [exact Hnone | exact Hslots].
Defined.

(** ** Matchmaking *)

Lemma w_outbox_upd_socket ws g w : w_outbox (upd_socket ws g w) = w_outbox w.
Proof. reflexivity. Qed.
Lemma w_outbox_store_room k r w : w_outbox (store_room k r w) = w_outbox w.
Proof. reflexivity. Qed.
Lemma w_outbox_safeSend s msg w :
  w_outbox (safeSend (Some s) msg w)
  = w_outbox w ++ (if is_open w s then [(s, msg)] else []).
Proof. rewrite safeSend_outbox. reflexivity. Qed.

#[local] Hint Rewrite w_outbox_upd_socket w_outbox_store_room w_outbox_safeSend
  : w_outbox.

(** The frames [makeRoom(a, b, true)] sends: [matchFound] to the top, then
    to the bottom, each with both names and its own side. *)
Lemma makeRoom_swap_outbox (a b : wsref) (w : World) :
  a ≠ b ->
  ∃ room w',
    makeRoom (Some a) (Some b) true w = Return room w'
    ∧ p_ws (pl_top (r_players room)) = Some a
    ∧ p_ws (pl_bottom (r_players room)) = Some b
    ∧ p_name (pl_top (r_players room)) = ws_name (socket_of w a)
    ∧ p_name (pl_bottom (r_players room)) = ws_name (socket_of w b)
    ∧ w_outbox w'
      = w_outbox w
        ++ (if is_open w a
            then [(a, MatchFound (w_uuid w) (ws_name (socket_of w a))
                        (ws_name (socket_of w b)) TopSide 3)] else [])
        ++ (if is_open w b
            then [(b, MatchFound (w_uuid w) (ws_name (socket_of w a))
                        (ws_name (socket_of w b)) BottomSide 3)] else []).
Proof.
  intros Hab.
  assert (Hba : b ≠ a) by congruence.
  unfold makeRoom, uuidv4, Math_random, startLoops.
  cbv beta iota zeta.
  eexists; eexists.
  split; [reflexivity |].
  split; [reflexivity |]. split; [reflexivity |].
  assert (Hsock : ∀ (x : wsref) W,
            W = upd_socket b (set_ws_roomId (Some (w_uuid w)))
                  (upd_socket a (set_ws_roomId (Some (w_uuid w)))
                     (upd_socket b (set_ws_side (Some BottomSide))
                        (upd_socket a (set_ws_side (Some TopSide))
                           (set_w_uuid (S (w_uuid w)) w)))) ->
            ws_name (socket_of W x) = ws_name (socket_of w x)
            ∧ ws_readyState (socket_of W x) = ws_readyState (socket_of w x)).
  { intros x W ->. rewrite !socket_of_upd_socket.
    repeat match goal with
    | |- context [decide (?p = ?q)] => destruct (decide (p = q))
    end; subst; autorewrite with socket_of; split; reflexivity. }
  unfold newRoom. cbn [p_name pl_top pl_bottom r_players set_r_loops].
  autorewrite with socket_of.
  rewrite !(proj1 (Hsock _ _ eq_refl)).
  split; [reflexivity |]. split; [reflexivity |].
  autorewrite with w_outbox.
  unfold is_open. autorewrite with socket_of.
  rewrite !(proj2 (Hsock _ _ eq_refl)).
  rewrite <- app_assoc. reflexivity.
Qed.

(** The same with the sides drawn or given. *)
Lemma makeRoom_outbox (a b : wsref) (swapSides : bool) (w : World) :
  a ≠ b ->
  ∃ room w' top bottom,
    makeRoom (Some a) (Some b) swapSides w = Return room w'
    ∧ p_ws (pl_top (r_players room)) = Some top
    ∧ p_ws (pl_bottom (r_players room)) = Some bottom
    ∧ p_name (pl_top (r_players room)) = ws_name (socket_of w top)
    ∧ p_name (pl_bottom (r_players room)) = ws_name (socket_of w bottom)
    ∧ w_outbox w'
      = w_outbox w
        ++ (if is_open w top
            then [(top, MatchFound (w_uuid w) (ws_name (socket_of w top))
                          (ws_name (socket_of w bottom)) TopSide 3)] else [])
        ++ (if is_open w bottom
            then [(bottom, MatchFound (w_uuid w) (ws_name (socket_of w top))
                             (ws_name (socket_of w bottom)) BottomSide 3)]
            else []).
Proof.
  intros Hab. destruct swapSides.
  - destruct (makeRoom_swap_outbox a b w Hab) as (room & w' & H).
    exists room, w', a, b. exact H.
  - rewrite makeRoom_draw. destruct (_ <? _)%js.
    + destruct (makeRoom_swap_outbox a b (set_w_draws (S (w_draws w)) w) Hab)
        as (room & w' & H).
      exists room, w', a, b. exact H.
    + destruct (makeRoom_swap_outbox b a (set_w_draws (S (w_draws w)) w)
                  (not_eq_sym Hab)) as (room & w' & H).
      exists room, w', b, a. exact H.
Qed.

Lemma filter_pair {A : Type} (P : A -> Prop) `{∀ x, Decision (P x)} (x y : A) :
  P x -> P y -> filter P [x; y] = [x; y].
Proof.
  intros Hx Hy. rewrite filter_cons_True by exact Hx.
  rewrite filter_cons_True by exact Hy. reflexivity.
Qed.

Section MatchFacts.

Variable ToNumber_builtin : json -> number.

Local Abbreviation on_message := (on_message ToNumber_builtin).
Local Abbreviation reachable := (reachable ToNumber_builtin).

Lemma type_is_other (msg : json) (t t' : string) :
  type_is msg t = true -> t ≠ t' -> type_is msg t' = false.
Proof.
  unfold type_is. destruct (get_prop "type" msg) as [[| | | s | |]|];
    try discriminate.
  intros Ht Hne. apply bool_decide_eq_true_1 in Ht. subst s.
  apply bool_decide_eq_false_2. exact Hne.
Qed.

(** X16.  In a state the process reaches in which one open
    session [a] waits, an open session [ws] without room joins the queue:
    it is told [finding] with queue size 2; a room is made under a fresh
    id, in [countdown] with three hearts each, with [a] and [ws] in its
    two slots (which one is on top is drawn); both sessions carry the
    room id and their side; each is sent [matchFound] with the two names
    and its own side, the top first; and nobody waits any more. *)
Theorem second_join_matches (w : World) (ws a : wsref) (msg : json) :
  reachable w ->
  type_is msg "joinQueue" = true ->
  w_waitingQueue w = [a] ->
  a ≠ ws ->
  is_open w a = true ->
  is_open w ws = true ->
  ws_roomId (socket_of w ws) = None ->
  ∃ w' room top bottom,
    on_message ws (Parsed msg) w = Return tt w'
    ∧ ((top = a ∧ bottom = ws) ∨ (top = ws ∧ bottom = a))
    ∧ w_waitingQueue w' = []
    ∧ w_rooms w' = <[w_uuid w := room]> (w_rooms w)
    ∧ r_id room = w_uuid w
    ∧ r_phase room = Countdown
    ∧ hearts_of room = mkHearts HEARTS_START HEARTS_START
    ∧ p_ws (pl_top (r_players room)) = Some top
    ∧ p_ws (pl_bottom (r_players room)) = Some bottom
    ∧ ws_roomId (socket_of w' top) = Some (w_uuid w)
    ∧ ws_side (socket_of w' top) = Some TopSide
    ∧ ws_roomId (socket_of w' bottom) = Some (w_uuid w)
    ∧ ws_side (socket_of w' bottom) = Some BottomSide
    ∧ p_name (player (if decide (top = ws) then TopSide else BottomSide) room)
      = sanitizeName (get_prop "name" msg)
    ∧ w_outbox w'
      = w_outbox w
        ++ [(ws, Finding 2);
            (top, MatchFound (w_uuid w) (p_name (pl_top (r_players room)))
                    (p_name (pl_bottom (r_players room))) TopSide 3);
            (bottom, MatchFound (w_uuid w) (p_name (pl_top (r_players room)))
                       (p_name (pl_bottom (r_players room))) BottomSide 3)].
Proof.
  intros Hreach Htype Hqueue Hne Hoa Hows Hfree.
  destruct (reachable_wf ToNumber_builtin w Hreach) as [Hwf _].
  pose proof Hwf as ((_ & Hq) & _).
  destruct (Hq a ltac:(rewrite Hqueue; left)) as [Halt Hafree].
  destruct (type_is_guard msg _ Htype) as [props ->].
  unfold on_message. rewrite Htype. cbv zeta.
  set (name := sanitizeName (get_prop "name" (JObject props))).
  set (w1 := upd_socket ws (set_ws_name name) w).
  assert (Hs1 : ∀ x, x ≠ ws -> socket_of w1 x = socket_of w x).
  { intros x Hx. subst w1. apply socket_of_upd_socket_ne. congruence. }
  assert (Hs1' : socket_of w1 ws = set_ws_name name (socket_of w ws)).
  { subst w1. apply socket_of_upd_socket_eq. }
  rewrite bool_decide_eq_true_2 by (rewrite Hs1'; exact Hfree).
  rewrite bool_decide_eq_true_2
    by (change (w_waitingQueue w1) with (w_waitingQueue w); rewrite Hqueue;
        intros Hin; apply list_elem_of_singleton in Hin; congruence).
  simpl andb. cbv iota.
  change (w_waitingQueue w1) with (w_waitingQueue w). rewrite Hqueue.
  simpl app. simpl length.
  set (w2 := set_w_waitingQueue [a; ws] w1).
  set (w3 := safeSend (Some ws) (Finding 2) w2).
  assert (Hs3 : ∀ x, socket_of w3 x = socket_of w1 x).
  { intros x. subst w3 w2. autorewrite with socket_of. reflexivity. }
  assert (Hopen3 : is_open w3 a = true ∧ is_open w3 ws = true).
  { unfold is_open in *. rewrite !Hs3, Hs1', (Hs1 a Hne). split; assumption. }
  destruct Hopen3 as [Hoa3 Hows3].
  assert (Hfree3 : ws_roomId (socket_of w3 a) = None
                   ∧ ws_roomId (socket_of w3 ws) = None).
  { rewrite !Hs3, Hs1', (Hs1 a Hne). split; assumption. }
  destruct Hfree3 as [Hfa3 Hfw3].
  assert (Hq3 : w_waitingQueue w3 = [a; ws]).
  { subst w3 w2. rewrite w_waitingQueue_safeSend.
    apply w_waitingQueue_set_w_waitingQueue. }
  assert (Hout3 : w_outbox w3 = w_outbox w ++ [(ws, Finding 2)]).
  { subst w3. rewrite w_outbox_safeSend.
    assert (Ho2 : is_open w2 ws = true).
    { unfold is_open in *. subst w2. autorewrite with socket_of.
      rewrite Hs1'. exact Hows. }
    rewrite Ho2. reflexivity. }
  unfold tryMatch.
  set (w4 := tryMatch_filter w3).
  assert (Hq4 : w_waitingQueue w4 = [a; ws]).
  { subst w4. unfold tryMatch_filter.
    rewrite w_waitingQueue_set_w_waitingQueue, Hq3.
    apply (filter_pair (fun c => is_open w3 c = true
                                 ∧ ws_roomId (socket_of w3 c) = None));
      split; assumption. }
  rewrite Hq4. simpl tryMatch_pairs.
  set (w5 := set_w_waitingQueue [] w4).
  assert (Hs5 : ∀ x, socket_of w5 x = socket_of w3 x) by reflexivity.
  assert (Ho5 : is_open w5 a = true ∧ is_open w5 ws = true).
  { unfold is_open in *. rewrite !Hs5. split; assumption. }
  destruct Ho5 as [Hoa5 Hows5]. rewrite Hoa5, Hows5. simpl negb. simpl orb.
  cbv iota.
  destruct (makeRoom_fields a ws false w5 Hne)
    as (room & w6 & top & bottom & Hrun & Hcase & _ & Hid & _ & Hpt & Hpb
        & Hrooms & _ & Hq6 & _ & _ & _ & Htr & Hts & Hbr & Hbs & _).
  destruct (makeRoom_outbox a ws false w5 Hne)
    as (room' & w6' & top' & bottom' & Hrun' & Hpt' & Hpb' & Hnt & Hnb & Hout).
  rewrite Hrun in Hrun'. apply Return_inj in Hrun' as [<- <-].
  assert (top' = top) by congruence. assert (bottom' = bottom) by congruence.
  subst top' bottom'. clear Hpt' Hpb'.
  destruct (makeRoom_inv _ _ _ _ _ _ Hrun) as (Hh & Hph & _ & _).
  rewrite Hrun.
  assert (Hr5 : w_rooms w5 = w_rooms w).
  { subst w5 w4 w3 w2 w1. unfold tryMatch_filter. autorewrite with w_rooms.
    reflexivity. }
  assert (Hu5 : w_uuid w5 = w_uuid w).
  { subst w5 w4 w3 w2 w1. unfold tryMatch_filter. autorewrite with w_uuid.
    reflexivity. }
  assert (Hq5 : w_waitingQueue w5 = []) by reflexivity.
  rewrite Hu5 in *. rewrite Hr5 in Hrooms. rewrite Hq5 in Hq6.
  exists w6, room, top, bottom. split; [reflexivity |].
  split; [exact Hcase |]. split; [exact Hq6 |].
  split; [exact Hrooms |]. split; [exact Hid |]. split; [exact Hph |].
  split; [exact Hh |]. split; [exact Hpt |]. split; [exact Hpb |].
  split; [exact Htr |]. split; [exact Hts |]. split; [exact Hbr |].
  split; [exact Hbs |].
  assert (Hot : is_open w5 top = true ∧ is_open w5 bottom = true).
  { destruct Hcase as [[-> ->] | [-> ->]]; split; assumption. }
  destruct Hot as [Hot Hob]. rewrite Hot, Hob in Hout.
  split.
  - destruct Hcase as [[-> ->] | [-> ->]].
    + rewrite decide_False by exact Hne. simpl. rewrite Hnb.
      rewrite Hs5, Hs3, Hs1'. reflexivity.
    + rewrite decide_True by reflexivity. simpl. rewrite Hnt.
      rewrite Hs5, Hs3, Hs1'. reflexivity.
  - rewrite Hout. rewrite Hnt, Hnb.
    change (w_outbox w5) with (w_outbox w3). rewrite Hout3.
    rewrite <- app_assoc. reflexivity.
Qed.

End MatchFacts.

Lemma second_join_matches_witness :
  ∃ w' room,
    on_message no_builtin 1 (join "Bob") demo_waiting = Return tt w'
    ∧ w_waitingQueue w' = []
    ∧ w_rooms w' = <[2%nat := room]> (w_rooms demo_waiting)
    ∧ r_phase room = Countdown.
Proof.
  destruct (second_join_matches no_builtin demo_waiting 1 0
              (JObject [("type", JString "joinQueue"); ("name", JString "Bob")])
              demo_waiting_reachable)
    as (w' & room & top & bottom & Hrun & _ & Hq & Hrooms & _ & Hph & _);
    [reflexivity | reflexivity | lia | reflexivity | reflexivity
    | reflexivity |].
  exists w', room. split; [exact Hrun |]. split; [exact Hq |].
  split; [exact Hrooms | exact Hph].
Defined.

(** ** The queue messages *)

Lemma remove_first_NoDup (ws : wsref) (q : list wsref) :
  NoDup q -> ws ∉ remove_first ws q.
Proof.
  induction q as [| c q IH]; simpl.
  - intros _ Hin. inversion Hin.
  - intros Hnd. apply NoDup_cons in Hnd as [Hc Hnd].
    destruct (bool_decide (c = ws)) eqn:Hcw.
    + apply bool_decide_eq_true_1 in Hcw. subst c. exact Hc.
    + apply bool_decide_eq_false_1 in Hcw. intros Hin.
      apply elem_of_cons in Hin as [-> | Hin]; [congruence |].
      exact (IH Hnd Hin).
Qed.

Lemma remove_first_other (ws x : wsref) (q : list wsref) :
  x ≠ ws -> x ∈ remove_first ws q ↔ x ∈ q.
Proof.
  intros Hx. induction q as [| c q IH]; simpl; [reflexivity |].
  destruct (bool_decide (c = ws)) eqn:Hcw.
  - apply bool_decide_eq_true_1 in Hcw. subst c. rewrite elem_of_cons.
    split; [auto | intros [-> | H]; [contradiction | exact H]].
  - rewrite !elem_of_cons, IH. reflexivity.
Qed.

Section QueueFacts.

Variable ToNumber_builtin : json -> number.

Local Abbreviation on_message := (on_message ToNumber_builtin).
Local Abbreviation reachable := (reachable ToNumber_builtin).

(** X17.  In every state the process reaches, a
    [cancelQueue] message takes the session out of the queue (removing its
    first entry is enough, there is no second one), leaves every other
    waiting session in place, answers [queueCancelled] when the socket is
    open, whether or not the session was waiting, and touches no room, no
    interval and no session. *)
Theorem cancel_leaves_queue (w : World) (ws : wsref) (msg : json) :
  reachable w ->
  type_is msg "cancelQueue" = true ->
  ∃ w', on_message ws (Parsed msg) w = Return tt w'
        ∧ (ws ∉ w_waitingQueue w')
        ∧ (∀ x, x ≠ ws -> x ∈ w_waitingQueue w' ↔ x ∈ w_waitingQueue w)
        ∧ w_outbox w'
          = w_outbox w ++ (if is_open w ws then [(ws, QueueCancelled)] else [])
        ∧ w_rooms w' = w_rooms w
        ∧ w_timers w' = w_timers w
        ∧ w_sockets w' = w_sockets w.
Proof.
  intros Hreach Htype.
  destruct (reachable_wf ToNumber_builtin w Hreach) as [((Hnd & _) & _) _].
  destruct (type_is_guard msg _ Htype) as [props ->].
  unfold on_message.
  rewrite (type_is_other _ _ "joinQueue" Htype) by discriminate.
  rewrite Htype. cbv zeta.
  eexists. split; [reflexivity |].
  rewrite w_waitingQueue_safeSend, w_waitingQueue_set_w_waitingQueue.
  split; [apply remove_first_NoDup; exact Hnd |].
  split; [intros x Hx; apply remove_first_other; exact Hx |].
  rewrite safeSend_outbox. repeat split; reflexivity.
Qed.

(** X18.  A [joinQueue] message from a session that waits
    already, or that is in a room, changes the session's name and nothing
    else: the queue, the rooms and the intervals are as they were and
    nothing is sent, not even [finding]. *)
Theorem join_again_is_ignored (w : World) (ws : wsref) (msg : json) :
  type_is msg "joinQueue" = true ->
  ws ∈ w_waitingQueue w ∨ ws_roomId (socket_of w ws) ≠ None ->
  ∃ w', on_message ws (Parsed msg) w = Return tt w'
        ∧ ws_name (socket_of w' ws) = sanitizeName (get_prop "name" msg)
        ∧ w_waitingQueue w' = w_waitingQueue w
        ∧ w_outbox w' = w_outbox w
        ∧ w_rooms w' = w_rooms w
        ∧ w_timers w' = w_timers w
        ∧ ws_roomId (socket_of w' ws) = ws_roomId (socket_of w ws).
Proof.
  intros Htype Hcase.
  destruct (type_is_guard msg _ Htype) as [props ->].
  unfold on_message. rewrite Htype. cbv zeta.
  set (w1 := upd_socket ws (set_ws_name _) w).
  assert (Hs1 : socket_of w1 ws
                = set_ws_name (sanitizeName (get_prop "name" (JObject props)))
                    (socket_of w ws)).
  { subst w1. apply socket_of_upd_socket_eq. }
  assert (Hguard : bool_decide (ws_roomId (socket_of w1 ws) = None)
                   && bool_decide (ws ∉ w_waitingQueue w1) = false).
  { apply andb_false_iff. destruct Hcase as [Hin | Hroom].
    - right. apply bool_decide_eq_false_2. intros Hout. apply Hout. exact Hin.
    - left. apply bool_decide_eq_false_2. rewrite Hs1. exact Hroom. }
  rewrite Hguard. exists w1. split; [reflexivity |].
  rewrite Hs1. repeat split; reflexivity.
Qed.

(** X19.  A [paddle] message whose [x] is not a number, from a session
    in a registered room: when [x] is missing, [Number(undefined)] is NaN
    and [clamp] lets it through, so the room registered under the
    session's [roomId] then has NaN as the paddle position of the
    session's side; when [x] is [null] or a boolean that position is 0 or
    1.  The other position and every other field of the room are as
    before. *)
Theorem paddle_without_number (ws : wsref) (props : list (string * json))
    (k : uuid) (s : side) (room : Room) (w : World) :
  assoc "type" props = Some (JString "paddle") ->
  ws_roomId (socket_of w ws) = Some k ->
  ws_side (socket_of w ws) = Some s ->
  w_rooms w !! k = Some room ->
  (assoc "x" props = None ->
   on_message ws (Parsed (JObject props)) w
   = Return tt (store_room k (set_paddle s NaN room) w)
   ∧ ∃ room', w_rooms (store_room k (set_paddle s NaN room) w) !! k
              = Some room'
              ∧ paddle_written s NaN room room')
  ∧ (assoc "x" props = Some JNull ->
     on_message ws (Parsed (JObject props)) w
     = Return tt (store_room k (set_paddle s (Finite 0) room) w)
     ∧ ∃ room', w_rooms (store_room k (set_paddle s (Finite 0) room) w) !! k
                = Some room'
                ∧ paddle_written s (Finite 0) room room')
  ∧ (∀ b, assoc "x" props = Some (JBool b) ->
     on_message ws (Parsed (JObject props)) w
     = Return tt (store_room k
                    (set_paddle s (Finite (if b then 1 else 0)) room) w)
     ∧ ∃ room',
         w_rooms (store_room k
                    (set_paddle s (Finite (if b then 1 else 0)) room) w) !! k
         = Some room'
         ∧ paddle_written s (Finite (if b then 1 else 0)) room room').
Proof.
  intros Htype Hroom Hside Hk.
  assert (Hrun : ∀ v, Number ToNumber_builtin (assoc "x" props) = Some v ->
                 on_message ws (Parsed (JObject props)) w
                 = Return tt
                     (store_room k
                        (set_paddle s (clamp v (Finite 0) (Finite 1)) room) w)).
  { intros v Hv. unfold on_message.
    rewrite !(type_is_object props "paddle") by exact Htype.
    rewrite !bool_decide_eq_false_2 by discriminate.
    rewrite bool_decide_eq_true_2 by reflexivity.
    rewrite Hroom, Hside, Hk. unfold get_prop. rewrite Hv. reflexivity. }
  assert (Hput : ∀ v, ∃ room', w_rooms (store_room k (set_paddle s v room) w) !! k
                               = Some room'
                               ∧ paddle_written s v room room').
  { intros v. exists (set_paddle s v room). split.
    - rewrite w_rooms_store_room. apply lookup_insert_eq.
    - destruct s; repeat split; reflexivity. }
  assert (H0 : clamp (Finite 0) (Finite 0) (Finite 1) = Finite 0).
  { rewrite clamp_finite. f_equal. unfold Rmax, Rmin.
    repeat destruct (Rle_dec _ _); lra. }
  assert (H1 : clamp (Finite 1) (Finite 0) (Finite 1) = Finite 1).
  { rewrite clamp_finite. f_equal. unfold Rmax, Rmin.
    repeat destruct (Rle_dec _ _); lra. }
  split; [| split].
  - intros Hx. split; [| apply Hput].
    rewrite (Hrun NaN) by (rewrite Hx; reflexivity). reflexivity.
  - intros Hx. split; [| apply Hput].
    rewrite (Hrun (Finite 0)) by (rewrite Hx; reflexivity).
    rewrite H0. reflexivity.
  - intros b Hx. split; [| apply Hput].
    rewrite (Hrun (Finite (if b then 1 else 0)))
      by (rewrite Hx; destruct b; reflexivity).
    destruct b; rewrite ?H0, ?H1; reflexivity.
Qed.

End QueueFacts.

(** ** More on the physics step *)

Lemma lt_asym (a b : number) : (a <? b)%js = true -> (b <? a)%js = false.
Proof.
  unfold JS.lt. destruct a as [| | | x], b as [| | | y]; try discriminate;
    try reflexivity.
  destruct (Rlt_dec x y), (Rlt_dec y x); try discriminate; try reflexivity.
  lra.
Qed.

(** X20.  While the paddle position of a side is NaN, a ball
    that moves towards that side is never sent back: the step ends in a
    miss or in nothing, for every position of the ball. *)
Theorem nan_paddle_never_hits (room : Room) (s : side) (dt : number) (w : World) :
  match s with
  | TopSide => topX (r_paddles room) = NaN
               ∧ (b_vy (r_ball room) <? Finite 0)%js = true
  | BottomSide => bottomX (r_paddles room) = NaN
                  ∧ (b_vy (r_ball room) >? Finite 0)%js = true
  end ->
  let rr := set_r_ball (after_walls room dt) room in
  integrate room dt w = onScore rr TopSide w
  ∨ integrate room dt w = onScore rr BottomSide w
  ∨ integrate room dt w = (rr, w).
Proof.
  intros Hcase rr. subst rr.
  assert (Hvy : b_vy (after_walls room dt) = b_vy (r_ball room)).
  { unfold after_walls. cbv zeta.
    repeat match goal with
    | |- context [if ?c then _ else _] => destruct c
    end; reflexivity. }
  assert (Hnan : ∀ X Y W, (X >=? NaN * W - Y)%js = false) by reflexivity.
  unfold integrate. fold (after_walls room dt).
  cbn [r_paddles set_r_ball r_params]. rewrite Hvy.
  destruct s; destruct Hcase as [Hp Hdir].
  - rewrite Hp.
    match goal with
    | |- context [if ?c then (paddleBounce _ TopSide _, _) else _] =>
        replace c with false
          by (symmetry; rewrite Hnan; simpl andb; apply andb_false_r)
    end.
    match goal with
    | |- context [if ?c then (paddleBounce _ BottomSide _, _) else _] =>
        replace c with false
          by (symmetry; unfold JS.gt; rewrite (lt_asym _ _ Hdir); reflexivity)
    end.
    clear Hdir.
    destruct (_ <? _)%js; [left; reflexivity |].
    destruct (_ >? _)%js; [right; left; reflexivity | right; right; reflexivity].
  - rewrite Hp.
    match goal with
    | |- context [if ?c then (paddleBounce _ TopSide _, _) else _] =>
        replace c with false
          by (symmetry; unfold JS.gt in Hdir; rewrite (lt_asym _ _ Hdir);
              reflexivity)
    end.
    match goal with
    | |- context [if ?c then (paddleBounce _ BottomSide _, _) else _] =>
        replace c with false
          by (symmetry; rewrite Hnan; simpl andb; apply andb_false_r)
    end.
    clear Hdir.
    destruct (_ <? _)%js; [left; reflexivity |].
    destruct (_ >? _)%js; [right; left; reflexivity | right; right; reflexivity].
Qed.

(** X21.  A tick of a room in play, later than the last
    one, integrates over the time since then, in seconds, capped at
    [MAX_DT] = 0.05 s however late the interval fires. *)
Theorem tick_caps_dt (room : Room) (w : World) :
  r_phase room = Playing ->
  r_lastTickAt room < nowMs w ->
  tick room w
  = integrate (set_r_lastTickAt (nowMs w) room)
      (Finite (Rmin (IZR (nowMs w - r_lastTickAt room) / 1000) 0.05)) w.
Proof.
  intros Hph Hlate. unfold tick. cbv zeta.
  unfold of_Z, MAX_DT. rewrite div_finite by lra.
  assert (Hpos : (0 < IZR (nowMs w - r_lastTickAt room) / 1000)%R).
  { apply Rdiv_lt_0_compat; [| lra]. apply IZR_lt. lia. }
  rewrite le_finite_false by exact Hpos.
  assert (Hplay : bool_decide (r_phase (set_r_lastTickAt (nowMs w) room) ≠ Playing)
                  = false).
  { apply bool_decide_eq_false_2. intros H. apply H. exact Hph. }
  rewrite Hplay.
  unfold JS.gt, JS.lt, Rmin.
  destruct (Rlt_dec 0.05 _) as [Hgt | Hle];
    destruct (Rle_dec _ 0.05) as [Hle' | Hgt']; try reflexivity; try lra.
Qed.

Lemma cancel_leaves_queue_witness :
  ∃ w', on_message no_builtin 0
          (Parsed (JObject [("type", JString "cancelQueue")])) demo_waiting
        = Return tt w'
        ∧ (0%nat ∉ w_waitingQueue w')
        ∧ w_outbox w' = w_outbox demo_waiting ++ [(0%nat, QueueCancelled)].
Proof.
  destruct (cancel_leaves_queue no_builtin demo_waiting 0
              (JObject [("type", JString "cancelQueue")])
              demo_waiting_reachable eq_refl)
    as (w' & Hrun & Hout & _ & Hbox & _).
  exists w'. split; [exact Hrun |]. split; [exact Hout | exact Hbox].
Defined.

Lemma join_again_is_ignored_witness :
  ∃ w', on_message no_builtin 0 (join "Zed") demo_world = Return tt w'
        ∧ ws_name (socket_of w' 0) = "Zed"
        ∧ w_outbox w' = w_outbox demo_world
        ∧ w_rooms w' = w_rooms demo_world.
Proof.
  destruct (join_again_is_ignored no_builtin demo_world 0
              (JObject [("type", JString "joinQueue"); ("name", JString "Zed")])
              eq_refl)
    as (w' & Hrun & Hname & _ & Hbox & Hrooms & _).
  { right. discriminate. }
  exists w'. split; [exact Hrun |]. split; [exact Hname |].
  split; [exact Hbox | exact Hrooms].
Defined.

Lemma paddle_without_number_witness :
  ∃ w' room',
    on_message no_builtin 0 (Parsed (JObject [("type", JString "paddle")]))
      demo_world
    = Return tt w'
    ∧ w_rooms w' !! 2%nat = Some room'
    ∧ bottomX (r_paddles room') = NaN
    ∧ topX (r_paddles room') = Finite 0.5.
Proof.
  destruct (paddle_without_number no_builtin 0 [("type", JString "paddle")] 2
              BottomSide demo_room demo_world eq_refl eq_refl eq_refl eq_refl)
    as (H & _).
  destruct (H eq_refl) as (Hrun & room' & Hk & (Hmine & Hother) & _).
  exists (store_room 2 (set_paddle BottomSide NaN demo_room) demo_world), room'.
  split; [exact Hrun |]. split; [exact Hk |].
  split; [exact Hmine | exact Hother].
Defined.

Lemma nan_paddle_never_hits_witness :
  let room := set_paddle BottomSide NaN demo_bounce_room in
  let rr := set_r_ball (after_walls room (Finite 0.05)) room in
  integrate room (Finite 0.05) demo_world = onScore rr TopSide demo_world
  ∨ integrate room (Finite 0.05) demo_world = onScore rr BottomSide demo_world
  ∨ integrate room (Finite 0.05) demo_world = (rr, demo_world).
Proof.
  apply (nan_paddle_never_hits (set_paddle BottomSide NaN demo_bounce_room)
           BottomSide (Finite 0.05) demo_world).
  split; [reflexivity |]. simpl. unfold JS.gt. apply lt_finite_true. lra.
Defined.

Lemma tick_caps_dt_witness :
  tick demo_room (set_w_clock 9000 demo_world)
  = integrate (set_r_lastTickAt 9000 demo_room)
      (Finite (Rmin (IZR (9000 - 3016) / 1000) 0.05))
      (set_w_clock 9000 demo_world).
Proof.
  apply (tick_caps_dt demo_room (set_w_clock 9000 demo_world)).
  - reflexivity.
  - unfold nowMs. simpl. lia.
Defined.

(** * Properties of every room along a run *)

Lemma makeRoom_room (a b : option wsref) (swapSides : bool) (w w' : World)
    (room : Room) :
  makeRoom a b swapSides w = Return room w' ->
  ∃ id top bottom srv w0 l,
    room = set_r_loops l (newRoom id top bottom srv w0).
Proof.
  unfold makeRoom, uuidv4, Math_random, startLoops.
  destruct swapSides; [| destruct (_ <? _)%js];
    (destruct a as [a|]; [| destruct b; discriminate]);
    (destruct b as [b|]; [| discriminate]);
    cbv beta iota zeta;
    intros H; apply Return_inj in H as [<- _];
    do 6 eexists; reflexivity.
Qed.

Section RoomInvariant.

(** A property of rooms that reads the dimensions, the paddles, the ball
    and the phase only, holds of a new room, and is kept by [tick] and by
    a paddle message. *)
Variable P : Room -> Prop.

Hypothesis P_same :
  ∀ r r', r_params r' = r_params r -> r_paddles r' = r_paddles r ->
          r_ball r' = r_ball r -> r_phase r' = r_phase r -> P r -> P r'.
Hypothesis P_new : ∀ id top bottom srv w, P (newRoom id top bottom srv w).
Hypothesis P_tick : ∀ r w, P r -> P (tick r w).1.
Hypothesis P_paddle :
  ∀ r s v, P r -> P (set_paddle s (clamp v (Finite 0) (Finite 1)) r).

Lemma all_rooms_eq (w w' : World) :
  w_rooms w' = w_rooms w -> rooms_all P w -> rooms_all P w'.
Proof. unfold rooms_all. intros ->. trivial. Qed.

Lemma all_store (k : uuid) (r : Room) (w : World) :
  P r -> rooms_all P w -> rooms_all P (store_room k r w).
Proof.
  intros Hr Hw. unfold rooms_all. rewrite w_rooms_store_room.
  apply map_Forall_insert_2; assumption.
Qed.

Lemma all_destroy (k : uuid) (w : World) :
  rooms_all P w -> rooms_all P (destroyRoom k w).
Proof. unfold rooms_all. rewrite destroyRoom_rooms. apply map_Forall_delete. Qed.

Lemma all_lookup (w : World) (k : uuid) (r : Room) :
  rooms_all P w -> w_rooms w !! k = Some r -> P r.
Proof. intros Hw Hk. exact (Hw k r Hk). Qed.

Lemma makeRoom_all (a b : option wsref) (swapSides : bool) (w w' : World)
    (room : Room) :
  makeRoom a b swapSides w = Return room w' ->
  rooms_all P w -> rooms_all P w' ∧ P room.
Proof.
  intros H Hw. destruct (makeRoom_inv _ _ _ _ _ _ H) as (_ & _ & _ & Hr).
  destruct (makeRoom_room _ _ _ _ _ _ H)
    as (id & top & bottom & srv & w0 & l & ->).
  assert (Hroom : P (set_r_loops l (newRoom id top bottom srv w0))).
  { eapply P_same; [| | | | apply (P_new id top bottom srv w0)]; reflexivity. }
  split; [| exact Hroom].
  unfold rooms_all. rewrite Hr. apply map_Forall_insert_2; assumption.
Qed.

Lemma tryMatch_pairs_all_aux (n : nat) :
  ∀ q, (length q ≤ n)%nat ->
  ∀ w w', tryMatch_pairs q w = Return tt w' -> rooms_all P w -> rooms_all P w'.
Proof.
  induction n as [| n IH]; intros q Hlen w w'.
  - destruct q; [| simpl in Hlen; lia]. simpl.
    intros H Hw. apply Return_inj in H as [_ <-]. exact Hw.
  - destruct q as [| a [| b q']]; simpl.
    + intros H Hw. apply Return_inj in H as [_ <-]. exact Hw.
    + intros H Hw. apply Return_inj in H as [_ <-]. exact Hw.
    + simpl in Hlen. destruct (negb _ || negb _).
      * intros H Hw. eapply (IH q'); [lia | exact H |].
        eapply all_rooms_eq; [| exact Hw]. reflexivity.
      * destruct (makeRoom _ _ _ _) as [room w1 | w1] eqn:Hmk; [| discriminate].
        intros H Hw. eapply (IH q'); [lia | exact H |].
        eapply makeRoom_all; [exact Hmk |].
        eapply all_rooms_eq; [| exact Hw]. reflexivity.
Qed.

Lemma tryMatch_all (w w' : World) :
  tryMatch w = Return tt w' -> rooms_all P w -> rooms_all P w'.
Proof.
  unfold tryMatch. intros H Hw.
  eapply (tryMatch_pairs_all_aux _ _ (le_n _)); [exact H |].
  eapply all_rooms_eq; [| exact Hw]. reflexivity.
Qed.

Lemma startRematch_all (k : uuid) (oldRoom : Room) (w w' : World) :
  startRematch k oldRoom w = Return tt w' ->
  P oldRoom -> rooms_all P w -> rooms_all P w'.
Proof.
  unfold startRematch. intros H Hold Hw.
  destruct (makeRoom _ _ _ _) as [newRoom w1 | w1] eqn:Hmk; [| discriminate].
  apply Return_inj in H as [_ <-].
  destruct (makeRoom_inv _ _ _ _ _ _ Hmk) as (_ & Hph & _ & _).
  apply makeRoom_all in Hmk as [Hw1 Hnew].
  - apply all_destroy.
    eapply all_rooms_eq; [apply w_rooms_broadcastEvent |].
    apply all_store; [| exact Hw1].
    eapply P_same; [| | | | exact Hnew]; try reflexivity.
    symmetry. exact Hph.
  - apply all_store; [| exact Hw].
    eapply P_same; [| | | | exact Hold]; reflexivity.
Qed.

Lemma requestRematch_all (k : uuid) (room : Room) (s : side) (w w' : World) :
  requestRematch k room s w = Return tt w' ->
  P room -> rooms_all P w -> rooms_all P w'.
Proof.
  unfold requestRematch. intros H Hroom Hw.
  destruct (bool_decide (r_phase room ≠ Gameover)).
  { apply Return_inj in H as [_ <-]. exact Hw. }
  assert (Hvote : P (set_vote s true room)).
  { eapply P_same; [| | | | exact Hroom]; destruct s; reflexivity. }
  match type of H with
  | (if _ then startRematch _ _ ?w1 else _) = _ =>
      assert (Hw1 : rooms_all P w1)
  end.
  { destruct (p_ws (player (opponentSide s) (set_vote s true room))) as [ows|].
    - destruct (is_open _ _).
      + eapply all_rooms_eq; [apply w_rooms_safeSend |].
        apply all_store; assumption.
      + apply all_store; assumption.
    - apply all_store; assumption. }
  destruct (_ && _).
  - eapply startRematch_all; eassumption.
  - apply Return_inj in H as [_ <-]. exact Hw1.
Qed.

Lemma leaveRoom_all (ws : wsref) (w w' : World) :
  leaveRoom ws w = Return tt w' -> rooms_all P w -> rooms_all P w'.
Proof.
  unfold leaveRoom. intros H Hw.
  destruct (ws_roomId (socket_of w ws)) as [k|];
    [| apply Return_inj in H as [_ <-]; exact Hw].
  destruct (w_rooms w !! k) as [room|] eqn:Hk.
  2:{ apply Return_inj in H as [_ <-].
      eapply all_rooms_eq; [| exact Hw]. reflexivity. }
  pose proof (all_lookup w k room Hw Hk) as Hroom.
  destruct (ws_side (socket_of w ws)) as [s|]; [| discriminate].
  cbv zeta in H. apply Return_inj in H as [_ <-].
  eapply all_rooms_eq; [apply w_rooms_upd_socket |].
  eapply all_rooms_eq; [apply w_rooms_upd_socket |].
  set (room' := set_player s (set_p_ws None (player s room)) room).
  assert (Hroom' : P room').
  { eapply P_same; [| | | | exact Hroom]; destruct s; reflexivity. }
  match goal with
  | |- context [store_room k room' ?w0] => assert (Hw0 : rooms_all P w0)
  end.
  { destruct (_ && _); [| exact Hw].
    eapply all_rooms_eq; [apply w_rooms_broadcastEvent | exact Hw]. }
  destruct (p_ws (pl_top (r_players room')));
    [| destruct (p_ws (pl_bottom (r_players room')))];
    try apply all_destroy; apply all_store; assumption.
Qed.

Variable ToNumber_builtin : json -> number.

Local Abbreviation on_message := (on_message ToNumber_builtin).
Local Abbreviation handle := (handle ToNumber_builtin).
Local Abbreviation reachable := (reachable ToNumber_builtin).

Lemma on_message_all (ws : wsref) (data : frame) (w w' : World) :
  on_message ws data w = Return tt w' -> rooms_all P w -> rooms_all P w'.
Proof.
  unfold on_message. intros H Hw.
  destruct data as [| msg]; [apply Return_inj in H as [_ <-]; exact Hw |].
  destruct msg; try (apply Return_inj in H as [_ <-]; exact Hw);
    repeat match type of H with
    | (if ?c then _ else _) = _ => destruct c
    | match ?x with _ => _ end = _ => destruct x eqn:?
    end;
    try discriminate H;
    try (apply Return_inj in H as [_ <-]; exact Hw);
    try (eapply tryMatch_all; [exact H |];
         eapply all_rooms_eq; [| exact Hw]; rewrite ?safeSend_outbox;
         reflexivity);
    try (apply Return_inj in H as [_ <-]; rewrite ?safeSend_outbox;
         eapply all_rooms_eq; [| exact Hw]; reflexivity);
    try (eapply leaveRoom_all; eassumption);
    try (eapply requestRematch_all; try eassumption;
         eapply all_lookup; eassumption);
    try (apply Return_inj in H as [_ <-]; apply all_store; [| exact Hw];
         apply P_paddle; eapply all_lookup; eassumption).
Qed.

Lemma on_close_all (ws : wsref) (w w' : World) :
  on_close ws w = Return tt w' -> rooms_all P w -> rooms_all P w'.
Proof.
  unfold on_close. intros H Hw.
  destruct (leaveRoom _ _) as [[] w1 | w1] eqn:Hl; [| discriminate].
  apply Return_inj in H as [_ <-].
  apply (all_rooms_eq w1); [reflexivity |].
  eapply leaveRoom_all; [exact Hl |].
  eapply all_rooms_eq; [| exact Hw]. reflexivity.
Qed.

Lemma on_interval_all (h : timer) (w : World) :
  rooms_all P w -> rooms_all P (on_interval h w).
Proof.
  intros Hw. unfold on_interval.
  destruct (w_timers w !! h) as [[kind k]|]; [| exact Hw].
  destruct (w_rooms w !! k) as [room|] eqn:Hk; [| exact Hw].
  destruct kind.
  - pose proof (all_lookup w k room Hw Hk) as Hroom.
    pose proof (P_tick room w Hroom) as Hi.
    destruct (tick_shape room w) as [_ Hq].
    destruct (tick room w) as [room' w1]. simpl in Hi, Hq.
    apply all_store; [exact Hi |].
    eapply all_rooms_eq; [apply quiet_rooms; exact Hq | exact Hw].
  - eapply all_rooms_eq; [| exact Hw].
    apply quiet_rooms, broadcastState_quiet.
Qed.

Lemma handle_all (e : event) (w w' : World) :
  handle e w = Return tt w' -> rooms_all P w -> rooms_all P w'.
Proof.
  destruct e; simpl; intros H Hw.
  - apply Return_inj in H as [_ <-]. unfold on_connection, uuidv4.
    cbv beta iota zeta.
    rewrite safeSend_outbox. eapply all_rooms_eq; [| exact Hw]. reflexivity.
  - eapply on_message_all; eassumption.
  - eapply on_close_all; [exact H |].
    eapply all_rooms_eq; [| exact Hw]. reflexivity.
  - eapply on_close_all; eassumption.
  - apply Return_inj in H as [_ <-]. apply on_interval_all. exact Hw.
  - apply Return_inj in H as [_ <-]. eapply all_rooms_eq; [| exact Hw].
    reflexivity.
  - apply Return_inj in H as [_ <-]. eapply all_rooms_eq; [| exact Hw].
    reflexivity.
Qed.

(** Such a property holds of every room of every state the process
    reaches. *)
Lemma reachable_all (w : World) : reachable w -> rooms_all P w.
Proof.
  induction 1 as [entropy clock | w e w' _ IH _ Hstep].
  - unfold rooms_all, initial. simpl. apply map_Forall_empty.
  - eapply handle_all; eassumption.
Qed.

End RoomInvariant.

(** ** The court along a run *)

Lemma court_same (r r' : Room) :
  r_params r' = r_params r -> r_paddles r' = r_paddles r ->
  r_ball r' = r_ball r -> r_phase r' = r_phase r ->
  court_inv r -> court_inv r'.
Proof. unfold court_inv. intros -> -> -> _. trivial. Qed.

Lemma court_new (id : uuid) (top bottom : wsref) (srv : side) (w : World) :
  court_inv (newRoom id top bottom srv w).
Proof.
  unfold court_inv, newRoom. cbn [r_params r_ball r_paddles topX bottomX].
  split; [reflexivity |]. split.
  - unfold WORLD_W, WORLD_H, INIT_BALL_SPEED. rewrite !div_finite by lra.
    do 5 eexists. split; [reflexivity |]. lra.
  - split; right; simpl; lra.
Qed.

Lemma nan_or_unit_clamp (v : number) :
  nan_or_unit (clamp v (Finite 0) (Finite 1)).
Proof.
  destruct v as [| | | r]; [left; reflexivity | | |];
    right; apply clamp_unit_not_NaN; discriminate.
Qed.

Lemma court_paddle (r : Room) (s : side) (v : number) :
  court_inv r -> court_inv (set_paddle s (clamp v (Finite 0) (Finite 1)) r).
Proof.
  intros (Hpar & Hball & Ht & Hb).
  destruct s; (split; [exact Hpar |]; split; [exact Hball |]); simpl;
    split; first [apply nan_or_unit_clamp | assumption].
Qed.

Lemma after_walls_ball (room : Room) (x y vx vy sp d r W : R) :
  r_ball room = mkBall (Finite x) (Finite y) (Finite vx) (Finite vy) (Finite sp) ->
  par_r (r_params room) = Finite r ->
  par_W (r_params room) = Finite W ->
  (r <= W - r)%R ->
  ∃ x1 vx1,
    after_walls room (Finite d)
    = mkBall (Finite x1) (Finite (y + vy * d)) (Finite vx1) (Finite vy)
        (Finite sp)
    ∧ (r <= x1 <= W - r)%R.
Proof.
  intros Hball Hr HW Hfit. unfold after_walls.
  rewrite Hball, Hr, HW. cbv zeta.
  cbn [b_x b_y b_vx b_vy set_b_x set_b_y]. autorewrite with js.
  destruct (Rle_dec (x + vx * d - r) 0) as [Hl | Hl].
  - rewrite le_finite_true by exact Hl. do 2 eexists.
    split; [reflexivity | lra].
  - rewrite le_finite_false by lra.
    destruct (Rle_dec W (x + vx * d + r)) as [Hh | Hh].
    + rewrite ge_finite_true by exact Hh. do 2 eexists.
      split; [reflexivity | lra].
    + rewrite ge_finite_false by lra. do 2 eexists.
      split; [reflexivity | lra].
Qed.

Lemma onScore_court (room : Room) (s : side) (w : World) :
  court_inv room -> court_inv (onScore room s w).1.
Proof.
  intros (Hpar & (x & y & vx & vy & sp & Hball & Hx & Hsp) & Ht & Hb).
  assert (Hreset : ∀ r', r_params r' = r_params room ->
            r_paddles r' = r_paddles room ->
            r_ball r' = mkBall (par_W (r_params room) / Finite 2)%js
                          (par_H (r_params room) / Finite 2)%js
                          (Finite 0) (Finite 0) INIT_BALL_SPEED ->
            court_inv r').
  { intros r' Hp' Hpd' Hb'. unfold court_inv. rewrite Hp', Hpd', Hb', Hpar.
    split; [reflexivity |]. split; [| split; assumption].
    simpl. unfold WORLD_W, WORLD_H, INIT_BALL_SPEED.
    rewrite !div_finite by lra. do 5 eexists. split; [reflexivity |]. lra. }
  assert (Hstop : ∀ r', r_params r' = r_params room ->
            r_paddles r' = r_paddles room ->
            r_ball r' = set_b_vy (Finite 0) (set_b_vx (Finite 0) (r_ball room)) ->
            court_inv r').
  { intros r' Hp' Hpd' Hb'. unfold court_inv. rewrite Hp', Hpd', Hb', Hball.
    split; [exact Hpar |]. split; [| split; assumption].
    do 5 eexists. split; [reflexivity |]. split; assumption. }
  unfold onScore, endGame.
  destruct (bool_decide (r_phase room ≠ Playing)).
  { simpl. unfold court_inv. rewrite Hball. split; [exact Hpar |].
    split; [| split; assumption]. do 5 eexists. split; [reflexivity |].
    split; assumption. }
  cbv zeta.
  destruct (_ && _); [apply Hstop; destruct s; reflexivity |].
  destruct (_ <=? _); [apply Hstop; destruct s; reflexivity |].
  apply Hreset; destruct s; reflexivity.
Qed.

Lemma speed_up_bounds (sp : R) :
  (780 <= sp <= 1200)%R ->
  (780 <= Rmax 100 (Rmin 1200 (sp * 1.03)) <= 1200)%R.
Proof.
  intros H. unfold Rmax, Rmin. repeat destruct (Rle_dec _ _); lra.
Qed.

Lemma integrate_court (room : Room) (d : R) (w : World) :
  court_inv room -> court_inv (integrate room (Finite d) w).1.
Proof.
  intros (Hpar & (x & y & vx & vy & sp & Hball & Hx & Hsp) & Ht & Hb).
  destruct (after_walls_ball room x y vx vy sp d (0.018 * 900) 900 Hball)
    as (x1 & vx1 & Haw & Hx1);
    [rewrite Hpar; reflexivity | rewrite Hpar; reflexivity | lra |].
  set (rr := set_r_ball (after_walls room (Finite d)) room).
  assert (Hrr : court_inv rr).
  { subst rr. unfold court_inv. cbn [r_params r_ball r_paddles set_r_ball].
    rewrite Haw. split; [exact Hpar |]. split; [| split; assumption].
    do 5 eexists. split; [reflexivity |]. split; assumption. }
  assert (Hbounce : ∀ s p, (0 <= p <= 1)%R ->
            court_inv (paddleBounce rr s (Finite p * par_W (r_params room))%js)).
  { intros s p Hp. rewrite Hpar. cbn [par_W demo_params]. unfold WORLD_W.
    autorewrite with js.
    pose proof (paddleBounce_ball rr s x1 (p * 900) (0.28 * 900) sp) as Hpb.
    cbv zeta in Hpb.
    unfold court_inv. rewrite Hpb.
    - assert (Hp' : r_params (paddleBounce rr s (Finite (p * 900)))
                    = r_params room) by (destruct s; reflexivity).
      assert (Hpd' : r_paddles (paddleBounce rr s (Finite (p * 900)))
                     = r_paddles room) by (destruct s; reflexivity).
      rewrite Hp', Hpd'. split; [exact Hpar |]. split; [| split; assumption].
      subst rr. cbn [r_ball set_r_ball]. rewrite Haw. cbn [b_y].
      do 5 eexists. split; [reflexivity |].
      split; [exact Hx1 | apply speed_up_bounds; exact Hsp].
    - subst rr. cbn [r_ball set_r_ball]. rewrite Haw. reflexivity.
    - subst rr. cbn [r_params set_r_ball]. rewrite Hpar. reflexivity.
    - lra.
    - subst rr. cbn [r_ball set_r_ball]. rewrite Haw. reflexivity. }
  assert (Hnan : ∀ X Y W, (X >=? NaN * W - Y)%js = false) by reflexivity.
  unfold integrate. fold (after_walls room (Finite d)).
  cbn [r_paddles set_r_ball r_params]. fold rr.
  match goal with
  | |- context [if ?c then (paddleBounce _ TopSide _, _) else _] =>
      destruct c eqn:Htop
  end.
  { simpl. destruct Ht as [Hn | Hu].
    - rewrite Hn, Hnan in Htop. simpl andb in Htop.
      rewrite andb_false_r in Htop. discriminate.
    - destruct (topX (r_paddles room)) as [| | | p]; try contradiction.
      apply Hbounce. exact Hu. }
  match goal with
  | |- context [if ?c then (paddleBounce _ BottomSide _, _) else _] =>
      destruct c eqn:Hbot
  end.
  { simpl. destruct Hb as [Hn | Hu].
    - rewrite Hn, Hnan in Hbot. simpl andb in Hbot.
      rewrite andb_false_r in Hbot. discriminate.
    - destruct (bottomX (r_paddles room)) as [| | | p]; try contradiction.
      apply Hbounce. exact Hu. }
  clear Htop Hbot.
  destruct (_ <? _)%js; [apply onScore_court; exact Hrr |].
  destruct (_ >? _)%js; [apply onScore_court; exact Hrr |].
  exact Hrr.
Qed.

Lemma court_tick (room : Room) (w : World) :
  court_inv room -> court_inv (tick room w).1.
Proof.
  intros Hc.
  assert (Hlast : court_inv (set_r_lastTickAt (nowMs w) room)).
  { eapply court_same; [| | | | exact Hc]; reflexivity. }
  unfold tick. cbv zeta.
  destruct (_ <=? _)%js; [exact Hlast |].
  destruct (bool_decide (r_phase _ ≠ Playing)).
  - destruct (_ && _); [| exact Hlast].
    destruct (_ || _); [| exact Hlast].
    rewrite serveBall_spec. cbv zeta. cbn [fst].
    destruct Hc as (Hpar & _ & Ht & Hb).
    unfold court_inv. cbn [r_params r_ball r_paddles set_r_phase set_r_ball
                             set_r_lastTickAt r_serveToward].
    rewrite Hpar. split; [reflexivity |]. split; [| split; assumption].
    cbn [par_W par_H demo_params]. unfold WORLD_W, WORLD_H, INIT_BALL_SPEED.
    rewrite !div_finite by lra. autorewrite with js.
    destruct (r_serveToward room); autorewrite with js;
      do 5 eexists; (split; [reflexivity |]); lra.
  - unfold of_Z, MAX_DT. rewrite div_finite by lra.
    destruct (_ >? _)%js; apply integrate_court; exact Hlast.
Qed.

Section CourtFacts.

Variable ToNumber_builtin : json -> number.

Local Abbreviation reachable := (reachable ToNumber_builtin).

Lemma reachable_court (w : World) (k : uuid) (room : Room) :
  reachable w -> w_rooms w !! k = Some room -> court_inv room.
Proof.
  intros Hreach Hk.
  exact (reachable_all court_inv court_same court_new court_tick court_paddle
           ToNumber_builtin w Hreach k room Hk).
Qed.

(** X22.  In every state the process
    reaches, for every registered room: the court has the dimensions of
    [WORLD]; the position and the velocity of the ball are finite numbers,
    never NaN or an infinity; and the ball is between the side walls, its
    centre at least one radius from each. *)
Theorem ball_stays_between_walls (w : World) (k : uuid) (room : Room) :
  reachable w ->
  w_rooms w !! k = Some room ->
  par_W (r_params room) = Finite 900
  ∧ par_r (r_params room) = Finite (0.018 * 900)
  ∧ ∃ x y vx vy,
      b_x (r_ball room) = Finite x ∧ b_y (r_ball room) = Finite y
      ∧ b_vx (r_ball room) = Finite vx ∧ b_vy (r_ball room) = Finite vy
      ∧ (0.018 * 900 <= x <= 900 - 0.018 * 900)%R.
Proof.
  intros Hreach Hk.
  destruct (reachable_court w k room Hreach Hk)
    as (Hpar & (x & y & vx & vy & sp & Hball & Hx & _) & _).
  rewrite Hpar, Hball. split; [reflexivity |]. split; [reflexivity |].
  exists x, y, vx, vy. repeat (split; [reflexivity |]). exact Hx.
Qed.

(** X23.  In every state the process reaches, the
    speed of the ball of every registered room is between
    [INIT_BALL_SPEED] = 780 and [MAX_BALL_SPEED] = 1200: the lower bound
    100 that [paddleBounce] passes to [clamp] never applies. *)
Theorem ball_speed_bounds (w : World) (k : uuid) (room : Room) (s : side)
    (cx : number) :
  reachable w ->
  w_rooms w !! k = Some room ->
  ∃ sp, b_speed (r_ball room) = Finite sp
        ∧ (780 <= sp <= 1200)%R
        ∧ b_speed (r_ball (paddleBounce room s cx))
          = Finite (Rmin 1200 (sp * 1.03)).
Proof.
  intros Hreach Hk.
  destruct (reachable_court w k room Hreach Hk)
    as (_ & (x & y & vx & vy & sp & Hball & _ & Hsp) & _).
  exists sp. rewrite Hball. split; [reflexivity |]. split; [exact Hsp |].
  assert (Hspeed : b_speed (r_ball (paddleBounce room s cx))
                   = clamp (b_speed (r_ball room) * SPEED_UP)%js (Finite 100)
                       MAX_BALL_SPEED) by (destruct s; reflexivity).
  rewrite Hspeed, Hball. cbn [b_speed]. unfold SPEED_UP, MAX_BALL_SPEED.
  autorewrite with js. rewrite ?clamp_finite. f_equal.
  unfold Rmax, Rmin. repeat destruct (Rle_dec _ _); lra.
Qed.

(** X24.  In every state the process reaches, each
    paddle position of every registered room is a number of the unit
    interval or NaN; it is never an infinity nor outside [0, 1]. *)
Theorem paddles_nan_or_unit (w : World) (k : uuid) (room : Room) :
  reachable w ->
  w_rooms w !! k = Some room ->
  nan_or_unit (topX (r_paddles room)) ∧ nan_or_unit (bottomX (r_paddles room)).
Proof.
  intros Hreach Hk.
  destruct (reachable_court w k room Hreach Hk) as (_ & _ & Ht & Hb).
  split; assumption.
Qed.

End CourtFacts.

Lemma ball_stays_between_walls_witness :
  ∃ x, b_x (r_ball demo_room) = Finite x
       ∧ (0.018 * 900 <= x <= 900 - 0.018 * 900)%R.
Proof.
  destruct (ball_stays_between_walls no_builtin demo_world 2 demo_room
              demo_reachable eq_refl)
    as (_ & _ & x & y & vx & vy & Hx & _ & _ & _ & Hin).
  exists x. split; assumption.
Defined.

Lemma ball_speed_bounds_witness :
  ∃ sp, b_speed (r_ball demo_room) = Finite sp
        ∧ (780 <= sp <= 1200)%R
        ∧ b_speed (r_ball (paddleBounce demo_room TopSide (Finite 450)))
          = Finite (Rmin 1200 (sp * 1.03)).
Proof.
  exact (ball_speed_bounds no_builtin demo_world 2 demo_room TopSide
           (Finite 450) demo_reachable eq_refl).
Defined.

Lemma paddles_nan_or_unit_witness :
  nan_or_unit (topX (r_paddles demo_room))
  ∧ nan_or_unit (bottomX (r_paddles demo_room)).
Proof.
  exact (paddles_nan_or_unit no_builtin demo_world 2 demo_room demo_reachable
           eq_refl).
Defined.

(** ** The ball out of play *)

Lemma rest_same (r r' : Room) :
  r_params r' = r_params r -> r_paddles r' = r_paddles r ->
  r_ball r' = r_ball r -> r_phase r' = r_phase r ->
  rest_inv r -> rest_inv r'.
Proof. unfold rest_inv. intros -> _ -> ->. trivial. Qed.

Lemma rest_new (id : uuid) (top bottom : wsref) (srv : side) (w : World) :
  rest_inv (newRoom id top bottom srv w).
Proof. split; intros _; repeat split; reflexivity. Qed.

Lemma rest_paddle (r : Room) (s : side) (v : number) :
  rest_inv r -> rest_inv (set_paddle s (clamp v (Finite 0) (Finite 1)) r).
Proof. intros H. destruct s; exact H. Qed.

Lemma rest_playing (r : Room) : r_phase r = Playing -> rest_inv r.
Proof.
  intros Hph. split; rewrite Hph; [intros H; contradiction H; reflexivity |].
  intros [H | H]; discriminate.
Qed.

Lemma onScore_rest (room : Room) (s : side) (w : World) :
  rest_inv room -> rest_inv (onScore room s w).1.
Proof.
  intros Hr. unfold onScore, endGame.
  destruct (bool_decide (r_phase room ≠ Playing)); [exact Hr |].
  cbv zeta.
  assert (Hover : ∀ r', r_phase r' = Gameover ->
            b_vx (r_ball r') = Finite 0 -> b_vy (r_ball r') = Finite 0 ->
            rest_inv r').
  { intros r' Hph Hvx Hvy. split; [intros _; split; assumption |].
    rewrite Hph. intros [H | H]; discriminate. }
  destruct (_ && _); [apply Hover; destruct s; reflexivity |].
  destruct (_ <=? _); [apply Hover; destruct s; reflexivity |].
  split; intros _; destruct s; repeat split; reflexivity.
Qed.

Lemma integrate_rest (room : Room) (dt : number) (w : World) :
  r_phase room = Playing -> rest_inv (integrate room dt w).1.
Proof.
  intros Hph.
  assert (Hrr : rest_inv (set_r_ball (after_walls room dt) room))
    by (apply rest_playing; exact Hph).
  destruct (integrate_exits room dt w)
    as [(s & cx & ->) | [(_ & ->) | [(_ & _ & ->) | (_ & _ & ->)]]].
  - apply rest_playing. destruct s; exact Hph.
  - apply onScore_rest. exact Hrr.
  - apply onScore_rest. exact Hrr.
  - exact Hrr.
Qed.

Lemma rest_tick (room : Room) (w : World) :
  rest_inv room -> rest_inv (tick room w).1.
Proof.
  intros Hr.
  assert (Hlast : rest_inv (set_r_lastTickAt (nowMs w) room)).
  { eapply rest_same; [| | | | exact Hr]; reflexivity. }
  unfold tick. cbv zeta.
  destruct (_ <=? _)%js; [exact Hlast |].
  destruct (bool_decide (r_phase _ ≠ Playing)) eqn:Hph.
  - destruct (_ && _); [| exact Hlast].
    destruct (_ || _); [| exact Hlast].
    rewrite serveBall_spec. apply rest_playing. reflexivity.
  - apply bool_decide_eq_false_1 in Hph.
    destruct (_ >? _)%js; apply integrate_rest;
      (destruct (decide (r_phase (set_r_lastTickAt (nowMs w) room) = Playing))
         as [H | H]; [exact H | contradiction]).
Qed.

Section RestFacts.

Variable ToNumber_builtin : json -> number.

Local Abbreviation on_message := (on_message ToNumber_builtin).
Local Abbreviation reachable := (reachable ToNumber_builtin).

(** X25.  In every state the process reaches, for
    every registered room: out of [playing] the velocity of the ball is
    zero, and in [countdown] and [between] the ball is at the centre of
    the court with the initial speed, so that every serve starts from
    there. *)
Theorem ball_rests_out_of_play (w : World) (k : uuid) (room : Room) :
  reachable w ->
  w_rooms w !! k = Some room ->
  (r_phase room ≠ Playing ->
   b_vx (r_ball room) = Finite 0 ∧ b_vy (r_ball room) = Finite 0)
  ∧ (r_phase room = Countdown ∨ r_phase room = Between ->
     b_x (r_ball room) = (par_W (r_params room) / Finite 2)%js
     ∧ b_y (r_ball room) = (par_H (r_params room) / Finite 2)%js
     ∧ b_speed (r_ball room) = INIT_BALL_SPEED).
Proof.
  intros Hreach Hk.
  exact (reachable_all rest_inv rest_same rest_new rest_tick rest_paddle
           ToNumber_builtin w Hreach k room Hk).
Qed.


(** X27.  The vote that completes the rematch in
    a room that is over, both players being there with open sockets: the
    opponent is still sent [rematchOffered]; then the new room is made and
    both are sent [matchFound], the old top first; then both are sent
    [rematchStart]; the old room is gone and the new one is registered
    under the fresh id, in [countdown]. *)
Theorem second_rematch_vote_restarts (ws a b : wsref)
    (props : list (string * json)) (k : uuid) (s : side) (room : Room)
    (w : World) :
  assoc "type" props = Some (JString "rematchRequest") ->
  ws_roomId (socket_of w ws) = Some k ->
  ws_side (socket_of w ws) = Some s ->
  w_rooms w !! k = Some room ->
  r_id room = k ->
  w_uuid w ≠ k ->
  r_phase room = Gameover ->
  vote (opponentSide s) room = true ->
  p_ws (pl_top (r_players room)) = Some a ->
  p_ws (pl_bottom (r_players room)) = Some b ->
  a ≠ b ->
  is_open w a = true ->
  is_open w b = true ->
  let o := match s with TopSide => b | BottomSide => a end in
  let found := MatchFound (w_uuid w) (ws_name (socket_of w a))
                 (ws_name (socket_of w b)) in
  ∃ w' newRoom,
    on_message ws (Parsed (JObject props)) w = Return tt w'
    ∧ w_rooms w' !! k = None
    ∧ w_rooms w' !! w_uuid w = Some newRoom
    ∧ r_phase newRoom = Countdown
    ∧ hearts_of newRoom = mkHearts HEARTS_START HEARTS_START
    ∧ w_outbox w'
      = w_outbox w
        ++ [(o, RematchOffered); (a, found TopSide 3); (b, found BottomSide 3);
            (a, RematchStart 3); (b, RematchStart 3)].
Proof.
  intros Htype Hroom Hside Hk Hid Hfresh Hph Hvote Ha Hb Hab Hoa Hob o found.
  rewrite (rematch_message ToNumber_builtin ws props k s room w Htype Hroom
             Hside Hk).
  unfold requestRematch.
  rewrite bool_decide_eq_false_2 by (rewrite Hph; intros H; apply H; reflexivity).
  set (room2 := set_vote s true room).
  assert (Hboth : vote_top (r_rematchVotes room2)
                  && vote_bottom (r_rematchVotes room2) = true).
  { subst room2. destruct s; simpl in *; rewrite Hvote; reflexivity. }
  rewrite Hboth.
  assert (Hopp : p_ws (player (opponentSide s) room2) = Some o).
  { subst room2 o. destruct s; simpl; assumption. }
  rewrite Hopp.
  assert (Hoo : is_open (store_room k room2 w) o = true).
  { subst o. destruct s; assumption. }
  rewrite Hoo.
  set (w3 := safeSend (Some o) RematchOffered (store_room k room2 w)).
  assert (Hs3 : ∀ x, socket_of w3 x = socket_of w x).
  { intros x. subst w3. autorewrite with socket_of. reflexivity. }
  assert (Hout3 : w_outbox w3 = w_outbox w ++ [(o, RematchOffered)]).
  { subst w3. rewrite w_outbox_safeSend, Hoo. reflexivity. }
  assert (Hu3 : w_uuid w3 = w_uuid w).
  { subst w3. autorewrite with w_uuid. reflexivity. }
  assert (Hr3 : w_rooms w3 = <[k := room2]> (w_rooms w)).
  { subst w3. autorewrite with w_rooms. reflexivity. }
  unfold startRematch.
  assert (Ha2 : p_ws (pl_top (r_players room2)) = Some a)
    by (subst room2; destruct s; exact Ha).
  assert (Hb2 : p_ws (pl_bottom (r_players room2)) = Some b)
    by (subst room2; destruct s; exact Hb).
  rewrite Ha2, Hb2.
  set (old' := set_r_rematchVotes (mkVotes false false) room2).
  set (w4 := store_room k old' w3).
  destruct (makeRoom_swap_outbox a b w4 Hab)
    as (new & w5 & Hrun & Hpt & Hpb & _ & _ & Hout5).
  destruct (makeRoom_swap_spec a b w4 Hab)
    as (new' & w5' & Hrun' & Hrid & Hh & Hph5 & _ & _ & _ & Hrooms5 & _ & Hsa
        & Hsb).
  rewrite Hrun in Hrun'. apply Return_inj in Hrun' as [<- <-].
  rewrite Hrun.
  assert (Hs4 : ∀ x, socket_of w4 x = socket_of w x).
  { intros x. subst w4. rewrite socket_of_store_room. apply Hs3. }
  assert (Hu4 : w_uuid w4 = w_uuid w) by exact Hu3.
  rewrite Hu4 in *.
  unfold is_open in Hout5, Hoa, Hob. rewrite !Hs4 in Hout5.
  rewrite Hoa, Hob in Hout5.
  assert (Hold : r_id old' = k) by (subst old' room2; destruct s; exact Hid).
  rewrite Hold.
  set (newR := set_r_nextPhaseAt (nowMs w5 + 3000) _).
  assert (Hridn : r_id newR = w_uuid w) by exact Hrid.
  rewrite Hridn.
  assert (Hptn : p_ws (pl_top (r_players newR)) = Some a) by exact Hpt.
  assert (Hpbn : p_ws (pl_bottom (r_players newR)) = Some b) by exact Hpb.
  eexists. exists newR. split; [reflexivity |].
  split.
  { autorewrite with w_rooms. apply lookup_delete_eq. }
  split.
  { autorewrite with w_rooms. rewrite lookup_delete_ne by congruence.
    apply lookup_insert_eq. }
  split; [reflexivity |]. split; [reflexivity |].
  rewrite destroyRoom_outbox, broadcastEvent_outbox.
  rewrite w_outbox_store_room, Hout5.
  change (w_outbox w4) with (w_outbox w3). rewrite Hout3.
  assert (Hrec : recipients newR (store_room (w_uuid w) newR w5) = [a; b]).
  { unfold recipients.
    assert (Hom : omap (fun s0 => p_ws (player s0 newR)) [TopSide; BottomSide]
                  = [a; b]).
    { clearbody newR. simpl. rewrite Hptn, Hpbn. reflexivity. }
    rewrite Hom.
    assert (Ho5 : ∀ x, x = a ∨ x = b ->
              is_open (store_room (w_uuid w) newR w5) x = true).
    { intros x Hx. unfold is_open. rewrite socket_of_store_room.
      apply bool_decide_eq_true_2.
      destruct Hx as [-> | ->]; [rewrite Hsa | rewrite Hsb]; rewrite Hs4;
        cbn [ws_readyState set_ws_roomId set_ws_side];
        [exact (bool_decide_eq_true_1 _ Hoa) | exact (bool_decide_eq_true_1 _ Hob)]. }
    apply (filter_pair (fun x => is_open (store_room (w_uuid w) newR w5) x = true));
      apply Ho5; auto. }
  rewrite Hrec. simpl map. subst found.
  rewrite <- !app_assoc. reflexivity.
Qed.

(** X28.  An open session without room joins a queue that
    is empty or holds only sessions whose sockets are no longer open: the
    stale sessions are dropped, the session waits alone, no room is made,
    and it is told [finding] with the length of the queue before the stale
    entries were dropped. *)
Theorem join_alone_waits (w : World) (ws : wsref) (msg : json) :
  type_is msg "joinQueue" = true ->
  is_open w ws = true ->
  ws_roomId (socket_of w ws) = None ->
  ws ∉ w_waitingQueue w ->
  (∀ a, a ∈ w_waitingQueue w -> is_open w a = false) ->
  ∃ w', on_message ws (Parsed msg) w = Return tt w'
        ∧ w_waitingQueue w' = [ws]
        ∧ w_rooms w' = w_rooms w
        ∧ w_timers w' = w_timers w
        ∧ w_outbox w'
          = w_outbox w ++ [(ws, Finding (S (length (w_waitingQueue w))))].
Proof.
  intros Htype Hows Hfree Hnew Hstale.
  destruct (type_is_guard msg _ Htype) as [props ->].
  unfold on_message. rewrite Htype. cbv zeta.
  set (name := sanitizeName (get_prop "name" (JObject props))).
  set (w1 := upd_socket ws (set_ws_name name) w).
  assert (Hs1 : ∀ x, x ≠ ws -> socket_of w1 x = socket_of w x).
  { intros x Hx. subst w1. apply socket_of_upd_socket_ne. congruence. }
  assert (Hs1' : socket_of w1 ws = set_ws_name name (socket_of w ws)).
  { subst w1. apply socket_of_upd_socket_eq. }
  rewrite bool_decide_eq_true_2 by (rewrite Hs1'; exact Hfree).
  rewrite bool_decide_eq_true_2 by exact Hnew.
  simpl andb. cbv iota.
  change (w_waitingQueue w1) with (w_waitingQueue w).
  set (w2 := set_w_waitingQueue (w_waitingQueue w ++ [ws]) w1).
  assert (Hlen : length (w_waitingQueue w2) = S (length (w_waitingQueue w))).
  { subst w2. rewrite w_waitingQueue_set_w_waitingQueue, length_app. simpl. lia. }
  rewrite Hlen.
  set (w3 := safeSend (Some ws) (Finding (S (length (w_waitingQueue w)))) w2).
  assert (Hs3 : ∀ x, socket_of w3 x = socket_of w1 x).
  { intros x. subst w3 w2. autorewrite with socket_of. reflexivity. }
  assert (Hout3 : w_outbox w3
                  = w_outbox w ++ [(ws, Finding (S (length (w_waitingQueue w))))]).
  { subst w3. rewrite w_outbox_safeSend.
    assert (Ho2 : is_open w2 ws = true).
    { unfold is_open in *. subst w2. autorewrite with socket_of.
      rewrite Hs1'. exact Hows. }
    rewrite Ho2. reflexivity. }
  assert (Hq3 : w_waitingQueue w3 = w_waitingQueue w ++ [ws]).
  { subst w3 w2. rewrite w_waitingQueue_safeSend.
    apply w_waitingQueue_set_w_waitingQueue. }
  unfold tryMatch.
  set (w4 := tryMatch_filter w3).
  assert (Hq4 : w_waitingQueue w4 = [ws]).
  { subst w4. unfold tryMatch_filter.
    rewrite w_waitingQueue_set_w_waitingQueue, Hq3.
    rewrite filter_app.
    assert (Hnil : filter (fun c => is_open w3 c = true
                                    ∧ ws_roomId (socket_of w3 c) = None)
                     (w_waitingQueue w) = []).
    { apply filter_none. intros a Ha [Hopen _].
      assert (a ≠ ws) by (intros ->; contradiction).
      unfold is_open in Hopen. rewrite Hs3, Hs1 in Hopen by assumption.
      pose proof (Hstale a Ha) as Hcl. unfold is_open in Hcl. congruence. }
    rewrite Hnil. simpl app.
    rewrite filter_cons_True; [reflexivity |].
    unfold is_open in *. rewrite !Hs3, Hs1'. split; assumption. }
  rewrite Hq4. simpl tryMatch_pairs.
  exists w4. split; [reflexivity |]. split; [exact Hq4 |].
  split; [subst w4 w3 w2 w1; unfold tryMatch_filter; autorewrite with w_rooms;
          reflexivity |].
  split; [subst w4 w3 w2 w1; unfold tryMatch_filter; autorewrite with w_timers;
          reflexivity |].
  exact Hout3.
Qed.

End RestFacts.

Lemma ball_rests_out_of_play_witness :
  r_phase demo_room0 ≠ Playing
  ∧ b_vx (r_ball demo_room0) = Finite 0 ∧ b_vy (r_ball demo_room0) = Finite 0.
Proof.
  assert (Hreach : reachable no_builtin demo_matched).
  { apply (reachable_step no_builtin demo_waiting (EvMessage 1 (join "Bob")));
      [exact demo_waiting_reachable | simpl; lia | exact demo_joins_second]. }
  destruct (ball_rests_out_of_play no_builtin demo_matched 2 demo_room0 Hreach
              eq_refl) as [Hrest _].
  split; [discriminate |]. apply Hrest. discriminate.
Defined.


Lemma second_rematch_vote_restarts_witness :
  ∃ w' newRoom,
    on_message no_builtin 0
      (Parsed (JObject [("type", JString "rematchRequest")])) demo_over_voted
    = Return tt w'
    ∧ w_rooms w' !! 2%nat = None
    ∧ w_rooms w' !! 3%nat = Some newRoom
    ∧ w_outbox w'
      = w_outbox demo_over_voted
        ++ [(1%nat, RematchOffered);
            (1%nat, MatchFound 3 "Bob" "Ann" TopSide 3);
            (0%nat, MatchFound 3 "Bob" "Ann" BottomSide 3);
            (1%nat, RematchStart 3); (0%nat, RematchStart 3)].
Proof.
  destruct (second_rematch_vote_restarts no_builtin 0 1 0
              [("type", JString "rematchRequest")] 2 BottomSide
              (set_r_rematchVotes (mkVotes true false)
                 (set_player TopSide (mkPlayer (Some 1%nat) 1 "Bob" 0)
                    (set_r_phase Gameover demo_room)))
              demo_over_voted)
    as (w' & newRoom & Hrun & Hold & Hnew & _ & _ & Hout);
    try reflexivity; try (simpl; lia).
  exists w', newRoom. split; [exact Hrun |]. split; [exact Hold |].
  split; [exact Hnew | exact Hout].
Defined.

Lemma join_alone_waits_witness :
  ∃ w', on_message no_builtin 0 (join "Ann") demo_connected = Return tt w'
        ∧ w_waitingQueue w' = [0%nat]
        ∧ w_outbox w' = w_outbox demo_connected ++ [(0%nat, Finding 1)].
Proof.
  destruct (join_alone_waits no_builtin demo_connected 0
              (JObject [("type", JString "joinQueue"); ("name", JString "Ann")]))
    as (w' & Hrun & Hq & _ & _ & Hout).
  - reflexivity.
  - reflexivity.
  - reflexivity.
  - intros Hin. inversion Hin.
  - intros a Hin. inversion Hin.
  - exists w'. split; [exact Hrun |]. split; [exact Hq | exact Hout].
Defined.

(** ** The serve and the state frames *)

Lemma sin_small (a : R) : (Rabs a <= 0.4)%R -> (Rabs (sin a) <= Rabs a)%R.
Proof.
  intros Ha. pose proof PI2_3_2 as Hpi.
  destruct (Rtotal_order a 0) as [Hneg | [-> | Hpos]].
  - rewrite (Rabs_left a) in * by exact Hneg.
    assert (H1 : (0 < sin (- a))%R) by (apply sin_gt_0; lra).
    assert (H2 : (sin (- a) < - a)%R) by (apply sin_lt_x; lra).
    rewrite sin_neg in H1, H2. rewrite Rabs_left by lra. lra.
  - rewrite sin_0, Rabs_R0. lra.
  - rewrite (Rabs_right a) in * by lra.
    assert (H1 : (0 < sin a)%R) by (apply sin_gt_0; lra).
    assert (H2 : (sin a < a)%R) by (apply sin_lt_x; lra).
    rewrite Rabs_right by lra. lra.
Qed.

(** X29.  For a draw of [Math.random()] in [0, 1): the ball is
    served from the centre of the court with the initial speed, towards
    the side [serveToward] (upwards for the top, downwards for the
    bottom), at an angle of at most 0.4 rad from the vertical, so that its
    lateral velocity is at most 0.4 times the initial speed. *)
Theorem serve_goes_to_serveToward (room : Room) (w : World) :
  (0 <= w_entropy w (w_draws w) < 1)%R ->
  let room' := (serveBall room w).1 in
  b_x (r_ball room') = (par_W (r_params room) / Finite 2)%js
  ∧ b_y (r_ball room') = (par_H (r_params room) / Finite 2)%js
  ∧ b_speed (r_ball room') = Finite 780
  ∧ ∃ vx vy,
      b_vx (r_ball room') = Finite vx
      ∧ b_vy (r_ball room') = Finite vy
      ∧ (Rabs vx <= 0.4 * 780)%R
      ∧ match r_serveToward room with
        | TopSide => (vy < 0)%R
        | BottomSide => (0 < vy)%R
        end.
Proof.
  intros Hu room'. subst room'. rewrite serveBall_spec. cbv zeta.
  cbn [fst r_ball set_r_ball b_x b_y b_vx b_vy b_speed].
  split; [reflexivity |]. split; [reflexivity |]. split; [reflexivity |].
  unfold INIT_BALL_SPEED. autorewrite with js.
  set (a := (w_entropy w (w_draws w) * 0.8 - 0.4)%R).
  assert (Hrange : (-0.4 <= a <= 0.4)%R) by (subst a; lra).
  assert (Ha : (Rabs a <= 0.4)%R) by (apply Rabs_le; lra).
  assert (Hcos : (0 < cos a)%R).
  { pose proof PI2_3_2 as Hpi. apply cos_gt_0; lra. }
  pose proof (sin_small a Ha) as Hsin.
  destruct (r_serveToward room); autorewrite with js;
    do 2 eexists; (split; [reflexivity |]); (split; [reflexivity |]);
    (split; [rewrite Rabs_mult, (Rabs_right 780) by lra; lra | lra]).
Qed.

Lemma broadcast_step (room : Room) (pl : side -> message) (s : side)
    (w : World) :
  match p_ws (player s room) with
  | Some ws => if is_open w ws then safeSend (Some ws) (pl s) w else w
  | None => w
  end
  = set_w_outbox
      (w_outbox w
       ++ match p_ws (player s room) with
          | Some ws => if is_open w ws then [(ws, pl s)] else []
          | None => []
          end) w.
Proof.
  destruct (p_ws (player s room)) as [ws|];
    [| rewrite app_nil_r, set_w_outbox_id; reflexivity].
  destruct (is_open w ws) eqn:Ho;
    [| rewrite app_nil_r, set_w_outbox_id; reflexivity].
  rewrite safeSend_outbox, Ho. reflexivity.
Qed.

Lemma set_w_outbox_twice (o o' : list (wsref * message)) (w : World) :
  set_w_outbox o' (set_w_outbox o w) = set_w_outbox o' w.
Proof. reflexivity. Qed.


Lemma serve_goes_to_serveToward_witness :
  ∃ vy, b_vy (r_ball (serveBall demo_room0 demo_matched).1) = Finite vy
        ∧ (0 < vy)%R.
Proof.
  destruct (serve_goes_to_serveToward demo_room0 demo_matched)
    as (_ & _ & _ & vx & vy & _ & Hvy & _ & Hdir).
  - unfold demo_matched, demo_entropy. simpl. lra.
  - exists vy. split; [exact Hvy | exact Hdir].
Defined.
